(** * The document-processing viewer (app.py): overlay rendering and the
      per-file flow, embedded in Rocq.

    The file follows [src/app.py].  Python values are modelled as the code has
    them: the fractional coordinates of a bounding box are binary64 floats
    (the kernel's primitive floats), pixel coordinates are unbounded integers
    (Python's; the drawing call of Pillow is modelled for corners in the
    range of a C int), an image is a mutable object living in a store of
    images, and every call that can raise returns either a value or an
    exception.

    Layout.  Definitions: Python's exceptions and numbers ([Py]); the store
    of images, what is shown, and the state-and-exception monad; the part of
    Pillow the program calls ([PIL]); the program ([App]); then what the
    statements need: the overlays as functions on image values
    ([Painting]), the groups of blocks ([Groups]), fractions and boxes
    ([Boxes]), the colour table as a lookup table ([Table]), the reporting
    of errors ([Flow]) and concrete inputs ([Examples]).  After the
    definitions come the lemmas, the statements C1 to C10 with their
    instances at concrete inputs, and runs of the whole flow.

    The last part of the file holds further properties of the program,
    X1 to X26: of the renderer, of the groups and the statistics, of the
    flow for one file step by step, of the helpers, and of [main] with the
    processing map and the select boxes.  Their definitions are the
    modules [Drawing], [Blend], [Css], [Trace], [Main] and [Cases]. *)

From Stdlib Require Import ZArith Lia Floats Ascii String.
From stdpp Require Import base option list strings pretty gmap.

Set Warnings "-inexact-float".
#[local] Set Default Proof Using "Type".
#[local] Open Scope Z_scope.

(* ===================================================================== *)
(** ** Python exceptions *)
(* ===================================================================== *)

Module Py.

(** The subclasses of [Exception] the flow distinguishes, and one class for
    all the others.  Exceptions outside [Exception] (KeyboardInterrupt,
    SystemExit) are not part of the model. *)
Inductive exn_class : Set :=
  | RequestException
  | JSONDecodeError
  | KeyError
  | ValueError
  | OverflowError
  | OtherException.

#[global] Instance exn_class_eq_dec : EqDecision exn_class.
Proof. solve_decision. Defined.

(** An exception instance: its class and [str(e)]. *)
Record exn : Set := Exn { exn_cls : exn_class; exn_str : string }.

#[global] Instance exn_eq_dec : EqDecision exn.
Proof. solve_decision. Defined.

(** *** Strings

    A string of the model is a Python [str] whose characters have code
    points below 256.  [repr] of a string, which is also [str] of a
    KeyError with that key, is written as CPython's [unicode_repr] writes
    it: between single quotes, or between double quotes when the string
    holds a single quote and no double quote; the quote in use and the
    backslash come after a backslash; tab, newline and carriage return are
    [\t], [\n] and [\r]; every other character that is not printable is
    [\x] with its two hexadecimal digits. *)
Definition code (c : ascii) : Z := Z.of_N (N_of_ascii c).

Definition squote : ascii := "'"%char.
Definition dquote : ascii := "034"%char.
Definition backslash : ascii := "\"%char.

(** [str.isprintable] of one character: the control characters, the
    no-break space (160) and the soft hyphen (173) are not printable. *)
Definition isprintable (c : ascii) : bool :=
  ((32 <=? code c) && (code c <? 127))
  || ((161 <=? code c) && negb (code c =? 173)).

Definition hexdigit (d : Z) : ascii :=
  match String.get (Z.to_nat d) "0123456789abcdef" with
  | Some c => c
  | None => "0"%char
  end.

Fixpoint holds (c : ascii) (s : string) : bool :=
  match s with
  | EmptyString => false
  | String c' s' => Ascii.eqb c c' || holds c s'
  end.

Definition repr_char (quote c : ascii) : string :=
  if Ascii.eqb c quote || Ascii.eqb c backslash then
    String backslash (String c EmptyString)
  else if Ascii.eqb c "009" then "\t"
  else if Ascii.eqb c "010" then "\n"
  else if Ascii.eqb c "013" then "\r"
  else if isprintable c then String c EmptyString
  else
    String backslash
      (String "x"
         (String (hexdigit (code c / 16))
            (String (hexdigit (code c mod 16)) EmptyString))).

(** The characters of the string, and the closing quote. *)
Fixpoint repr_chars (quote : ascii) (s : string) : string :=
  match s with
  | EmptyString => String quote EmptyString
  | String c s' => repr_char quote c +:+ repr_chars quote s'
  end.

Definition repr (s : string) : string :=
  let quote :=
    if holds squote s && negb (holds dquote s) then dquote else squote in
  String quote (repr_chars quote s).

(** *** Floats

    [img_width * bounding_box['Left']] multiplies an [int] by a [float]:
    Python converts the integer to binary64 and multiplies in binary64.
    The size of an image is far below [2^53], where the conversion is
    exact; the conversion below is Python's for every integer from 0 to
    [2^63 - 1]. *)
Definition float_of_int (n : Z) : float := PrimFloat.of_uint63 (Uint63.of_Z n).

(** The integer [m] of a finite float [(-1)^sg * m * 2^e], with its sign. *)
Definition signed (sg : bool) (m : positive) : Z :=
  if sg then Zneg m else Zpos m.

(** [int(f)]: the value [signed sg m * 2^e] truncated toward zero ([Z.quot]
    rounds toward zero); NaN raises ValueError and an infinity raises
    OverflowError. *)
Definition int_of_spec (s : spec_float) : exn + Z :=
  match s with
  | S754_zero _ => inr 0
  | S754_finite sg m e =>
      inr (match e with
           | Zneg p => Z.quot (signed sg m) (2 ^ Zpos p)
           | _ => signed sg m * 2 ^ e
           end)
  | S754_infinity _ =>
      inl (Exn OverflowError "cannot convert float infinity to integer")
  | S754_nan => inl (Exn ValueError "cannot convert float NaN to integer")
  end.

Definition int (f : float) : exn + Z := int_of_spec (Prim2SF f).

(** [math.floor(f)], the rounding the specification names: toward minus
    infinity ([Z.div] rounds down).  The program does not call it; the
    theorems compare [int] with it. *)
Definition floor_of_spec (s : spec_float) : option Z :=
  match s with
  | S754_zero _ => Some 0
  | S754_finite sg m e =>
      Some (match e with
            | Zneg p => Z.div (signed sg m) (2 ^ Zpos p)
            | _ => signed sg m * 2 ^ e
            end)
  | _ => None
  end.

Definition floor (f : float) : option Z := floor_of_spec (Prim2SF f).

End Py.

(* ===================================================================== *)
(** ** Images, the store and the monad *)
(* ===================================================================== *)

(** A pixel: the four bands (r, g, b, a), each an 8-bit value held in [Z]. *)
Definition rgba : Set := (Z * Z * Z * Z)%type.

Inductive mode : Set := RGB | RGBA.

#[global] Instance mode_eq_dec : EqDecision mode.
Proof. solve_decision. Defined.

(** A Pillow image: its mode, its size (width, height) and its rows of
    pixels, top row first.  In an RGB image the fourth band is padding. *)
Record Image : Set := mkImage {
  im_mode : mode;
  im_size : Z * Z;
  im_data : list (list rgba)
}.

(** Images are objects: a variable holds a reference into the store. *)
Abbreviation loc := nat.

(** The five numbers of the statistics dictionary. *)
Record Stats : Set := mkStats {
  Page_Count : Z;
  Line_Count : Z;
  Word_Count : Z;
  Figure_Count : Z;
  Table_Count : Z
}.

(** What the program shows, one event per Streamlit call, in call order. *)
Inductive ui_event : Set :=
  | st_write (s : string)
  | st_write_raw (label : string) (raw : string)
  | st_write_stats (label : string) (stats : Stats)
  | st_error (s : string)
  | st_expander (label : string)
  | st_code (s : string)
  | st_markdown (s : string)
  | st_legend_box (hex_color : string) (block_type : string)
  | st_text_line (text : string)
  | st_header (s : string)
  | st_subheader (s : string)
  | st_columns (n : Z)
  | st_image (img : loc).

(** The world a computation runs in: the store of image objects and what
    has been shown so far.  [raised] is a ghost field, not a Python object:
    the exceptions raised so far, caught or not, so that a theorem can say
    that an error was raised. *)
Record World : Set := mkWorld {
  images : list Image;
  ui : list ui_event;
  raised : list Py.exn
}.

(** A computation ends with a value or with a raised exception, and with
    the world as it is at that point. *)
Inductive result (A : Type) : Type :=
  | Ok (a : A) (w : World)
  | Raise (e : Py.exn) (w : World).
Arguments Ok {A} a w.
Arguments Raise {A} e w.

Definition M (A : Type) : Type := World -> result A.

#[global] Instance M_ret : MRet M := fun A a w => Ok a w.
#[global] Instance M_bind : MBind M := fun A B f m w =>
  match m w with
  | Ok a w' => f a w'
  | Raise e w' => Raise e w'
  end.

Definition raise {A} (e : Py.exn) : M A := fun w =>
  Raise e {| images := images w; ui := ui w; raised := raised w ++ [e] |}.

(** A call that returns or raises without touching the world. *)
Definition lift {A} (r : Py.exn + A) : M A :=
  match r with
  | inl e => raise e
  | inr a => mret a
  end.

(** [try: body except C as e: handler]: [handles] says whether the
    exception is an instance of [C]. *)
Definition try_except {A} (body : M A) (handles : Py.exn -> bool)
    (handler : Py.exn -> M A) : M A := fun w =>
  match body w with
  | Ok a w' => Ok a w'
  | Raise e w' => if handles e then handler e w' else Raise e w'
  end.

Definition emit (e : ui_event) : M unit := fun w =>
  Ok tt {| images := images w; ui := ui w ++ [e]; raised := raised w |}.

(** [for x in l: body(x)]. *)
Fixpoint for_ {A} (l : list A) (body : A -> M unit) : M unit :=
  match l with
  | [] => mret tt
  | x :: l' => body x ≫= fun _ => for_ l' body
  end.

(** [for x in l: v = body(v, x)]: a loop that rebinds one variable. *)
Fixpoint for_rebind {A V} (l : list A) (body : V -> A -> M V) (v : V) : M V :=
  match l with
  | [] => mret v
  | x :: l' => body v x ≫= for_rebind l' body
  end.

(** A new object in the store. *)
Definition alloc (im : Image) : M loc := fun w =>
  Ok (length (images w))
     {| images := images w ++ [im]; ui := ui w; raised := raised w |}.

(** Reading through a reference.  A reference the program holds always
    points into the store; the other case is there to make the function
    total. *)
Definition deref (l : loc) : M Image := fun w =>
  match images w !! l with
  | Some im => Ok im w
  | None => raise (Py.Exn Py.OtherException "invalid image reference") w
  end.

(** In-place update of the object behind a reference. *)
Definition store (l : loc) (im : Image) : M unit := fun w =>
  Ok tt {| images := <[l := im]> (images w); ui := ui w; raised := raised w |}.

(* ===================================================================== *)
(** ** Pillow, as far as the program calls it

    Pillow is a library outside the repository.  The definitions of this
    module state what its documentation and its implementation say of the
    five calls the program makes: [Image.new], [ImageDraw.Draw(..).rectangle],
    [Image.convert], [Image.alpha_composite] and the size of an image.
    Coordinates are integers without bound here.  Pillow reads the corners
    of a box as C doubles and converts them to C ints, so the definitions
    of this module are Pillow's for corners from [-2^31] to [2^31 - 1]:
    there the conversions are exact.  Beyond that range the result of the
    conversion is not fixed by C, and a number that is no double is
    refused; the definitions say nothing of Pillow there.  [Drawing.in_range]
    is the condition.  The statements on the colours of the pixels carry
    it as a hypothesis, or bound the fractions of the box, and so does the
    statement of the pages on which the renderer returns. *)
(* ===================================================================== *)

Module PIL.

(** [Image.new(mode, size, color)]. *)
Definition new_image (m : mode) (size : Z * Z) (color : rgba) : Image :=
  {| im_mode := m;
     im_size := size;
     im_data := replicate (Z.to_nat (snd size))
                  (replicate (Z.to_nat (fst size)) color) |}.

Definition Image_new (m : mode) (size : Z * Z) (color : rgba) : M loc :=
  alloc (new_image m size color).

(** [im.getpixel((x, y))] inside the image. *)
Definition getpixel (im : Image) (x y : nat) : option rgba :=
  im_data im !! y ≫= fun row => row !! x.

(** [draw.rectangle([(x0, y0), (x1, y1)], fill=ink)] paints every pixel of
    the image with [x0 <= x <= x1] and [y0 <= y <= y1]: the box includes
    both end points, and what lies outside the image is clipped away.
    This is what Pillow does for corners in the range of a C int. *)
Definition in_box (x0 y0 x1 y1 : Z) (x y : nat) : bool :=
  (x0 <=? Z.of_nat x) && (Z.of_nat x <=? x1) &&
  (y0 <=? Z.of_nat y) && (Z.of_nat y <=? y1).

Definition ink_of (m : mode) (fill : rgba) : rgba :=
  match m, fill with
  | RGBA, _ => fill
  | RGB, (r, g, b, _) => (r, g, b, 255)
  end.

Definition paint_rectangle (im : Image) (x0 y0 x1 y1 : Z) (fill : rgba)
    : Image :=
  {| im_mode := im_mode im;
     im_size := im_size im;
     im_data :=
       imap (fun y row =>
               imap (fun x p =>
                       if in_box x0 y0 x1 y1 x y
                       then ink_of (im_mode im) fill else p) row)
            (im_data im) |}.

(** The drawing object of [ImageDraw.Draw(im)] draws on [im] itself: the
    image is changed in place.  Pillow refuses a box whose second point
    lies before the first.  As [paint_rectangle], for corners in the range
    of a C int. *)
Definition ImageDraw_rectangle (im : loc) (xy0 xy1 : Z * Z) (fill : rgba)
    : M unit :=
  i ← deref im;
  if fst xy1 <? fst xy0 then
    raise (Py.Exn Py.ValueError "x1 must be greater than or equal to x0")
  else if snd xy1 <? snd xy0 then
    raise (Py.Exn Py.ValueError "y1 must be greater than or equal to y0")
  else store im (paint_rectangle i (fst xy0) (snd xy0) (fst xy1) (snd xy1) fill).

(** [im.convert('RGBA')] returns a new image: a copy when the image is RGBA
    already, and otherwise the same colours, fully opaque. *)
Definition convert_RGBA (im : Image) : Image :=
  {| im_mode := RGBA;
     im_size := im_size im;
     im_data :=
       match im_mode im with
       | RGBA => im_data im
       | RGB => fmap (M := list)
                  (fmap (M := list)
                     (fun p : rgba => let '(r, g, b, _) := p in (r, g, b, 255)))
                  (im_data im)
       end |}.

Definition Image_convert_RGBA (im : loc) : M loc :=
  i ← deref im; alloc (convert_RGBA i).

(** The division by 255 of Pillow's compositing code. *)
Definition SHIFTFORDIV255 (a : Z) : Z := Z.shiftr (Z.shiftr a 8 + a) 8.

Definition PRECISION_BITS : Z := 7.

(** One pixel of [Image.alpha_composite]: the source over the destination,
    in Pillow's integer arithmetic with rounded divisions.  A source pixel
    of alpha 0 leaves the destination pixel as it is. *)
Definition alpha_composite_pixel (dst src : rgba) : rgba :=
  let '(dr, dg, db, da) := dst in
  let '(sr, sg, sb, sa) := src in
  if sa =? 0 then dst
  else
    let blend := da * (255 - sa) in
    let outa255 := sa * 255 + blend in
    let coef1 := sa * 255 * 255 * Z.shiftl 1 PRECISION_BITS / outa255 in
    let coef2 := 255 * Z.shiftl 1 PRECISION_BITS - coef1 in
    let tmpr := sr * coef1 + dr * coef2 in
    let tmpg := sg * coef1 + dg * coef2 in
    let tmpb := sb * coef1 + db * coef2 in
    let half := Z.shiftl 128 PRECISION_BITS in
    (Z.shiftr (SHIFTFORDIV255 (tmpr + half)) PRECISION_BITS,
     Z.shiftr (SHIFTFORDIV255 (tmpg + half)) PRECISION_BITS,
     Z.shiftr (SHIFTFORDIV255 (tmpb + half)) PRECISION_BITS,
     SHIFTFORDIV255 (outa255 + 128)).

(** [Image.alpha_composite(im1, im2)]: both images must be RGBA and of the
    same size; the result is a new image. *)
Definition alpha_composite (im1 im2 : Image) : Py.exn + Image :=
  if negb (bool_decide (im_mode im1 = RGBA) && bool_decide (im_mode im2 = RGBA))
  then inl (Py.Exn Py.ValueError "image has wrong mode")
  else if negb (bool_decide (im_size im1 = im_size im2))
  then inl (Py.Exn Py.ValueError "images do not match")
  else inr {| im_mode := RGBA;
              im_size := im_size im1;
              im_data := zip_with (zip_with alpha_composite_pixel)
                           (im_data im1) (im_data im2) |}.

Definition Image_alpha_composite (im1 im2 : loc) : M loc :=
  i1 ← deref im1;
  i2 ← deref im2;
  out ← lift (alpha_composite i1 i2);
  alloc out.

End PIL.

(* ===================================================================== *)
(** ** app.py *)
(* ===================================================================== *)

Module App.
Import PIL.

Definition prefix : string := "pdpvp_textract_test_cases/".
Definition repo : string := "ipos-fst/public_artefacts".

(** The legend table: category name to RGBA tint, in the order written. *)
Definition BLOCK_COLORS : list (string * rgba) :=
  [ ("LAYOUT_FIGURE", (255, 0, 0, 64));
    ("LAYOUT_TABLE", (0, 0, 255, 64));
    ("LAYOUT_TEXT", (0, 255, 0, 64));
    ("LAYOUT_HEADER/TITLE", (128, 0, 128, 64));
    ("LAYOUT_FOOTER", (255, 255, 0, 64)) ].

(** *** The input: Textract blocks *)

Record BoundingBox_t : Set := mkBoundingBox {
  Left : float;
  Top : float;
  Width : float;
  Height : float
}.

Record Geometry_t : Set := mkGeometry { BoundingBox : BoundingBox_t }.

(** A block of the result file.  [Text] is present on LINE and WORD blocks
    only. *)
Record Block : Set := mkBlock {
  BlockType : string;
  Page : Z;
  Geometry : Geometry_t;
  Text : option string
}.

Record Part : Set := mkPart { Blocks : list Block }.

(** A PDF document, as far as the program looks at it: for each page, what
    [load_page], [get_pixmap], [tobytes] and [Image.open] make of it, an
    image or an exception. *)
Definition Pdf : Set := list (Py.exn + Image).

(** The collaborators outside the program: the HTTP request (with
    [raise_for_status]), the JSON parser, PyMuPDF, the path functions of the
    operating system and the traceback formatter. *)
Record Env : Type := mkEnv {
  requests_get : string -> Py.exn + string;
  json_loads : string -> Py.exn + gmap string (list Part);
  fitz_open : string -> Py.exn + Pdf;
  Path_join : string -> string -> string;
  os_path_normpath : string -> string;
  traceback_format_exc : Py.exn -> string
}.

(** [s.replace('\\', '/')]. *)
Fixpoint replace_backslash (s : string) : string :=
  match s with
  | EmptyString => EmptyString
  | String c s' =>
      String (if Ascii.eqb c "\"%char then "/"%char else c) (replace_backslash s')
  end.

(** *** get_github_file_content *)

Definition is_instance (c : Py.exn_class) (e : Py.exn) : bool :=
  bool_decide (Py.exn_cls e = c).

Definition get_github_file_content (env : Env) (path : string)
    : M (option string) :=
  try_except
    (let url := "https://raw.githubusercontent.com/" +:+ repo +:+ "/outputs/"
                +:+ path in
     content ← lift (requests_get env url);
     mret (Some content))
    (is_instance Py.RequestException)
    (fun e =>
       emit (st_error ("Error fetching file from GitHub: " +:+ Py.exn_str e));;
       mret None).

(** *** rgba_to_hex *)

Definition hex_digit (d : Z) : ascii :=
  match d with
  | 0 => "0" | 1 => "1" | 2 => "2" | 3 => "3" | 4 => "4" | 5 => "5"
  | 6 => "6" | 7 => "7" | 8 => "8" | 9 => "9" | 10 => "a" | 11 => "b"
  | 12 => "c" | 13 => "d" | 14 => "e" | _ => "f"
  end%char.

Fixpoint hex_digits (fuel : nat) (n : Z) (acc : string) : string :=
  match fuel with
  | O => acc
  | S fuel' =>
      let acc' := String (hex_digit (n mod 16)) acc in
      if n / 16 =? 0 then acc' else hex_digits fuel' (n / 16) acc'
  end.

(** The format [{n:02x}]: lower-case hexadecimal, padded with a zero to two
    characters. *)
Definition format_02x (n : Z) : string :=
  let digits := hex_digits (S (Z.to_nat (Z.log2 (Z.abs n)))) (Z.abs n) "" in
  if n <? 0 then "-" +:+ digits
  else if (String.length digits <? 2)%nat then "0" +:+ digits
  else digits.

Definition rgba_to_hex (c : rgba) : string :=
  let '(r, g, b, _) := c in
  "#" +:+ format_02x r +:+ format_02x g +:+ format_02x b.

(** *** display_legends_with_columns

    One coloured box per entry of [BLOCK_COLORS]; [st_legend_box] stands for
    the HTML of the box, which holds the colour and the category name.
    [legend_css] is the text of lines 40 to 50, the argument of the second
    [st.markdown], character by character: it starts with a newline and
    ends with the four spaces before the closing quotes. *)
Definition legend_css : string := "
        <style>
        .legend-box {
            padding: 5px;
            border-radius: 3px;
            margin: 2px 0;
            text-align: center;
            font-size: 14px;
        }
        </style>
    ".

Definition display_legends_with_columns : M unit :=
  emit (st_markdown "### Block Type Legend");;
  emit (st_markdown legend_css);;
  emit (st_columns (Z.of_nat (length BLOCK_COLORS)));;
  for_ BLOCK_COLORS (fun item =>
    let '(block_type, color) := item in
    let hex_color := rgba_to_hex color in
    emit (st_legend_box hex_color block_type)).

(** *** main: blocks by type (the statistics) *)

Record TopBlocks : Set := mkTopBlocks {
  line_blocks : list Block;
  word_blocks : list Block;
  figure_blocks : list Block;
  table_blocks : list Block
}.

Definition no_top_blocks : TopBlocks := mkTopBlocks [] [] [] [].

(** The body of the loop of lines 132-140: an if/elif chain. *)
Definition sort_block (t : TopBlocks) (block : Block) : TopBlocks :=
  if bool_decide (BlockType block = "LINE") then
    mkTopBlocks (line_blocks t ++ [block]) (word_blocks t)
                (figure_blocks t) (table_blocks t)
  else if bool_decide (BlockType block = "WORD") then
    mkTopBlocks (line_blocks t) (word_blocks t ++ [block])
                (figure_blocks t) (table_blocks t)
  else if bool_decide (BlockType block = "LAYOUT_FIGURE") then
    mkTopBlocks (line_blocks t) (word_blocks t)
                (figure_blocks t ++ [block]) (table_blocks t)
  else if bool_decide (BlockType block = "LAYOUT_TABLE") then
    mkTopBlocks (line_blocks t) (word_blocks t)
                (figure_blocks t) (table_blocks t ++ [block])
  else t.

Definition sort_blocks (all_blocks : list Block) : TopBlocks :=
  fold_left sort_block all_blocks no_top_blocks.

Definition len {A} (l : list A) : Z := Z.of_nat (length l).

Definition make_stats (pdf_document : Pdf) (t : TopBlocks) : Stats :=
  {| Page_Count := len pdf_document;
     Line_Count := len (line_blocks t);
     Word_Count := len (word_blocks t);
     Figure_Count := len (figure_blocks t);
     Table_Count := len (table_blocks t) |}.

(** *** main: the blocks of one page, by group *)

Record PageBlocks : Set := mkPageBlocks {
  page_line_blocks : list Block;
  page_word_blocks : list Block;
  page_figure_blocks : list Block;
  page_table_blocks : list Block;
  page_text_blocks : list Block;
  page_header_blocks : list Block;
  page_footer_blocks : list Block
}.

Definition no_page_blocks : PageBlocks := mkPageBlocks [] [] [] [] [] [] [].

(** [if cond: l.append(block)]. *)
Definition append_if (cond : bool) (l : list Block) (block : Block) : list Block :=
  if cond then l ++ [block] else l.

(** The body of the loop of lines 162-179: a block of another page is
    passed over, and then seven independent [if]s, each with its own list. *)
Definition group_block (page_num : Z) (g : PageBlocks) (block : Block)
    : PageBlocks :=
  if bool_decide (Page block ≠ page_num) then g
  else
    {| page_line_blocks :=
         append_if (bool_decide (BlockType block = "LINE"))
           (page_line_blocks g) block;
       page_word_blocks :=
         append_if (bool_decide (BlockType block = "WORD"))
           (page_word_blocks g) block;
       page_figure_blocks :=
         append_if (bool_decide (BlockType block = "LAYOUT_FIGURE"))
           (page_figure_blocks g) block;
       page_table_blocks :=
         append_if (bool_decide (BlockType block = "LAYOUT_TABLE"))
           (page_table_blocks g) block;
       page_text_blocks :=
         append_if (bool_decide (BlockType block = "LAYOUT_TEXT"))
           (page_text_blocks g) block;
       page_header_blocks :=
         append_if
           (bool_decide (BlockType block ∈
              ["LAYOUT_SECTION_HEADER"; "LAYOUT_HEADER"; "LAYOUT_TITLE"]))
           (page_header_blocks g) block;
       page_footer_blocks :=
         append_if (bool_decide (BlockType block = "LAYOUT_FOOTER"))
           (page_footer_blocks g) block |}.

Definition group_blocks (all_blocks : list Block) (page_num : Z) : PageBlocks :=
  fold_left (group_block page_num) all_blocks no_page_blocks.

(** *** main: the overlays of one page

    The source has the same loop five times, once per group, each with its
    own list and its own literal fill colour.  [overlay_block] is the body
    of that loop, with the fill as a parameter. *)
Definition overlay_block (fill : rgba) (img_width img_height : Z)
    (img : loc) (block : Block) : M loc :=
  let bounding_box := BoundingBox (Geometry block) in
  left ← lift (Py.int (Py.float_of_int img_width * Left bounding_box));
  top ← lift (Py.int (Py.float_of_int img_height * Top bounding_box));
  width ← lift (Py.int (Py.float_of_int img_width * Width bounding_box));
  height ← lift (Py.int (Py.float_of_int img_height * Height bounding_box));
  i ← deref img;
  overlay ← Image_new RGBA (im_size i) (0, 0, 0, 0);
  ImageDraw_rectangle overlay (left, top) (left + width, top + height) fill;;
  converted ← Image_convert_RGBA img;
  Image_alpha_composite converted overlay.

(** Lines 188-293: the size of the page image is read once, then the five
    loops run in the order figure, table, text, header, footer, each
    rebinding [img] to the composite it made. *)
Definition draw_overlays (g : PageBlocks) (img : loc) : M loc :=
  i ← deref img;
  let '(img_width, img_height) := im_size i in
  img ← for_rebind (page_figure_blocks g)
          (overlay_block (255, 0, 0, 64) img_width img_height) img;
  img ← for_rebind (page_table_blocks g)
          (overlay_block (0, 0, 255, 64) img_width img_height) img;
  img ← for_rebind (page_text_blocks g)
          (overlay_block (0, 255, 0, 64) img_width img_height) img;
  img ← for_rebind (page_header_blocks g)
          (overlay_block (128, 0, 128, 64) img_width img_height) img;
  img ← for_rebind (page_footer_blocks g)
          (overlay_block (255, 255, 0, 64) img_width img_height) img;
  mret img.

(** The renderer of one page: the grouping of the page's blocks followed
    by the overlays. *)
Definition render_page (all_blocks : list Block) (page_num : Z) (img : loc)
    : M loc :=
  draw_overlays (group_blocks all_blocks page_num) img.

(** *** main: one page *)

(** [Image.open] on the bytes of the page's pixmap: a new image object. *)
Definition Image_open (page : Py.exn + Image) : M loc :=
  im ← lift page; alloc im.

(** [pdf_document.load_page(page_num - 1)] and what follows it up to
    [Image.open]. *)
Definition load_page_image (pdf_document : Pdf) (index : Z) : M loc :=
  match pdf_document !! Z.to_nat index with
  | Some page => Image_open page
  | None => raise (Py.Exn Py.ValueError "page not in document")
  end.

(** [block["Text"]]. *)
Definition get_Text (block : Block) : Py.exn + string :=
  match Text block with
  | Some t => inr t
  | None => inl (Py.Exn Py.KeyError "'Text'")
  end.

(** The body of the loop over the pages (lines 154-301). *)
Definition show_page (pdf_document : Pdf) (all_blocks : list Block)
    (page_num : Z) : M unit :=
  let g := group_blocks all_blocks page_num in
  emit (st_columns 2);;
  emit (st_subheader ("Original PDF Page " +:+ pretty page_num));;
  img ← load_page_image pdf_document (page_num - 1);
  img ← draw_overlays g img;
  emit (st_image img);;
  emit (st_subheader "Extracted Text");;
  for_ (page_line_blocks g) (fun block =>
    text ← lift (get_Text block);
    emit (st_text_line text)).

(** *** main: the flow for the selected file *)

(** [content[document_key]]: for a key that is not there, a KeyError whose
    text is [repr] of the key. *)
Definition get_item (content : gmap string (list Part)) (key : string)
    : Py.exn + list Part :=
  match content !! key with
  | Some parts => inr parts
  | None => inl (Py.Exn Py.KeyError (Py.repr key))
  end.

(** What stands inside the outer [try] (lines 95-301).  A [return] ends
    the flow: nothing follows the [try] statement in [main]. *)
Definition process_file (env : Env) (selected_file pdf_path output_path : string)
    : M unit :=
  let output_path := replace_backslash output_path in
  emit (st_write ("Processing file: " +:+ output_path));;
  raw_content ← get_github_file_content env output_path;
  match raw_content with
  | None | Some EmptyString => emit (st_error "File is empty")
  | Some raw_content =>
      parsed ← try_except
        (content ← lift (json_loads env raw_content); mret (Some content))
        (is_instance Py.JSONDecodeError)
        (fun e =>
           emit (st_error ("Invalid JSON format: " +:+ Py.exn_str e));;
           emit (st_write_raw "Content that failed to parse:" raw_content);;
           emit (st_expander "Show Error Traceback");;
           emit (st_code (traceback_format_exc env e));;
           mret None);
      match parsed with
      | None => mret tt
      | Some content =>
          pdf_document ← lift (fitz_open env pdf_path);
          let document_key := prefix +:+ "/" +:+ pdf_path in
          let document_key :=
            replace_backslash (os_path_normpath env document_key) in
          textract_parts ← lift (get_item content document_key);
          let all_blocks := concat (fmap (M := list) Blocks textract_parts) in
          let t := sort_blocks all_blocks in
          let stats := make_stats pdf_document t in
          emit (st_write_stats "Statistics:" stats);;
          display_legends_with_columns;;
          emit (st_header ("Processed File: " +:+ selected_file));;
          for_ (seqZ 1 (len pdf_document)) (show_page pdf_document all_blocks)
      end
  end.

(** Lines 91-306: the paths, then the [try] with its handler for every
    [Exception]. *)
Definition main_selected (env : Env)
    (selected_folder selected_file output_path : string) : M unit :=
  let pdf_file := selected_file +:+ ".pdf" in
  let pdf_path := Path_join env selected_folder pdf_file in
  try_except
    (process_file env selected_file pdf_path output_path)
    (fun _ => true)
    (fun e =>
       emit (st_error ("Error loading processed file: " +:+ Py.exn_str e));;
       emit (st_expander "Show Error Traceback");;
       emit (st_code (traceback_format_exc env e))).

End App.

(* ===================================================================== *)
(** ** The overlays as functions on image values

    What one pass of the loop body, one loop and the five loops compute,
    read off the code above with the store left out.  The lemmas below
    prove that the program, run on the store, computes these values. *)
(* ===================================================================== *)

Module Painting.
Import PIL App.

Definition transparent : rgba := (0, 0, 0, 0).

(** Sequencing of calls that return or raise. *)
Definition and_then {A B} (r : Py.exn + A) (k : A -> Py.exn + B) : Py.exn + B :=
  match r with
  | inl e => inl e
  | inr a => k a
  end.

(** Lines 192-195 and the two corners of line 204: the box handed to
    [draw.rectangle], or the exception of the first [int] that fails. *)
Definition pixel_box (img_width img_height : Z) (bounding_box : BoundingBox_t)
    : Py.exn + (Z * Z) * (Z * Z) :=
  and_then (Py.int (Py.float_of_int img_width * Left bounding_box)) (fun left =>
  and_then (Py.int (Py.float_of_int img_height * Top bounding_box)) (fun top =>
  and_then (Py.int (Py.float_of_int img_width * Width bounding_box)) (fun width =>
  and_then (Py.int (Py.float_of_int img_height * Height bounding_box)) (fun height =>
  inr ((left, top), (left + width, top + height)))))).

(** The overlay of lines 199-206: transparent, with the box painted. *)
Definition overlay_of (size : Z * Z) (fill : rgba) (box : (Z * Z) * (Z * Z))
    : Image :=
  paint_rectangle (new_image RGBA size transparent)
    (fst (fst box)) (snd (fst box)) (fst (snd box)) (snd (snd box)) fill.

(** The image of line 209. *)
Definition composite_box (im : Image) (fill : rgba) (box : (Z * Z) * (Z * Z))
    : Image :=
  {| im_mode := RGBA;
     im_size := im_size im;
     im_data := zip_with (zip_with alpha_composite_pixel)
                  (im_data (convert_RGBA im))
                  (im_data (overlay_of (im_size im) fill box)) |}.

(** One pass of the loop body. *)
Definition paint_block (fill : rgba) (img_width img_height : Z) (im : Image)
    (block : Block) : Py.exn + Image :=
  match pixel_box img_width img_height (BoundingBox (Geometry block)) with
  | inl e => inl e
  | inr box =>
      if fst (snd box) <? fst (fst box) then
        inl (Py.Exn Py.ValueError "x1 must be greater than or equal to x0")
      else if snd (snd box) <? snd (fst box) then
        inl (Py.Exn Py.ValueError "y1 must be greater than or equal to y0")
      else inr (composite_box im fill box)
  end.

(** One loop. *)
Fixpoint paint_blocks (fill : rgba) (img_width img_height : Z)
    (blocks : list Block) (im : Image) : Py.exn + Image :=
  match blocks with
  | [] => inr im
  | block :: blocks' =>
      match paint_block fill img_width img_height im block with
      | inl e => inl e
      | inr im' => paint_blocks fill img_width img_height blocks' im'
      end
  end.

(** The groups in the order of the five loops, each with the fill colour
    its loop has. *)
Definition layers (g : PageBlocks) : list (rgba * list Block) :=
  [ ((255, 0, 0, 64), page_figure_blocks g);
    ((0, 0, 255, 64), page_table_blocks g);
    ((0, 255, 0, 64), page_text_blocks g);
    ((128, 0, 128, 64), page_header_blocks g);
    ((255, 255, 0, 64), page_footer_blocks g) ].

(** Several loops, one after the other. *)
Fixpoint paint_layers (img_width img_height : Z)
    (ls : list (rgba * list Block)) (im : Image) : Py.exn + Image :=
  match ls with
  | [] => inr im
  | (fill, blocks) :: ls' =>
      match paint_blocks fill img_width img_height blocks im with
      | inl e => inl e
      | inr im' => paint_layers img_width img_height ls' im'
      end
  end.

(** Lines 188-293 on an image value. *)
Definition paint_page (g : PageBlocks) (im : Image) : Py.exn + Image :=
  paint_layers (fst (im_size im)) (snd (im_size im)) (layers g) im.

(** The blocks in the order they are painted, each with its fill. *)
Definition painted (ls : list (rgba * list Block)) : list (rgba * Block) :=
  ls ≫= fun l => pair (fst l) <$> snd l.

(** Whether the box of a block holds the pixel. *)
Definition covers (img_width img_height : Z) (block : Block) (x y : nat)
    : bool :=
  match pixel_box img_width img_height (BoundingBox (Geometry block)) with
  | inr box =>
      in_box (fst (fst box)) (snd (fst box)) (fst (snd box)) (snd (snd box)) x y
  | inl _ => false
  end.

(** The fills of the painted blocks that hold the pixel, in paint order. *)
Definition tints_at (img_width img_height : Z) (pb : list (rgba * Block))
    (x y : nat) : list rgba :=
  fst <$> filter (fun tb => covers img_width img_height (snd tb) x y = true) pb.

(** A pixel as [convert('RGBA')] reads it. *)
Definition as_rgba (m : mode) (p : rgba) : rgba :=
  match m with
  | RGBA => p
  | RGB => let '(r, g, b, _) := p in (r, g, b, 255)
  end.

(** *** The program and the store *)

(** The extension of a world by new image objects. *)
Definition add_images (w : World) (extra : list Image) : World :=
  {| images := images w ++ extra; ui := ui w; raised := raised w |}.

Definition add_raised (w : World) (e : Py.exn) : World :=
  {| images := images w; ui := ui w; raised := raised w ++ [e] |}.

(** Whether a loop has a block to paint. *)
Definition nonempty (blocks : list Block) : bool :=
  negb (bool_decide (blocks = [])).

(** Whether a page has a block to paint. *)
Definition paints (g : PageBlocks) : bool :=
  nonempty (page_figure_blocks g) || (nonempty (page_table_blocks g) ||
  (nonempty (page_text_blocks g) || (nonempty (page_header_blocks g) ||
  (nonempty (page_footer_blocks g) || false)))).

(** [m], started with the reference [img] to the image [im], computes [r]:
    it returns a reference to the image [r] holds, or raises the exception
    [r] holds; it only adds objects to the store; and the reference it
    returns is [img] itself when nothing was painted and a new one
    otherwise. *)
Definition computes (m : M loc) (r : Py.exn + Image) (fresh : bool)
    (img : loc) (w : World) : Prop :=
  match r with
  | inr out =>
      exists l' extra,
        m w = Ok l' (add_images w extra) /\
        images (add_images w extra) !! l' = Some out /\
        (if fresh then (length (images w) <= l')%nat
         else l' = img /\ extra = [])
  | inl e =>
      exists extra, m w = Raise e (add_raised (add_images w extra) e)
  end.

End Painting.

(* ===================================================================== *)
(** ** The blocks of a page, by type and by group *)
(* ===================================================================== *)

Module Groups.
Import PIL App Painting.

Definition header_types : list string :=
  ["LAYOUT_SECTION_HEADER"; "LAYOUT_HEADER"; "LAYOUT_TITLE"].

(** The block types the renderer paints: those the page loop tests for
    its five painted groups. *)
Definition painted_types : list string :=
  ["LAYOUT_FIGURE"; "LAYOUT_TABLE"; "LAYOUT_TEXT"; "LAYOUT_SECTION_HEADER";
   "LAYOUT_HEADER"; "LAYOUT_TITLE"; "LAYOUT_FOOTER"].

Definition on_page (page_num : Z) (types : list string) (block : Block) : Prop :=
  Page block = page_num /\ BlockType block ∈ types.

#[global] Instance on_page_dec page_num types block :
  Decision (on_page page_num types block).
Proof. unfold on_page. apply _. Defined.

Definition has_type (t : string) (block : Block) : Prop := BlockType block = t.

#[global] Instance has_type_dec t block : Decision (has_type t block).
Proof. unfold has_type. apply _. Defined.

(** The place of a block type in the paint order: figure 0, table 1,
    text 2, header 3, footer 4; the other types are not painted. *)
Definition group_of (block_type : string) : option nat :=
  if bool_decide (block_type = "LAYOUT_FIGURE") then Some 0%nat
  else if bool_decide (block_type = "LAYOUT_TABLE") then Some 1%nat
  else if bool_decide (block_type = "LAYOUT_TEXT") then Some 2%nat
  else if bool_decide (block_type ∈ header_types) then Some 3%nat
  else if bool_decide (block_type = "LAYOUT_FOOTER") then Some 4%nat
  else None.

(** The fill colour of each of the five loops. *)
Definition group_fill (c : nat) : rgba :=
  match c with
  | 0%nat => (255, 0, 0, 64)
  | 1%nat => (0, 0, 255, 64)
  | 2%nat => (0, 255, 0, 64)
  | 3%nat => (128, 0, 128, 64)
  | _ => (255, 255, 0, 64)
  end.

(** A block of the page whose type is one of the painted ones. *)
Definition painted_block (page_num : Z) (block : Block) : Prop :=
  Page block = page_num /\ is_Some (group_of (BlockType block)).

#[global] Instance painted_block_dec page_num block :
  Decision (painted_block page_num block).
Proof. unfold painted_block. apply _. Defined.

(** A block of the page that is painted in group [c] and holds the pixel. *)
Definition painted_at (page_num : Z) (img_width img_height : Z) (x y : nat)
    (c : nat) (block : Block) : Prop :=
  (Page block = page_num /\ group_of (BlockType block) = Some c) /\
  covers img_width img_height block x y = true.

#[global] Instance painted_at_dec page_num W H x y c block :
  Decision (painted_at page_num W H x y c block).
Proof. unfold painted_at. apply _. Defined.

(** A block of the page that is painted and holds the pixel. *)
Definition shown_at (page_num : Z) (img_width img_height : Z) (x y : nat)
    (block : Block) : Prop :=
  (Page block = page_num /\ is_Some (group_of (BlockType block))) /\
  covers img_width img_height block x y = true.

#[global] Instance shown_at_dec page_num W H x y block :
  Decision (shown_at page_num W H x y block).
Proof. unfold shown_at. apply _. Defined.

End Groups.

(* ===================================================================== *)
(** ** Fractions and boxes *)
(* ===================================================================== *)

Module Boxes.
Import App.

(** A float that is not a finite negative number or minus infinity. *)
Definition not_negative (s : spec_float) : Prop :=
  match s with
  | S754_finite true _ _ => False
  | S754_infinity true => False
  | _ => True
  end.

(** [math.isfinite]: neither NaN nor an infinity. *)
Definition isfinite (f : float) : bool :=
  match Prim2SF f with
  | S754_zero _ | S754_finite _ _ _ => true
  | _ => false
  end.

(** A fraction of the data model: a float between 0 and 1. *)
Definition unit_fraction (x : float) : Prop :=
  (0 <=? x)%float = true /\ (x <=? 1)%float = true.

(** A box the renderer can draw on a page W wide and H high: left and top
    between 0 and 1, width and height not negative, and their products
    with the page size finite. *)
Definition drawable_box (W H : Z) (bb : BoundingBox_t) : Prop :=
  unit_fraction (Left bb) /\ unit_fraction (Top bb) /\
  ((0 <=? Width bb)%float = true /\
   isfinite (Py.float_of_int W * Width bb) = true) /\
  ((0 <=? Height bb)%float = true /\
   isfinite (Py.float_of_int H * Height bb) = true).

(** [v] clamped to the interval from [lo] to [hi]. *)
Definition clamp (lo hi v : Z) : Z := Z.max lo (Z.min hi v).

End Boxes.

(* ===================================================================== *)
(** ** The colour table as the specification uses it *)
(* ===================================================================== *)

Module Table.
Import PIL App.

(** [d[key]] on a table of pairs. *)
Fixpoint dict_get {V} (d : list (string * V)) (key : string) : option V :=
  match d with
  | [] => None
  | (k, v) :: d' => if bool_decide (k = key) then Some v else dict_get d' key
  end.

(** The painted groups of a page under the names the legend gives them,
    in the order of the legend. *)
Definition legend_groups (g : PageBlocks) : list (string * list Block) :=
  [ ("LAYOUT_FIGURE", page_figure_blocks g);
    ("LAYOUT_TABLE", page_table_blocks g);
    ("LAYOUT_TEXT", page_text_blocks g);
    ("LAYOUT_HEADER/TITLE", page_header_blocks g);
    ("LAYOUT_FOOTER", page_footer_blocks g) ].

(** The overlays as the specification words them (its design notes): one
    loop over the pairs of a category and its regions, the tint of each
    category looked up in the colour table, and a category that is not in
    the table passed over. *)
Definition draw_overlays_by_table (style_table : list (string * rgba))
    (groups : list (string * list Block)) (img : loc) : M loc :=
  i ← deref img;
  let '(img_width, img_height) := im_size i in
  for_rebind groups
    (fun img group =>
       match dict_get style_table (fst group) with
       | Some tint =>
           for_rebind (snd group) (overlay_block tint img_width img_height) img
       | None => mret img
       end)
    img.

(** What the legend shows: one box per entry of the table. *)
Definition legend_boxes (style_table : list (string * rgba)) : list ui_event :=
  (fun item => st_legend_box (rgba_to_hex (snd item)) (fst item))
  <$> style_table.

Definition alpha (c : rgba) : Z := snd c.

End Table.

(* ===================================================================== *)
(** ** Errors and what is shown *)
(* ===================================================================== *)

Module Flow.

(** A computation that does not catch exceptions: when it returns nothing
    was raised on the way, and it only adds to what is shown. *)
Definition quiet {A} (m : M A) : Prop :=
  forall w,
    match m w with
    | Ok _ w' => raised w' = raised w /\ exists new, ui w' = ui w ++ new
    | Raise _ w' => exists new, ui w' = ui w ++ new
    end.

(** A computation that reports its errors: when it returns after an
    exception was raised on the way, an error message is among what it has
    shown. *)
Definition reported {A} (m : M A) : Prop :=
  forall w,
    match m w with
    | Ok _ w' =>
        exists new, ui w' = ui w ++ new /\
          (raised w' <> raised w -> exists msg, st_error msg ∈ new)
    | Raise _ w' => exists new, ui w' = ui w ++ new
    end.

(** A handler: it returns, and it shows an error message. *)
Definition reports {A} (m : M A) : Prop :=
  forall w, exists a w' new,
    m w = Ok a w' /\ ui w' = ui w ++ new /\ exists msg, st_error msg ∈ new.

End Flow.

(* ===================================================================== *)
(** ** Concrete inputs *)
(* ===================================================================== *)

Module Examples.
Import PIL App.

Definition white : rgba := (255, 255, 255, 255).

(** A white RGB page image, 4 pixels wide and 3 high, alone in the store. *)
Definition ex_base : Image := new_image RGB (4, 3) white.
Definition ex_world : World := mkWorld [ex_base] [] [].

Definition ex_block (block_type : string) (l t w h : float) : Block :=
  mkBlock block_type 1 (mkGeometry (mkBoundingBox l t w h)) None.

(** A footer over the columns 1 to 3 of the rows 0 and 1, and a text block
    over the columns 0 to 2 of all rows. *)
Definition ex_footer : Block := ex_block "LAYOUT_FOOTER" 0.25 0 0.5 0.5.
Definition ex_text : Block := ex_block "LAYOUT_TEXT" 0 0 0.5 1.

(** A table block whose box reaches beyond the right and the lower edge of
    the page. *)
Definition ex_table : Block := ex_block "LAYOUT_TABLE" 0.5 0.5 1 1.

(** A text block of width 0 at the middle of the page, half the page high. *)
Definition ex_zero_width : Block := ex_block "LAYOUT_TEXT" 0.5 0 0 0.5.

(** A text block whose width is a float so large that four times it is
    beyond the range of the floats. *)
Definition ex_huge_width : Block := ex_block "LAYOUT_TEXT" 0.5 0 1e308 0.5.

(** A text block that starts three tenths of a page left of the page. *)
Definition ex_negative_left : Block := ex_block "LAYOUT_TEXT" (-0.3) 0 0.5 0.5.

(** A footer over the upper half of the page whose width is a float so
    large that four times it is beyond the range of the floats. *)
Definition ex_huge_footer : Block := ex_block "LAYOUT_FOOTER" 0 0 1e308 0.5.

(** A text block twice as wide and as high as the page. *)
Definition ex_oversized : Block := ex_block "LAYOUT_TEXT" 0.5 0.5 2 2.

(** A block of a type the renderer does not know, with a width that no
    box could have. *)
Definition ex_unknown : Block := ex_block "LAYOUT_LIST" 0.5 0 1e308 0.5.

(** A section header on page 1. *)
Definition ex_section_header : Block :=
  ex_block "LAYOUT_SECTION_HEADER" 0 0 1 0.25.

(** Collapsing repeated slashes, which is what [os.path.normpath] does to
    the document key. *)
Fixpoint collapse_slashes (s : string) : string :=
  match s with
  | EmptyString => EmptyString
  | String c s' =>
      match s' with
      | String c' _ =>
          if Ascii.eqb c "/" && Ascii.eqb c' "/" then collapse_slashes s'
          else String c (collapse_slashes s')
      | EmptyString => String c EmptyString
      end
  end.

(** One LINE block of page 1. *)
Definition ex_line : Block :=
  mkBlock "LINE" 1 (mkGeometry (mkBoundingBox 0 0 1 0.25)) (Some "Hello").

(** A result file with one part for the document [docs/a.pdf]. *)
Definition ex_content : gmap string (list Part) :=
  {[ "pdpvp_textract_test_cases/docs/a.pdf"
     := [mkPart [ex_line; ex_footer; ex_text]] ]}.

(** Collaborators that all succeed: the fetch returns a file, the parser
    the content above, and the PDF has one page, the white image. *)
Definition ex_env : Env :=
  {| requests_get := fun _ => inr "{...}";
     json_loads := fun _ => inr ex_content;
     fitz_open := fun _ => inr [inr ex_base];
     Path_join := fun a b => a +:+ "/" +:+ b;
     os_path_normpath := collapse_slashes;
     traceback_format_exc := fun e => "Traceback: " +:+ Py.exn_str e |}.

(** The same with a fetch that fails. *)
Definition ex_env_no_fetch : Env :=
  {| requests_get := fun _ =>
       inl (Py.Exn Py.RequestException "404 Client Error");
     json_loads := json_loads ex_env;
     fitz_open := fitz_open ex_env;
     Path_join := Path_join ex_env;
     os_path_normpath := os_path_normpath ex_env;
     traceback_format_exc := traceback_format_exc ex_env |}.

(** The same with a file that is not JSON. *)
Definition ex_env_bad_json : Env :=
  {| requests_get := requests_get ex_env;
     json_loads := fun _ => inl (Py.Exn Py.JSONDecodeError "Expecting value");
     fitz_open := fitz_open ex_env;
     Path_join := Path_join ex_env;
     os_path_normpath := os_path_normpath ex_env;
     traceback_format_exc := traceback_format_exc ex_env |}.

(** The same with a PDF that cannot be opened. *)
Definition ex_env_no_pdf : Env :=
  {| requests_get := requests_get ex_env;
     json_loads := json_loads ex_env;
     fitz_open := fun _ => inl (Py.Exn Py.OtherException "no such file");
     Path_join := Path_join ex_env;
     os_path_normpath := os_path_normpath ex_env;
     traceback_format_exc := traceback_format_exc ex_env |}.

Definition no_world : World := mkWorld [] [] [].

End Examples.

(* ===================================================================== *)
(** ** Boxes the drawing call accepts *)
(* ===================================================================== *)

Module Drawing.
Import PIL App Painting.

(** Whether the loop body gets through for a block on a page W wide and H
    high: the four [int] calls return, and the second corner of the box is
    not before the first, which is what [draw.rectangle] asks for. *)
Definition draws (W H : Z) (block : Block) : bool :=
  match pixel_box W H (BoundingBox (Geometry block)) with
  | inr box =>
      (fst (fst box) <=? fst (snd box)) && (snd (fst box) <=? snd (snd box))
  | inl _ => false
  end.

(** A number in the range of a C int. *)
Definition c_int (n : Z) : bool := (- 2 ^ 31 <=? n) && (n <? 2 ^ 31).

(** The box of the block, when the four [int] calls return, has its four
    corner coordinates in the range of a C int.  This is the range in which
    [PIL.ImageDraw_rectangle] is what Pillow does.  A block whose [int]
    calls do not all return never reaches the drawing call, and is in
    range. *)
Definition in_range (W H : Z) (block : Block) : bool :=
  match pixel_box W H (BoundingBox (Geometry block)) with
  | inr box =>
      c_int (fst (fst box)) && c_int (snd (fst box)) &&
      c_int (fst (snd box)) && c_int (snd (snd box))
  | inl _ => true
  end.

(** A call that returns. *)
Definition returns {A} (r : Py.exn + A) : Prop := exists a, r = inr a.

(** The exceptions the loop body raises: ValueError, from [int] of a NaN
    and from the drawing call, and OverflowError, from [int] of an
    infinity. *)
Definition drawing_error (e : Py.exn) : Prop :=
  Py.exn_cls e = Py.ValueError \/ Py.exn_cls e = Py.OverflowError.

(** The four fractions of a block are finite floats. *)
Definition finite_box (bb : BoundingBox_t) : bool :=
  Boxes.isfinite (Left bb) && Boxes.isfinite (Top bb) &&
  Boxes.isfinite (Width bb) && Boxes.isfinite (Height bb).

(** The nine block types the page loop tests for. *)
Definition grouped_types : list string :=
  ["LINE"; "WORD"; "LAYOUT_FIGURE"; "LAYOUT_TABLE"; "LAYOUT_TEXT";
   "LAYOUT_SECTION_HEADER"; "LAYOUT_HEADER"; "LAYOUT_TITLE"; "LAYOUT_FOOTER"].

(** The seven lists of a page, one after the other. *)
Definition all_groups (g : PageBlocks) : list Block :=
  page_line_blocks g ++ page_word_blocks g ++ page_figure_blocks g ++
  page_table_blocks g ++ page_text_blocks g ++ page_header_blocks g ++
  page_footer_blocks g.

End Drawing.

(* ===================================================================== *)
(** ** A tint of alpha 64 over an opaque pixel *)
(* ===================================================================== *)

Module Blend.

(** A band of a pixel is a byte. *)
Definition byte (v : Z) : Prop := 0 <= v <= 255.

(** An opaque pixel: three bytes of colour and alpha 255. *)
Definition opaque (p : rgba) : Prop :=
  let '(r, g, b, a) := p in byte r /\ byte g /\ byte b /\ a = 255.

(** A tint as the program uses them: three bytes of colour and alpha 64. *)
Definition tint64 (p : rgba) : Prop :=
  let '(r, g, b, a) := p in byte r /\ byte g /\ byte b /\ a = 64.

(** One band of the blend: 64 parts of the tint and 191 parts of what was
    there, of 255, rounded to the nearest integer. *)
Definition mix64 (old tint : Z) : Z := (191 * old + 64 * tint + 127) / 255.

Definition blend64 (p tint : rgba) : rgba :=
  let '(r, g, b, _) := p in
  let '(tr, tg, tb, _) := tint in
  (mix64 r tr, mix64 g tg, mix64 b tb, 255).

End Blend.

(* ===================================================================== *)
(** ** The colour of a legend box, read back *)
(* ===================================================================== *)

Module Css.

(** The place of a character in a string, counted from 0. *)
Fixpoint index_of (c : ascii) (s : string) : option Z :=
  match s with
  | EmptyString => None
  | String c' s' =>
      if Ascii.eqb c c' then Some 0 else Z.succ <$> index_of c s'
  end.

(** The value of a hexadecimal digit, written in lower or in upper case. *)
Definition hex_value (c : ascii) : option Z :=
  match index_of c "0123456789abcdef" with
  | Some v => Some v
  | None => Z.add 10 <$> index_of c "ABCDEF"
  end.

Definition hex_pair (hi lo : ascii) : option Z :=
  h ← hex_value hi; l ← hex_value lo; Some (16 * h + l).

(** The colour [#rrggbb] as a style sheet reads it: red, green and blue. *)
Definition css_color (s : string) : option (Z * Z * Z) :=
  match s with
  | String "#" (String r1 (String r0 (String g1 (String g0
      (String b1 (String b0 EmptyString)))))) =>
      r ← hex_pair r1 r0; g ← hex_pair g1 g0; b ← hex_pair b1 b0;
      Some (r, g, b)
  | _ => None
  end.

(** The colour a legend box is shown in, as red, green and blue. *)
Definition legend_box_color (ev : ui_event) : option (Z * Z * Z) :=
  match ev with
  | st_legend_box hex_color _ => css_color hex_color
  | _ => None
  end.

(** The red, green and blue of a tint. *)
Definition rgb (c : rgba) : Z * Z * Z := fst c.

(** Whether a string holds the character. *)
Fixpoint has_char (c : ascii) (s : string) : bool :=
  match s with
  | EmptyString => false
  | String c' s' => Ascii.eqb c c' || has_char c s'
  end.

End Css.

(* ===================================================================== *)
(** ** What a page shows *)
(* ===================================================================== *)

Module Trace.
Import App.

(** The world after more has been shown. *)
Definition shows (w : World) (new : list ui_event) : World :=
  {| images := images w; ui := ui w ++ new; raised := raised w |}.

(** A computation that only adds: the image objects that exist stay as
    they are and new ones come after them, what has been shown stays and
    more is shown after it, and the same for the exceptions raised. *)
Definition only_adds {A} (m : M A) : Prop :=
  forall w,
    match m w with
    | Ok _ w' | Raise _ w' =>
        (exists extra, images w' = images w ++ extra) /\
        (exists new, ui w' = ui w ++ new) /\
        (exists es, raised w' = raised w ++ es)
    end.

(** The Streamlit calls of one page that is shown without an error: the
    two columns, the heading of the page, its image, the heading of the
    text column and one line per LINE block. *)
Definition page_events (page_num : Z) (img : loc) (texts : list string)
    : list ui_event :=
  [st_columns 2; st_subheader ("Original PDF Page " +:+ pretty page_num);
   st_image img; st_subheader "Extracted Text"]
  ++ (st_text_line <$> texts).

(** The calls of the pages [first], [first + 1], ..., one image reference
    per page. *)
Fixpoint pages_events (all_blocks : list Block) (first : Z) (imgs : list loc)
    : list ui_event :=
  match imgs with
  | [] => []
  | img :: imgs' =>
      page_events first img
        (omap Text (page_line_blocks (group_blocks all_blocks first)))
      ++ pages_events all_blocks (first + 1) imgs'
  end.

(** What the handler of the outer [try] shows. *)
Definition handler_events (env : Env) (e : Py.exn) : list ui_event :=
  [st_error ("Error loading processed file: " +:+ Py.exn_str e);
   st_expander "Show Error Traceback";
   st_code (traceback_format_exc env e)].

(** The address the file is fetched from. *)
Definition url_of (path : string) : string :=
  "https://raw.githubusercontent.com/" +:+ repo +:+ "/outputs/" +:+ path.

(** The key of the document in the result file. *)
Definition document_key_of (env : Env) (pdf_path : string) : string :=
  replace_backslash (os_path_normpath env (prefix +:+ "/" +:+ pdf_path)).

(** A page the flow can show: it rasterises to an image, the box of every
    painted block of the page can be drawn and has its corners in the range
    of a C int, and every LINE block of the page has its text. *)
Definition page_ok (all_blocks : list Block) (page_num : Z)
    (page : Py.exn + Image) : Prop :=
  exists im,
    page = inr im /\
    (forall b, b ∈ all_blocks -> Groups.painted_block page_num b ->
       Drawing.draws (fst (im_size im)) (snd (im_size im)) b = true /\
       Drawing.in_range (fst (im_size im)) (snd (im_size im)) b = true) /\
    (forall b, b ∈ all_blocks -> Groups.on_page page_num ["LINE"] b ->
       is_Some (Text b)).

(** The pages [first], [first + 1], ... of a document can all be shown. *)
Fixpoint pages_ok (all_blocks : list Block) (first : Z)
    (pages : list (Py.exn + Image)) : Prop :=
  match pages with
  | [] => True
  | page :: pages' =>
      page_ok all_blocks first page /\ pages_ok all_blocks (first + 1) pages'
  end.

End Trace.

(* ===================================================================== *)
(** ** main: the processing map and the two select boxes *)
(* ===================================================================== *)

Module Main.
Import App.

(** A Python [dict] with string keys: its items in insertion order.  The
    keys of a dict are distinct. *)
Definition dict (V : Type) : Type := list (string * V).

(** [list(d.keys())]. *)
Definition keys {V} (d : dict V) : list string := fst <$> d.

(** [d[key]]: for a key that is not there, a KeyError whose text is
    [repr] of the key. *)
Definition getitem {V} (d : dict V) (key : string) : Py.exn + V :=
  match Table.dict_get d key with
  | Some v => inr v
  | None => inl (Py.Exn Py.KeyError (Py.repr key))
  end.

(** What [open('processing_map.json', 'r')] does: it opens the file, it
    raises FileNotFoundError, or it raises another exception (the file is a
    directory, it may not be read, ...).  FileNotFoundError is the one class
    [load_processed_results] tells from the others. *)
Inductive open_result : Set :=
  | open_file (text : string)
  | open_FileNotFoundError (e : Py.exn)
  | open_error (e : Py.exn).

(** The collaborators of [main] outside the flow for one file: the file
    system, [json.load] on the processing map, which is a dict of folders,
    each a dict from file names to output paths, and the user at the select
    boxes.  [st.selectbox(label, options)] is modelled by the option it
    returns, or None; the widget is not among the events recorded. *)
Record Session : Type := mkSession {
  open_ : string -> open_result;
  json_load : string -> Py.exn + dict (dict string);
  st_selectbox : string -> list string -> option string
}.

(** A select box returns one of the options it was given. *)
Definition selectbox_sound (s : Session) : Prop :=
  forall label options o, st_selectbox s label options = Some o -> o ∈ options.

(** Lines 67-74.  The handler is for FileNotFoundError only: every other
    exception of [open], and every exception of [json.load], leaves the
    function. *)
Definition load_processed_results (s : Session)
    : M (option (dict (dict string))) :=
  match open_ s "processing_map.json" with
  | open_file f =>
      results ← lift (json_load s f);
      mret (Some results)
  | open_FileNotFoundError e =>
      try_except (raise e) (fun _ => true)
        (fun _ =>
           emit (st_error
             "No previously processed results found. Please process files first.");;
           mret None)
  | open_error e => raise e
  end.

(** Lines 76-306.  [if results:], [if selected_folder:] and
    [if selected_file:] test the truth value: None, the empty dict and the
    empty string are false. *)
Definition main (env : Env) (s : Session) : M unit :=
  emit (st_header "Document Processing Viewer");;
  results ← load_processed_results s;
  match results with
  | None | Some [] => mret tt
  | Some results =>
      let folders := keys results in
      match st_selectbox s "Select Folder" folders with
      | None | Some EmptyString => mret tt
      | Some selected_folder =>
          folder ← lift (getitem results selected_folder);
          let files := keys folder in
          match st_selectbox s "Select File" files with
          | None | Some EmptyString => mret tt
          | Some selected_file =>
              folder ← lift (getitem results selected_folder);
              output_path ← lift (getitem folder selected_file);
              main_selected env selected_folder selected_file output_path
          end
      end
  end.

End Main.
(* ===================================================================== *)
(** ** More concrete inputs *)
(* ===================================================================== *)

Module Cases.
Import PIL App Examples Main.

(** A text block that starts half a page left of the page and is as large
    as the page. *)
Definition ex_left_of_page : Block := ex_block "LAYOUT_TEXT" (-0.5) 0 1 1.

(** A figure whose left edge is not a number. *)
Definition ex_nan_left : Block := ex_block "LAYOUT_FIGURE" nan 0 0.5 0.5.

(** A table block of page 2. *)
Definition ex_page2_table : Block :=
  mkBlock "LAYOUT_TABLE" 2 (mkGeometry (mkBoundingBox 0 0 1 1)) None.

(** A LINE block of page 7. *)
Definition ex_page7_line : Block :=
  mkBlock "LINE" 7 (mkGeometry (mkBoundingBox 0 0 1 0.25)) (Some "Far away").

(** A WORD block of page 1. *)
Definition ex_word : Block :=
  mkBlock "WORD" 1 (mkGeometry (mkBoundingBox 0 0 0.25 0.25)) (Some "Hello").


(** Collaborators as in [ex_env], with a fetch that returns an empty
    file. *)
Definition ex_env_empty_file : Env :=
  {| requests_get := fun _ => inr "";
     json_loads := json_loads ex_env;
     fitz_open := fitz_open ex_env;
     Path_join := Path_join ex_env;
     os_path_normpath := os_path_normpath ex_env;
     traceback_format_exc := traceback_format_exc ex_env |}.

(** The same with a result file that holds another document only. *)
Definition ex_env_other_document : Env :=
  {| requests_get := requests_get ex_env;
     json_loads := fun _ =>
       inr {[ "pdpvp_textract_test_cases/docs/b.pdf" := [mkPart [ex_line]] ]};
     fitz_open := fitz_open ex_env;
     Path_join := Path_join ex_env;
     os_path_normpath := os_path_normpath ex_env;
     traceback_format_exc := traceback_format_exc ex_env |}.

(** The same with a PDF of three pages of which the second cannot be
    rasterised. *)
Definition ex_env_bad_page : Env :=
  {| requests_get := requests_get ex_env;
     json_loads := json_loads ex_env;
     fitz_open := fun _ =>
       inr [inr ex_base; inl (Py.Exn Py.OtherException "cannot render page");
            inr ex_base];
     Path_join := Path_join ex_env;
     os_path_normpath := os_path_normpath ex_env;
     traceback_format_exc := traceback_format_exc ex_env |}.

(** A file name that holds an apostrophe. *)
Definition ex_file_apostrophe : string := "anne's".

(** A processing map with the folder [docs] and its file [a], and another
    with a folder whose name is the empty string. *)
Definition ex_results : dict (dict string) :=
  [("docs", [("a", "out\a.json")])].
Definition ex_results_no_name : dict (dict string) :=
  [("", [("a", "out\a.json")])].

(** A session whose processing map is missing. *)
Definition ex_session_no_map : Session :=
  {| open_ := fun _ =>
       open_FileNotFoundError
         (Py.Exn Py.OtherException
            "[Errno 2] No such file or directory: 'processing_map.json'");
     json_load := fun _ => inr ex_results;
     st_selectbox := fun _ options => head options |}.

(** A session with the processing map above, the user leaving each select
    box at its first option. *)
Definition ex_session : Session :=
  {| open_ := fun _ => open_file "{...}";
     json_load := fun _ => inr ex_results;
     st_selectbox := fun _ options => head options |}.

(** The same with a processing map that is not JSON. *)
Definition ex_session_bad_map : Session :=
  {| open_ := fun _ => open_file "{";
     json_load := fun _ => inl (Py.Exn Py.JSONDecodeError "Expecting value");
     st_selectbox := fun _ options => head options |}.

(** The same with the map whose folder has the empty name. *)
Definition ex_session_no_name : Session :=
  {| open_ := fun _ => open_file "{...}";
     json_load := fun _ => inr ex_results_no_name;
     st_selectbox := fun _ options => head options |}.

End Cases.

Import PIL App Painting Groups Boxes Table Flow Examples Drawing.

(* ===================================================================== *)
(** ** Lemmas: the monad and the store *)
(* ===================================================================== *)

Section monad_lemmas.
Context {A B : Type}.

Lemma bind_Ok (m : M A) (f : A -> M B) w a w' :
  m w = Ok a w' -> (m ≫= f) w = f a w'.
Proof. unfold mbind, M_bind. by intros ->. Qed.

Lemma bind_Raise (m : M A) (f : A -> M B) w e w' :
  m w = Raise e w' -> (m ≫= f) w = Raise e w'.
Proof. unfold mbind, M_bind. by intros ->. Qed.

End monad_lemmas.

Lemma deref_Ok w l im : images w !! l = Some im -> deref l w = Ok im w.
Proof. unfold deref. by intros ->. Qed.

Lemma add_images_nil w : add_images w [] = w.
Proof. destruct w. unfold add_images. simpl. by rewrite app_nil_r. Qed.

Lemma add_images_app w l1 l2 :
  add_images (add_images w l1) l2 = add_images w (l1 ++ l2).
Proof. unfold add_images. simpl. by rewrite app_assoc. Qed.

Lemma lift_inr_bind {A B} (a : A) (f : A -> M B) w : (lift (inr a) ≫= f) w = f a w.
Proof. done. Qed.
Lemma alloc_bind {B} im (f : loc -> M B) w :
  (alloc im ≫= f) w = f (length (images w)) (add_images w [im]).
Proof. done. Qed.
Lemma store_bind {B} l im (f : unit -> M B) w :
  (store l im ≫= f) w
  = f tt {| images := <[l := im]> (images w); ui := ui w; raised := raised w |}.
Proof. done. Qed.
Lemma deref_bind {B} l im (f : Image -> M B) w :
  images w !! l = Some im -> (deref l ≫= f) w = f im w.
Proof. intros H. unfold mbind, M_bind. by rewrite (deref_Ok _ _ _ H). Qed.
Lemma bind_assoc {A B C} (m : M A) (f : A -> M B) (g : B -> M C) w :
  ((m ≫= f) ≫= g) w = (m ≫= fun a => f a ≫= g) w.
Proof. unfold mbind, M_bind. by destruct (m w). Qed.

Lemma store_fresh {B} im im' (f : unit -> M B) w :
  (store (length (images w)) im' ≫= f) (add_images w [im])
  = f tt (add_images w [im']).
Proof.
  rewrite store_bind. f_equal. unfold add_images. cbn [images ui raised].
  f_equal. rewrite insert_app_r_alt by lia. by rewrite Nat.sub_diag.
Qed.
Lemma lookup_add_images_old w extra l im :
  images w !! l = Some im -> images (add_images w extra) !! l = Some im.
Proof. intros. cbn [images add_images]. by apply lookup_app_l_Some. Qed.
Lemma lookup_add_images_new w extra i :
  images (add_images w extra) !! (length (images w) + i)%nat = extra !! i.
Proof.
  cbn [images add_images]. rewrite lookup_app_r by lia. f_equal. lia.
Qed.

Lemma length_add_images w extra :
  length (images (add_images w extra)) = (length (images w) + length extra)%nat.
Proof. cbn [images add_images]. by rewrite length_app. Qed.

(* ===================================================================== *)
(** ** Lemmas: floats

    [int] against [floor], and the products of a fraction with the size of
    the page. *)
(* ===================================================================== *)

Lemma int_floor_not_negative s v :
  not_negative s -> Py.int_of_spec s = inr v ->
  Py.floor_of_spec s = Some v /\ 0 <= v.
Proof.
  destruct s as [sg|sg| |sg m e]; cbn; try done.
  - intros _ [= <-]. done.
  - destruct sg; [done|]. intros _ [= <-]. cbn [Py.signed].
    destruct e as [|p|p].
    + split; [done|lia].
    + split; [done|]. pose proof (Z.pow_pos_nonneg 2 (Z.pos p)). lia.
    + assert (0 < 2 ^ Z.pos p) by (apply Z.pow_pos_nonneg; lia).
      rewrite Z.quot_div_nonneg by lia. split; [done|].
      apply Z.div_pos; lia.
Qed.

Lemma binary_round_aux_sign sx mx ex lx :
  match binary_round_aux prec emax sx mx ex lx with
  | S754_finite s _ _ | S754_infinity s | S754_zero s => s = sx
  | S754_nan => True
  end.
Proof.
  unfold binary_round_aux.
  destruct (shr_fexp prec emax mx ex lx) as [mrs' e'].
  destruct (shr_fexp prec emax _ e' loc_Exact) as [mrs'' e''].
  destruct (shr_m mrs''); try done. by destruct (e'' <=? emax - prec).
Qed.

Lemma float_of_int_not_negative n :
  match Prim2SF (Py.float_of_int n) with
  | S754_finite s _ _ | S754_infinity s | S754_zero s => s = false
  | S754_nan => True
  end.
Proof.
  unfold Py.float_of_int. rewrite of_uint63_spec.
  pose proof (Uint63.to_Z_bounded (Uint63.of_Z n)) as Hb.
  destruct (Uint63.to_Z (Uint63.of_Z n)) as [|p|p]; cbn [binary_normalize].
  - done.
  - unfold binary_round. destruct (shl_align _ _ _) as [mz ez].
    apply binary_round_aux_sign.
  - lia.
Qed.

Lemma leb_zero_not_negative x :
  (0 <=? x)%float = true ->
  match Prim2SF x with
  | S754_finite s _ _ | S754_infinity s => s = false
  | S754_zero _ => True
  | S754_nan => False
  end.
Proof.
  rewrite leb_spec. change (Prim2SF 0) with (S754_zero false).
  unfold SFleb, SFcompare. destruct (Prim2SF x) as [s|s| |s m e]; try done.
  - by destruct s.
  - by destruct s.
Qed.

Lemma mul_not_negative n x :
  (0 <=? x)%float = true -> not_negative (Prim2SF (Py.float_of_int n * x)).
Proof.
  intros Hx%leb_zero_not_negative. rewrite mul_spec. unfold SF64mul.
  pose proof (float_of_int_not_negative n) as Hn.
  destruct (Prim2SF (Py.float_of_int n)) as [s|s| |s m e],
           (Prim2SF x) as [t|t| |t m' e']; subst; cbn; try done.
  pose proof (binary_round_aux_sign false (Z.pos (m * m')) (e + e') loc_Exact) as Hs.
  unfold not_negative. cbn in Hs.
  destruct (binary_round_aux _ _ _ _ _ _) as [u|u| |u ? ?]; subst; done.
Qed.

Lemma int_nonneg n x v :
  (0 <=? x)%float = true ->
  Py.int (Py.float_of_int n * x) = inr v ->
  Py.floor (Py.float_of_int n * x) = Some v /\ 0 <= v.
Proof.
  intros Hx Hv. apply int_floor_not_negative; [|done]. by apply mul_not_negative.
Qed.

(** *** No overflow for a fraction between 0 and 1 *)

Lemma digits2_pos_size p : digits2_pos p = Pos.size p.
Proof. induction p; cbn; by rewrite ?IHp. Qed.

Lemma Zdigits2_bound m K : 0 <= m < 2 ^ K -> 0 <= K -> 0 <= Zdigits2 m <= K.
Proof.
  intros [Hm1 Hm2] HK. destruct m as [|p|p]; cbn; [lia| |lia].
  rewrite digits2_pos_size. split; [lia|].
  destruct (Z.le_gt_cases (Z.pos (Pos.size p)) K) as [|Hgt]; [done|exfalso].
  assert (2 ^ K <= Z.pos p); [|lia].
  pose proof (Pos.size_le p) as Hle.
  assert (Z.pos (2 ^ Pos.size p) <= Z.pos (p~0)) as Hz by lia.
  rewrite Pos2Z.inj_pow in Hz.
  assert (2 ^ (K + 1) <= 2 ^ Z.pos (Pos.size p)) by (apply Z.pow_le_mono_r; lia).
  rewrite Z.pow_add_r in * by lia. lia.
Qed.

Lemma shr_1_m_bound mrs :
  0 <= shr_m mrs -> 0 <= shr_m (shr_1 mrs) <= shr_m mrs.
Proof. destruct mrs as [[|[p|p|]|p] r s]; cbn; lia. Qed.

Lemma iter_shr_1_m_bound p : forall mrs,
  0 <= shr_m mrs -> 0 <= shr_m (SpecFloat.iter_pos shr_1 p mrs) <= shr_m mrs.
Proof.
  induction p as [p IH|p IH|]; intros mrs Hm; cbn [SpecFloat.iter_pos].
  - pose proof (shr_1_m_bound mrs Hm).
    pose proof (IH (shr_1 mrs) ltac:(lia)).
    pose proof (IH (SpecFloat.iter_pos shr_1 p (shr_1 mrs)) ltac:(lia)). lia.
  - pose proof (IH mrs Hm).
    pose proof (IH (SpecFloat.iter_pos shr_1 p mrs) ltac:(lia)). lia.
  - by apply shr_1_m_bound.
Qed.

Lemma shr_fexp_bound m e l K :
  0 <= m < 2 ^ K -> 53 <= K ->
  let '(mrs, e') := shr_fexp prec emax m e l in
  0 <= shr_m mrs <= m /\ e' <= Z.max (e + K - 53) (Z.max e (-1074)).
Proof.
  intros Hm HK. unfold shr_fexp, shr.
  pose proof (Zdigits2_bound m K Hm ltac:(lia)) as Hd.
  assert (Hrec : shr_m (shr_record_of_loc m l) = m) by by destruct l as [|[]].
  unfold fexp, SpecFloat.emin, prec, emax in *.
  destruct (Z.max (Zdigits2 m + e - 53) (3 - 1024 - 53) - e) as [|p|p] eqn:E.
  - rewrite Hrec. lia.
  - pose proof (iter_shr_1_m_bound p (shr_record_of_loc m l)) as Hi.
    rewrite Hrec in Hi. split; [lia|]. lia.
  - rewrite Hrec. lia.
Qed.

Lemma round_nearest_even_bound m l :
  m <= round_nearest_even m l <= m + 1.
Proof. destruct l as [|[]]; cbn; try lia. destruct (Z.even m); lia. Qed.

(** Rounding a positive number below [2^K] with exponent [e]: the result
    is zero or finite when the exponent stays in range. *)
Lemma binary_round_aux_finite sx m e K :
  0 < m < 2 ^ K -> 53 <= K <= 1000 -> e + 2 * K <= 1000 ->
  match binary_round_aux prec emax sx m e loc_Exact with
  | S754_zero _ => True
  | S754_finite _ _ e'' => e'' <= Z.max (e + 2 * K) (K - 1074)
  | _ => False
  end.
Proof.
  intros Hm HK He. unfold binary_round_aux.
  pose proof (shr_fexp_bound m e loc_Exact K ltac:(lia) ltac:(lia)) as H1.
  destruct (shr_fexp prec emax m e loc_Exact) as [mrs' e'].
  destruct H1 as [Hm1 He1].
  pose proof (round_nearest_even_bound (shr_m mrs') (loc_of_shr_record mrs')) as Hr.
  set (m2 := round_nearest_even _ _) in *.
  assert (Hm2 : 0 <= m2 < 2 ^ (K + 1)).
  { rewrite Z.pow_add_r by lia. lia. }
  pose proof (shr_fexp_bound m2 e' loc_Exact (K + 1) Hm2 ltac:(lia)) as H2.
  destruct (shr_fexp prec emax m2 e' loc_Exact) as [mrs'' e''].
  destruct H2 as [Hm3 He3].
  destruct (shr_m mrs'') as [|p|p]; [done| |lia].
  unfold emax, prec.
  destruct (Z.leb_spec e'' (1024 - 53)); lia.
Qed.

Lemma pos_lt_pow2_size p : Z.pos p < 2 ^ Z.pos (Pos.size p).
Proof.
  pose proof (Pos.size_gt p) as H.
  assert (Z.pos p < Z.pos (2 ^ Pos.size p)) as Hz by lia.
  by rewrite Pos2Z.inj_pow in Hz.
Qed.

Lemma valid_mantissa_bound m e :
  bounded prec emax m e = true -> Z.pos m < 2 ^ 53.
Proof.
  unfold bounded, canonical_mantissa, fexp, SpecFloat.emin, prec, emax.
  intros [Hc _]%andb_prop. apply Z.eqb_eq in Hc.
  rewrite digits2_pos_size in Hc.
  pose proof (pos_lt_pow2_size m).
  assert (2 ^ Z.pos (Pos.size m) <= 2 ^ 53) by (apply Z.pow_le_mono_r; lia).
  lia.
Qed.

Lemma iter_xO_pow2 p d : Z.pos (Pos.iter xO p d) = Z.pos p * 2 ^ Z.pos d.
Proof.
  induction d as [|d IH] using Pos.peano_ind.
  - cbn. lia.
  - rewrite Pos.iter_succ, Pos2Z.inj_xO, IH, Pos2Z.inj_succ, Z.pow_succ_r by lia.
    lia.
Qed.

Lemma shl_align_bound p :
  Z.pos p < 2 ^ 63 ->
  let '(mz, ez) := shl_align p 0 (fexp prec emax (Z.pos (digits2_pos p) + 0)) in
  Z.pos mz < 2 ^ 63 /\ ez <= 0.
Proof.
  intros Hp. unfold shl_align, fexp, SpecFloat.emin, prec, emax.
  rewrite digits2_pos_size.
  destruct (Z.max (Z.pos (Pos.size p) + 0 - 53) (3 - 1024 - 53) - 0)
    as [|d|d] eqn:E; [lia|lia|].
  split; [|lia]. rewrite iter_xO_pow2.
  pose proof (pos_lt_pow2_size p).
  assert (Z.pos d = 53 - Z.pos (Pos.size p)) as -> by lia.
  assert (2 ^ Z.pos (Pos.size p) * 2 ^ (53 - Z.pos (Pos.size p)) = 2 ^ 53) as Hpow.
  { rewrite <- Z.pow_add_r by lia. f_equal. lia. }
  assert (0 < 2 ^ (53 - Z.pos (Pos.size p))) by (apply Z.pow_pos_nonneg; lia).
  nia.
Qed.

(** The float of a machine integer is zero or a finite, non-negative float. *)
Lemma float_of_int_finite n :
  match Prim2SF (Py.float_of_int n) with
  | S754_zero _ => True
  | S754_finite s m e => s = false /\ Z.pos m < 2 ^ 53 /\ e <= 126
  | _ => False
  end.
Proof.
  pose proof (Prim2SF_valid (Py.float_of_int n)) as Hv.
  pose proof (float_of_int_not_negative n) as Hs.
  unfold Py.float_of_int in *. rewrite of_uint63_spec in *.
  pose proof (Uint63.to_Z_bounded (Uint63.of_Z n)) as Hb.
  change Uint63.wB with (2 ^ 63) in Hb.
  destruct (Uint63.to_Z (Uint63.of_Z n)) as [|p|p]; cbn [binary_normalize] in *;
    [done| |lia].
  unfold binary_round in *.
  pose proof (shl_align_bound p ltac:(lia)) as Ha.
  destruct (shl_align _ _ _) as [mz ez]. destruct Ha as [Hmz Hez].
  pose proof (binary_round_aux_finite false (Z.pos mz) ez 63
                ltac:(lia) ltac:(lia) ltac:(lia)) as Hf.
  destruct (binary_round_aux _ _ _ _ _ _) as [s|s| |s m e]; try done.
  cbn in Hv. split; [done|]. split; [by eapply valid_mantissa_bound|lia].
Qed.

(** A float between 0 and 1 is zero or finite with a small exponent. *)
Lemma unit_float_spec x :
  (0 <=? x)%float = true -> (x <=? 1)%float = true ->
  match Prim2SF x with
  | S754_zero _ => True
  | S754_finite s m e => s = false /\ Z.pos m < 2 ^ 53 /\ e <= -52
  | _ => False
  end.
Proof.
  intros H0%leb_zero_not_negative H1.
  pose proof (Prim2SF_valid x) as Hv.
  rewrite leb_spec in H1.
  change (Prim2SF 1) with (S754_finite false 4503599627370496 (-52)) in H1.
  unfold SFleb, SFcompare in H1.
  destruct (Prim2SF x) as [s|s| |s m e]; try done.
  - subst. done.
  - subst. split; [done|]. split; [by eapply valid_mantissa_bound|].
    destruct (Z.compare_spec e (-52)); try lia; done.
Qed.

(** The product of an image dimension and a fraction in [0, 1] never
    overflows: [int] of it returns. *)
Lemma mul_unit_int n x :
  (0 <=? x)%float = true -> (x <=? 1)%float = true ->
  exists v, Py.int (Py.float_of_int n * x) = inr v.
Proof.
  intros H0 H1. unfold Py.int. rewrite mul_spec. unfold SF64mul.
  pose proof (float_of_int_finite n) as Hn.
  pose proof (unit_float_spec x H0 H1) as Hx.
  destruct (Prim2SF (Py.float_of_int n)) as [s|s| |s m e],
           (Prim2SF x) as [t|t| |t m' e']; try done; cbn [SFmul];
    try (by eexists).
  destruct Hn as (-> & Hm & He), Hx as (-> & Hm' & He').
  pose proof (binary_round_aux_finite (xorb false false) (Z.pos (m * m'))
                (e + e') 106) as Hf.
  destruct (binary_round_aux _ _ _ _ _ _) as [u|u| |u ? ?]; try (by eexists).
  all: exfalso; apply Hf; [|lia|lia].
  all: rewrite Pos2Z.inj_mul; change (2 ^ 106) with (2 ^ 53 * 2 ^ 53); nia.
Qed.

Lemma int_unit_fraction n x :
  unit_fraction x ->
  exists v, Py.int (Py.float_of_int n * x) = inr v /\
            Py.floor (Py.float_of_int n * x) = Some v /\ 0 <= v.
Proof.
  intros [H0 H1]. destruct (mul_unit_int n x H0 H1) as [v Hv].
  exists v. split; [done|]. by apply int_nonneg.
Qed.

Lemma int_mul_zero n x :
  (x =? 0)%float = true -> Py.int (Py.float_of_int n * x) = inr 0.
Proof.
  rewrite FloatAxioms.eqb_spec. change (Prim2SF 0) with (S754_zero false).
  unfold Py.int. rewrite mul_spec. unfold SF64mul, SFeqb, SFcompare.
  pose proof (float_of_int_finite n) as Hn.
  destruct (Prim2SF (Py.float_of_int n)) as [s|s| |s m e]; try done;
    destruct (Prim2SF x) as [t|t| |t m' e']; try done.
  all: destruct t; done.
Qed.

Lemma int_finite_nonneg n x :
  (0 <=? x)%float = true -> isfinite (Py.float_of_int n * x) = true ->
  exists v, Py.int (Py.float_of_int n * x) = inr v /\ 0 <= v.
Proof.
  intros H0 Hf.
  assert (exists v, Py.int (Py.float_of_int n * x) = inr v) as [v Hv].
  { unfold isfinite in Hf. unfold Py.int.
    destruct (Prim2SF _) as [s|s| |s m e]; try done; by eexists. }
  exists v. split; [done|]. by apply (int_nonneg n x v H0 Hv).
Qed.

Lemma drawable_box_pixel_box W H bb :
  drawable_box W H bb ->
  exists box, pixel_box W H bb = inr box /\
    fst (fst box) <= fst (snd box) /\ snd (fst box) <= snd (snd box).
Proof.
  intros (HL & HT & [HW HWf] & [HH HHf]).
  destruct (int_unit_fraction W _ HL) as (x0 & Hx0 & _ & ?).
  destruct (int_unit_fraction H _ HT) as (y0 & Hy0 & _ & ?).
  destruct (int_finite_nonneg W _ HW HWf) as (fw & Hfw & ?).
  destruct (int_finite_nonneg H _ HH HHf) as (fh & Hfh & ?).
  exists ((x0, y0), (x0 + fw, y0 + fh)). unfold pixel_box.
  rewrite Hx0, Hy0, Hfw, Hfh. cbn. split; [done|lia].
Qed.

(* ===================================================================== *)
(** ** Lemmas: the loops on the store *)
(* ===================================================================== *)

Lemma overlay_block_sim fill W H img block w im :
  images w !! img = Some im ->
  match paint_block fill W H im block with
  | inr out =>
      exists box,
        pixel_box W H (BoundingBox (Geometry block)) = inr box /\
        overlay_block fill W H img block w
        = Ok (S (S (length (images w))))
             (add_images w [overlay_of (im_size im) fill box; convert_RGBA im;
                            out])
  | inl e =>
      exists extra,
        overlay_block fill W H img block w
        = Raise e (add_raised (add_images w extra) e)
  end.
Proof.
  intros Him. unfold paint_block, pixel_box, overlay_block.
  destruct (Py.int (_ * Left _)) as [e|x0].
  { exists []. by rewrite add_images_nil. }
  destruct (Py.int (_ * Top _)) as [e|y0].
  { exists []. by rewrite add_images_nil. }
  destruct (Py.int (_ * Width _)) as [e|wd].
  { exists []. by rewrite add_images_nil. }
  destruct (Py.int (_ * Height _)) as [e|ht].
  { exists []. by rewrite add_images_nil. }
  unfold and_then. cbn [fst snd].
  rewrite !lift_inr_bind, (deref_bind _ _ _ _ Him).
  unfold Image_new. rewrite alloc_bind.
  unfold ImageDraw_rectangle. rewrite bind_assoc.
  rewrite (deref_bind _ (new_image RGBA (im_size im) (0, 0, 0, 0))).
  2:{ by rewrite <- (Nat.add_0_r (length _)), lookup_add_images_new. }
  cbn [fst snd].
  destruct (x0 + wd <? x0).
  { eexists [_]. reflexivity. }
  destruct (y0 + ht <? y0).
  { eexists [_]. reflexivity. }
  rewrite store_fresh. unfold Image_convert_RGBA. rewrite bind_assoc.
  rewrite (deref_bind _ im) by by apply lookup_add_images_old.
  rewrite alloc_bind, add_images_app. unfold Image_alpha_composite.
  rewrite (deref_bind _ (convert_RGBA im)).
  2:{ rewrite length_add_images. cbn [length].
      by rewrite (lookup_add_images_new w _ 1). }
  rewrite (deref_bind _ (overlay_of (im_size im) fill ((x0, y0), (x0 + wd, y0 + ht)))).
  2:{ by rewrite <- (Nat.add_0_r (length _)), lookup_add_images_new. }
  unfold alpha_composite. cbn [im_mode im_size convert_RGBA overlay_of paint_rectangle new_image].
  rewrite !bool_decide_eq_true_2 by done. cbn [andb negb].
  rewrite lift_inr_bind. eexists. split; [reflexivity|]. unfold alloc.
  rewrite length_add_images. cbn [app length]. f_equal; [lia|].
  unfold add_images. cbn [images ui raised]. rewrite <- app_assoc. reflexivity.
Qed.

(** A run of the loop body whose box is well formed: the three objects it
    adds to the store. *)
Lemma overlay_block_Ok fill W H img block w im box :
  images w !! img = Some im ->
  pixel_box W H (BoundingBox (Geometry block)) = inr box ->
  fst (fst box) <= fst (snd box) -> snd (fst box) <= snd (snd box) ->
  overlay_block fill W H img block w
  = Ok (S (S (length (images w))))
       (add_images w [overlay_of (im_size im) fill box; convert_RGBA im;
                      composite_box im fill box]).
Proof.
  intros Him Hbox Hx Hy.
  pose proof (overlay_block_sim fill W H img block w im Him) as Hs.
  unfold paint_block in Hs. rewrite Hbox in Hs.
  rewrite (proj2 (Z.ltb_ge _ _) Hx), (proj2 (Z.ltb_ge _ _) Hy) in Hs.
  destruct Hs as (box' & [= <-] & Hs). done.
Qed.

Lemma computes_bind (m1 : M loc) (m2 : loc -> M loc) r1 r2 b1 b2 img w :
  computes m1 r1 b1 img w ->
  (forall l1 w1 im1, r1 = inr im1 -> images w1 !! l1 = Some im1 ->
     computes (m2 l1) (r2 im1) b2 l1 w1) ->
  computes (m1 ≫= m2) (and_then r1 r2) (b1 || b2) img w.
Proof.
  unfold computes at 1. destruct r1 as [e|im1]; cbn [and_then].
  - intros [extra H] _. exists extra. by rewrite (bind_Raise _ _ _ _ _ H).
  - intros (l1 & extra & H & Hl1 & Hfresh) H2.
    specialize (H2 l1 _ im1 eq_refl Hl1). unfold computes.
    rewrite (bind_Ok _ _ _ _ _ H). unfold computes in H2.
    destruct (r2 im1) as [e|out].
    + destruct H2 as [extra2 ->]. exists (extra ++ extra2).
      by rewrite add_images_app.
    + destruct H2 as (l2 & extra2 & -> & Hl2 & Hfresh2).
      exists l2, (extra ++ extra2). rewrite add_images_app in *.
      split; [done|]. split; [done|].
      rewrite length_add_images in Hfresh2.
      destruct b1, b2; cbn [orb]; try lia.
      destruct Hfresh as [-> ->], Hfresh2 as [-> ->]. done.
Qed.

Lemma overlay_block_computes fill W H img block w im :
  images w !! img = Some im ->
  computes (fun w => overlay_block fill W H img block w)
    (paint_block fill W H im block) true img w.
Proof.
  intros Him. pose proof (overlay_block_sim fill W H img block w im Him) as Hs.
  unfold computes. destruct (paint_block _ _ _ _ _) as [e|out]; [done|].
  destruct Hs as (box & _ & ->). eexists _, _. split; [done|]. split.
  - replace (S (S (length (images w)))) with (length (images w) + 2)%nat by lia.
    by rewrite lookup_add_images_new.
  - lia.
Qed.

Lemma for_rebind_computes fill W H blocks : forall img w im,
  images w !! img = Some im ->
  computes (for_rebind blocks (overlay_block fill W H) img)
    (paint_blocks fill W H blocks im) (negb (bool_decide (blocks = []))) img w.
Proof.
  induction blocks as [|block blocks IH]; intros img w im Him.
  - rewrite bool_decide_eq_true_2 by done. exists img, [].
    rewrite add_images_nil. done.
  - cbn [for_rebind paint_blocks].
    change (match paint_block fill W H im block with
            | inl e => inl e
            | inr im' => paint_blocks fill W H blocks im'
            end)
      with (and_then (paint_block fill W H im block) (paint_blocks fill W H blocks)).
    rewrite bool_decide_eq_false_2 by done. cbn [negb].
    change true with (true || negb (bool_decide (blocks = []))).
    apply computes_bind.
    + by apply overlay_block_computes.
    + intros l1 w1 im1 _ H1. by apply IH.
Qed.

Lemma mret_computes l im w :
  images w !! l = Some im -> computes (mret l) (inr im) false l w.
Proof. intros H. exists l, []. by rewrite add_images_nil. Qed.

Lemma draw_overlays_computes g img w im :
  images w !! img = Some im ->
  computes (draw_overlays g img) (paint_page g im) (paints g) img w.
Proof.
  intros Him. unfold draw_overlays, paint_page, computes.
  assert (Hd : forall B (f : Image -> M B), (deref img ≫= f) w = f im w).
  { intros. by apply deref_bind. }
  rewrite Hd. destruct (im_size im) as [W H]. cbn [fst snd].
  change (paint_layers W H (layers g) im) with
    (and_then (paint_blocks (255, 0, 0, 64) W H (page_figure_blocks g) im) (fun im =>
     and_then (paint_blocks (0, 0, 255, 64) W H (page_table_blocks g) im) (fun im =>
     and_then (paint_blocks (0, 255, 0, 64) W H (page_text_blocks g) im) (fun im =>
     and_then (paint_blocks (128, 0, 128, 64) W H (page_header_blocks g) im) (fun im =>
     and_then (paint_blocks (255, 255, 0, 64) W H (page_footer_blocks g) im) (fun im =>
     inr im)))))).
  unfold paints.
  apply computes_bind; [by apply for_rebind_computes|]. intros ? ? ? _ ?.
  apply computes_bind; [by apply for_rebind_computes|]. intros ? ? ? _ ?.
  apply computes_bind; [by apply for_rebind_computes|]. intros ? ? ? _ ?.
  apply computes_bind; [by apply for_rebind_computes|]. intros ? ? ? _ ?.
  apply computes_bind; [by apply for_rebind_computes|]. intros ? ? ? _ ?.
  by apply mret_computes.
Qed.

(* ===================================================================== *)
(** ** Lemmas: pixels *)
(* ===================================================================== *)

Lemma over_transparent p : alpha_composite_pixel p transparent = p.
Proof. by destruct p as [[[r g] b] a]. Qed.

Lemma convert_RGBA_id im : im_mode im = RGBA -> convert_RGBA im = im.
Proof. destruct im as [m s d]. simpl. intros ->. done. Qed.

Lemma getpixel_convert im x y :
  getpixel (convert_RGBA im) x y = as_rgba (im_mode im) <$> getpixel im x y.
Proof.
  unfold getpixel, convert_RGBA, as_rgba. cbn [im_data].
  destruct (im_mode im).
  - rewrite list_lookup_fmap. destruct (im_data im !! y) as [row|]; [|done].
    cbn. rewrite list_lookup_fmap. by destruct (row !! x).
  - destruct (im_data im !! y) as [row|]; [|done]. cbn. by destruct (row !! x).
Qed.

Lemma getpixel_overlay size fill box x y :
  Z.of_nat x < fst size -> Z.of_nat y < snd size ->
  getpixel (overlay_of size fill box) x y
  = Some (if in_box (fst (fst box)) (snd (fst box)) (fst (snd box))
                    (snd (snd box)) x y
          then fill else transparent).
Proof.
  intros Hx Hy. unfold getpixel, overlay_of, paint_rectangle, new_image.
  cbn [im_data im_mode ink_of].
  rewrite list_lookup_imap, lookup_replicate_2 by lia. cbn.
  rewrite list_lookup_imap, lookup_replicate_2 by lia. done.
Qed.

Lemma getpixel_composite_box im fill box x y :
  Z.of_nat x < fst (im_size im) -> Z.of_nat y < snd (im_size im) ->
  getpixel (composite_box im fill box) x y
  = (fun q => alpha_composite_pixel q
       (if in_box (fst (fst box)) (snd (fst box)) (fst (snd box))
                  (snd (snd box)) x y
        then fill else transparent))
    <$> getpixel (convert_RGBA im) x y.
Proof.
  intros Hx Hy.
  pose proof (getpixel_overlay (im_size im) fill box x y Hx Hy) as Hov.
  unfold getpixel in *. unfold composite_box. cbn [im_data].
  rewrite lookup_zip_with.
  destruct (im_data (convert_RGBA im) !! y) as [row|]; [|done].
  destruct (im_data (overlay_of (im_size im) fill box) !! y) as [orow|]; [|done].
  cbn in *. rewrite lookup_zip_with, Hov.
  by destruct (row !! x).
Qed.

(** The loop body at a pixel: the fill over the pixel inside the box, and
    the pixel as it was outside. *)
Lemma getpixel_overlay_block fill W H img block w im box x y q :
  images w !! img = Some im ->
  pixel_box W H (BoundingBox (Geometry block)) = inr box ->
  fst (fst box) <= fst (snd box) -> snd (fst box) <= snd (snd box) ->
  Z.of_nat x < fst (im_size im) -> Z.of_nat y < snd (im_size im) ->
  getpixel (convert_RGBA im) x y = Some q ->
  exists l' w' out,
    overlay_block fill W H img block w = Ok l' w' /\
    images w' !! l' = Some out /\
    getpixel out x y
    = Some (if in_box (fst (fst box)) (snd (fst box)) (fst (snd box))
                      (snd (snd box)) x y
            then alpha_composite_pixel q fill else q).
Proof.
  intros Him Hbox Hx01 Hy01 Hx Hy Hq. eexists _, _, _. split.
  { by apply (overlay_block_Ok _ _ _ _ _ _ _ _ Him Hbox). }
  split.
  { replace (S (S (length (images w)))) with (length (images w) + 2)%nat by lia.
    by rewrite lookup_add_images_new. }
  rewrite getpixel_composite_box, Hq by done. cbn.
  destruct (in_box _ _ _ _ _ _); [done|]. by rewrite over_transparent.
Qed.

Lemma in_box_clamp W H x0 y0 x1 y1 x y :
  0 <= x0 <= x1 -> 0 <= y0 <= y1 ->
  Z.of_nat x < W -> Z.of_nat y < H ->
  in_box (clamp 0 W x0) (clamp 0 H y0) (clamp 0 W x1) (clamp 0 H y1) x y
  = in_box x0 y0 x1 y1 x y.
Proof.
  intros Hx01 Hy01 Hx Hy. unfold in_box, clamp.
  repeat match goal with |- context [?a <=? ?b] =>
    destruct (Z.leb_spec a b) end; try reflexivity; lia.
Qed.

Lemma paint_block_inv fill W H im block out :
  paint_block fill W H im block = inr out ->
  exists box,
    pixel_box W H (BoundingBox (Geometry block)) = inr box /\
    fst (fst box) <= fst (snd box) /\ snd (fst box) <= snd (snd box) /\
    out = composite_box im fill box.
Proof.
  unfold paint_block. destruct (pixel_box _ _ _) as [e|box]; [done|].
  destruct (Z.ltb_spec (fst (snd box)) (fst (fst box))); [done|].
  destruct (Z.ltb_spec (snd (snd box)) (snd (fst box))); [done|].
  intros [= <-]. by exists box.
Qed.

Lemma paint_block_size fill W H im block out :
  paint_block fill W H im block = inr out ->
  im_size out = im_size im /\ im_mode out = RGBA.
Proof. intros (box & _ & _ & _ & ->)%paint_block_inv. done. Qed.

Lemma paint_blocks_size fill W H blocks : forall im out,
  paint_blocks fill W H blocks im = inr out ->
  im_size out = im_size im /\
  im_mode out = (if nonempty blocks then RGBA else im_mode im).
Proof.
  induction blocks as [|b bs IH]; intros im out; cbn [paint_blocks].
  - by intros [= <-].
  - destruct (paint_block _ _ _ _ _) as [e|im1] eqn:E; [done|].
    intros Hbs. apply paint_block_size in E as [E1 E2].
    apply IH in Hbs as [-> ->]. split; [done|].
    unfold nonempty. rewrite (bool_decide_eq_false_2 (b :: bs = [])) by done.
    cbn. by destruct (negb _).
Qed.

Lemma tints_at_cons W H fill b pb x y :
  tints_at W H ((fill, b) :: pb) x y
  = (if covers W H b x y then [fill] else []) ++ tints_at W H pb x y.
Proof.
  unfold tints_at. rewrite filter_cons. cbn [snd].
  destruct (covers W H b x y); by case_decide.
Qed.

Lemma tints_at_app W H pb1 pb2 x y :
  tints_at W H (pb1 ++ pb2) x y = tints_at W H pb1 x y ++ tints_at W H pb2 x y.
Proof. unfold tints_at. by rewrite filter_app, fmap_app. Qed.

Lemma getpixel_paint_block fill W H im block out x y :
  paint_block fill W H im block = inr out ->
  Z.of_nat x < fst (im_size im) -> Z.of_nat y < snd (im_size im) ->
  getpixel (convert_RGBA out) x y
  = fold_left alpha_composite_pixel (tints_at W H [(fill, block)] x y)
    <$> getpixel (convert_RGBA im) x y.
Proof.
  intros (box & Hbox & _ & _ & ->)%paint_block_inv Hx Hy.
  rewrite convert_RGBA_id by done.
  rewrite getpixel_composite_box by done.
  rewrite tints_at_cons. unfold covers. rewrite Hbox.
  destruct (getpixel (convert_RGBA im) x y) as [q|]; [|done]. cbn.
  destruct (in_box _ _ _ _ _ _); cbn; [done|]. by rewrite over_transparent.
Qed.

Lemma getpixel_paint_blocks fill W H blocks : forall im out x y,
  paint_blocks fill W H blocks im = inr out ->
  Z.of_nat x < fst (im_size im) -> Z.of_nat y < snd (im_size im) ->
  getpixel (convert_RGBA out) x y
  = fold_left alpha_composite_pixel (tints_at W H (pair fill <$> blocks) x y)
    <$> getpixel (convert_RGBA im) x y.
Proof.
  induction blocks as [|b bs IH]; intros im out x y; cbn [paint_blocks].
  - intros [= <-] _ _. cbn. by destruct (getpixel _ _ _).
  - destruct (paint_block _ _ _ _ _) as [e|im1] eqn:E; [done|].
    intros Hbs Hx Hy. pose proof (paint_block_size _ _ _ _ _ _ E) as [Hs _].
    rewrite (IH im1 out x y Hbs) by (by rewrite Hs).
    rewrite (getpixel_paint_block _ _ _ _ _ _ _ _ E Hx Hy).
    rewrite fmap_cons, !tints_at_cons.
    destruct (getpixel (convert_RGBA im) x y) as [q|]; [|done].
    cbn [fmap option_fmap option_map].
    change (tints_at W H [] x y) with (@nil rgba).
    by rewrite app_nil_r, fold_left_app.
Qed.

Lemma painted_cons fill blocks ls :
  painted ((fill, blocks) :: ls) = (pair fill <$> blocks) ++ painted ls.
Proof. done. Qed.

Lemma painted_nil_nonempty fill blocks ls :
  bool_decide (painted ((fill, blocks) :: ls) = [])
  = negb (nonempty blocks) && bool_decide (painted ls = []).
Proof.
  rewrite painted_cons. unfold nonempty. destruct blocks as [|b bs].
  - rewrite (bool_decide_eq_true_2 ([] = [])) by done. done.
  - rewrite (bool_decide_eq_false_2 (b :: bs = [])) by done.
    by rewrite bool_decide_eq_false_2.
Qed.

Lemma paint_layers_size W H ls : forall im out,
  paint_layers W H ls im = inr out ->
  im_size out = im_size im /\
  im_mode out = (if bool_decide (painted ls = []) then im_mode im else RGBA).
Proof.
  induction ls as [|[fill blocks] ls IH]; intros im out; cbn [paint_layers].
  - by intros [= <-].
  - destruct (paint_blocks _ _ _ _ _) as [e|im1] eqn:E; [done|].
    intros Hls. apply paint_blocks_size in E as [E1 E2].
    apply IH in Hls as [-> ->]. split; [done|].
    rewrite painted_nil_nonempty, E2.
    by destruct (nonempty blocks), (bool_decide (painted ls = [])).
Qed.

Lemma getpixel_paint_layers W H ls : forall im out x y,
  paint_layers W H ls im = inr out ->
  Z.of_nat x < fst (im_size im) -> Z.of_nat y < snd (im_size im) ->
  getpixel (convert_RGBA out) x y
  = fold_left alpha_composite_pixel (tints_at W H (painted ls) x y)
    <$> getpixel (convert_RGBA im) x y.
Proof.
  induction ls as [|[fill blocks] ls IH]; intros im out x y; cbn [paint_layers].
  - intros [= <-] _ _. cbn. by destruct (getpixel _ _ _).
  - destruct (paint_blocks _ _ _ _ _) as [e|im1] eqn:E; [done|].
    intros Hls Hx Hy. pose proof (paint_blocks_size _ _ _ _ _ _ E) as [Hs _].
    rewrite (IH im1 out x y Hls) by (by rewrite Hs).
    rewrite (getpixel_paint_blocks _ _ _ _ _ _ _ _ E Hx Hy).
    rewrite painted_cons, tints_at_app.
    destruct (getpixel (convert_RGBA im) x y) as [q|]; [|done].
    cbn [fmap option_fmap option_map]. by rewrite fold_left_app.
Qed.

Lemma paints_painted g : paints g = negb (bool_decide (painted (layers g) = [])).
Proof.
  unfold paints, layers. rewrite !painted_nil_nonempty.
  rewrite (bool_decide_eq_true_2 (painted [] = [])) by done.
  by destruct (nonempty _), (nonempty _), (nonempty _), (nonempty _), (nonempty _).
Qed.

(** What a run of the five loops that returns has done. *)
Lemma draw_overlays_Ok g img w im l' w' :
  images w !! img = Some im ->
  draw_overlays g img w = Ok l' w' ->
  exists out extra,
    paint_page g im = inr out /\
    w' = add_images w extra /\
    images w' !! l' = Some out /\
    (if paints g then (length (images w) <= l')%nat
     else l' = img /\ extra = []).
Proof.
  intros Him Hrun. pose proof (draw_overlays_computes g img w im Him) as Hc.
  unfold computes in Hc. destruct (paint_page g im) as [e|out].
  - destruct Hc as [extra Hc]. congruence.
  - destruct Hc as (l2 & extra & Hc & Hl & Hf). rewrite Hrun in Hc.
    injection Hc as -> ->. by exists out, extra.
Qed.

Lemma paint_blocks_drawable fill W H blocks : forall im,
  Forall (fun b => drawable_box W H (BoundingBox (Geometry b))) blocks ->
  exists out, paint_blocks fill W H blocks im = inr out.
Proof.
  induction blocks as [|b bs IH]; intros im Hall; [by eexists|].
  apply Forall_cons in Hall as [Hb Hbs]. cbn [paint_blocks].
  destruct (drawable_box_pixel_box _ _ _ Hb) as (box & Hbox & Hx & Hy).
  unfold paint_block. rewrite Hbox.
  rewrite (proj2 (Z.ltb_ge _ _) Hx), (proj2 (Z.ltb_ge _ _) Hy).
  by apply IH.
Qed.

Lemma paint_layers_drawable W H ls : forall im,
  Forall (fun l => Forall (fun b => drawable_box W H (BoundingBox (Geometry b)))
                     (snd l)) ls ->
  exists out, paint_layers W H ls im = inr out.
Proof.
  induction ls as [|[fill blocks] ls IH]; intros im Hall; [by eexists|].
  apply Forall_cons in Hall as [Hb Hls]. cbn [paint_layers].
  destruct (paint_blocks_drawable fill W H blocks im Hb) as [im1 ->].
  by apply IH.
Qed.

(* ===================================================================== *)
(** ** Lemmas: the groups of a page *)
(* ===================================================================== *)

Lemma append_if_filter (P : Block -> Prop) `{!forall b, Decision (P b)}
    (c : bool) l block :
  (c = true <-> P block) ->
  forall acc, append_if c (acc ++ filter P l) block = acc ++ filter P (l ++ [block]).
Proof.
  intros Hc acc. rewrite filter_app, filter_cons, filter_nil. unfold append_if.
  destruct c; case_decide.
  - by rewrite app_assoc.
  - exfalso. tauto.
  - exfalso. assert (false = true) by tauto. done.
  - by rewrite app_nil_r.
Qed.

Lemma group_blocks_filter all_blocks page_num :
  group_blocks all_blocks page_num
  = {| page_line_blocks := filter (on_page page_num ["LINE"]) all_blocks;
       page_word_blocks := filter (on_page page_num ["WORD"]) all_blocks;
       page_figure_blocks := filter (on_page page_num ["LAYOUT_FIGURE"]) all_blocks;
       page_table_blocks := filter (on_page page_num ["LAYOUT_TABLE"]) all_blocks;
       page_text_blocks := filter (on_page page_num ["LAYOUT_TEXT"]) all_blocks;
       page_header_blocks := filter (on_page page_num header_types) all_blocks;
       page_footer_blocks := filter (on_page page_num ["LAYOUT_FOOTER"]) all_blocks |}.
Proof.
  unfold group_blocks. induction all_blocks as [|b l IH] using rev_ind; [done|].
  rewrite fold_left_app. cbn [fold_left]. rewrite IH. unfold group_block.
  cbn [page_line_blocks page_word_blocks page_figure_blocks page_table_blocks
       page_text_blocks page_header_blocks page_footer_blocks].
  case_bool_decide as Hp.
  - rewrite !filter_app, !filter_cons, !filter_nil.
    rewrite !decide_False by (unfold on_page; tauto).
    by rewrite !app_nil_r.
  - f_equal.
    all: rewrite <- (app_nil_l (filter _ l)) at 1.
    all: rewrite (append_if_filter _ _ l b); [done|].
    all: unfold on_page; rewrite bool_decide_eq_true.
    all: rewrite ?list_elem_of_singleton.
    all: tauto.
Qed.

Lemma sort_blocks_filter all_blocks :
  sort_blocks all_blocks
  = {| line_blocks := filter (has_type "LINE") all_blocks;
       word_blocks := filter (has_type "WORD") all_blocks;
       figure_blocks := filter (has_type "LAYOUT_FIGURE") all_blocks;
       table_blocks := filter (has_type "LAYOUT_TABLE") all_blocks |}.
Proof.
  unfold sort_blocks. induction all_blocks as [|b l IH] using rev_ind; [done|].
  rewrite fold_left_app. cbn [fold_left]. rewrite IH. unfold sort_block.
  cbn [line_blocks word_blocks figure_blocks table_blocks].
  rewrite !filter_app, !filter_cons, !filter_nil. unfold has_type.
  repeat case_bool_decide.
  all: repeat (case_decide; try congruence).
  all: by rewrite ?app_nil_r.
Qed.

Lemma header_type_not_counted t :
  t ∈ header_types ->
  t <> "LINE" /\ t <> "WORD" /\ t <> "LAYOUT_FIGURE" /\ t <> "LAYOUT_TABLE".
Proof.
  unfold header_types. rewrite !elem_of_cons, elem_of_nil.
  intros [->|[->|[->|[]]]]; done.
Qed.

Lemma group_of_Some t c :
  group_of t = Some c <->
  match c with
  | 0%nat => t = "LAYOUT_FIGURE"
  | 1%nat => t = "LAYOUT_TABLE"
  | 2%nat => t = "LAYOUT_TEXT"
  | 3%nat => t ∈ header_types
  | 4%nat => t = "LAYOUT_FOOTER"
  | _ => False
  end.
Proof.
  assert (Hh : forall s : string, s ∈ header_types <->
            s = "LAYOUT_SECTION_HEADER" \/ s = "LAYOUT_HEADER" \/ s = "LAYOUT_TITLE").
  { intros s. unfold header_types.
    rewrite !elem_of_cons, elem_of_nil. tauto. }
  unfold group_of. repeat case_bool_decide.
  all: rewrite ?Hh in *.
  all: destruct c as [|[|[|[|[|c]]]]]; rewrite ?Hh.
  all: split; [intros [=] | intros]; subst; try done; try tauto.
  all: try (intuition congruence).
Qed.

Lemma group_of_lt t c : group_of t = Some c -> (c < 5)%nat.
Proof. rewrite group_of_Some. destruct c as [|[|[|[|[|c]]]]]; [lia..|done]. Qed.

Lemma tints_at_group W H fill (P : Block -> Prop) `{!forall b, Decision (P b)}
    blocks x y :
  tints_at W H (pair fill <$> filter P blocks) x y
  = (fun _ => fill)
    <$> filter (fun b => P b /\ covers W H b x y = true) blocks.
Proof.
  induction blocks as [|b bs IH]; [done|].
  rewrite !filter_cons. destruct (decide (P b)) as [HP|HP].
  - rewrite fmap_cons, tints_at_cons, IH.
    destruct (covers W H b x y) eqn:E.
    + by rewrite decide_True.
    + rewrite decide_False; [done|]. intros [_ ?]. done.
  - rewrite IH. rewrite decide_False; [done|]. by intros [? _].
Qed.

(** The fills at a pixel, group by group. *)
Lemma tints_at_page W H all_blocks page_num x y :
  tints_at W H (painted (layers (group_blocks all_blocks page_num))) x y
  = (seq 0 5) ≫= fun c =>
      (fun _ => group_fill c)
      <$> filter (painted_at page_num W H x y c) all_blocks.
Proof.
  rewrite group_blocks_filter. unfold layers.
  cbn [page_figure_blocks page_table_blocks page_text_blocks
       page_header_blocks page_footer_blocks].
  rewrite !painted_cons, !tints_at_app, !tints_at_group.
  change (painted []) with (@nil (rgba * Block)).
  change (tints_at W H [] x y) with (@nil rgba).
  cbn [seq mbind list_bind]. cbn [group_fill].
  repeat f_equal.
  all: apply list_filter_iff; intros b.
  all: unfold painted_at, on_page; rewrite group_of_Some.
  all: by rewrite ?list_elem_of_singleton.
Qed.

Lemma filter_painted_at page_num W H x y c (all_blocks : list Block) :
  filter (painted_at page_num W H x y c) all_blocks
  = filter (fun b => group_of (BlockType b) = Some c)
      (filter (shown_at page_num W H x y) all_blocks).
Proof.
  rewrite list_filter_filter. apply list_filter_iff. intros b.
  unfold painted_at, shown_at. split.
  - intros [[? Hg] ?]. rewrite Hg. eauto.
  - intros [Hg [[? _] ?]]. done.
Qed.

(** Two painted blocks of different groups hold the pixel and no other
    painted block does: the fills at the pixel are theirs, the one of the
    earlier group first, whatever their order in the input. *)
Lemma tints_at_two W H (all_blocks : list Block) page_num x y lo hi c_lo c_hi :
  filter (shown_at page_num W H x y) all_blocks = [lo; hi] \/
  filter (shown_at page_num W H x y) all_blocks = [hi; lo] ->
  group_of (BlockType lo) = Some c_lo ->
  group_of (BlockType hi) = Some c_hi ->
  (c_lo < c_hi)%nat ->
  tints_at W H (painted (layers (group_blocks all_blocks page_num))) x y
  = [group_fill c_lo; group_fill c_hi].
Proof.
  intros Hf Hlo Hhi Hlt. rewrite tints_at_page. cbn [seq mbind list_bind].
  rewrite !filter_painted_at.
  pose proof (group_of_lt _ _ Hhi) as Hc.
  assert (Hcase : forall c,
    (fun _ : Block => group_fill c)
    <$> filter (fun b => group_of (BlockType b) = Some c)
          (filter (shown_at page_num W H x y) all_blocks)
    = if decide (c = c_lo) then [group_fill c]
      else if decide (c = c_hi) then [group_fill c] else []).
  { intros c. destruct Hf as [-> | ->]; rewrite !filter_cons, filter_nil.
    all: rewrite Hlo, Hhi.
    all: repeat case_decide; simplify_eq; try done; lia. }
  rewrite !Hcase.
  destruct c_lo as [|[|[|[|[|c_lo]]]]], c_hi as [|[|[|[|[|c_hi]]]]]; try lia.
  all: reflexivity.
Qed.

Lemma nonempty_filter (P : Block -> Prop) `{!forall b, Decision (P b)}
    (l : list Block) :
  nonempty (filter P l) = true <-> Exists P l.
Proof.
  unfold nonempty. rewrite negb_true_iff, bool_decide_eq_false.
  induction l as [|b l IH].
  - split; [done|]. by intros ?%Exists_nil.
  - rewrite filter_cons, Exists_cons. destruct (decide (P b)); [|tauto].
    split; [tauto|done].
Qed.

Lemma on_page_painted_block page_num block :
  painted_block page_num block <->
  on_page page_num ["LAYOUT_FIGURE"] block \/
  on_page page_num ["LAYOUT_TABLE"] block \/
  on_page page_num ["LAYOUT_TEXT"] block \/
  on_page page_num header_types block \/
  on_page page_num ["LAYOUT_FOOTER"] block.
Proof.
  unfold painted_block, on_page. rewrite !list_elem_of_singleton.
  split.
  - intros [Hp [c Hc]]. pose proof (group_of_lt _ _ Hc).
    apply group_of_Some in Hc.
    destruct c as [|[|[|[|[|c]]]]]; [tauto..|lia].
  - intros H. repeat destruct H as [H|H]; destruct H as [Hp Ht].
    all: split; [done|].
    + exists 0%nat. by apply group_of_Some.
    + exists 1%nat. by apply group_of_Some.
    + exists 2%nat. by apply group_of_Some.
    + exists 3%nat. by apply group_of_Some.
    + exists 4%nat. by apply group_of_Some.
Qed.

(** A page has a block to paint exactly when one of its blocks is of a
    painted type. *)
Lemma paints_Exists all_blocks page_num :
  paints (group_blocks all_blocks page_num) = true <->
  Exists (painted_block page_num) all_blocks.
Proof.
  rewrite group_blocks_filter. unfold paints.
  cbn [page_figure_blocks page_table_blocks page_text_blocks
       page_header_blocks page_footer_blocks].
  rewrite !orb_true_iff, !nonempty_filter, !Exists_exists.
  setoid_rewrite on_page_painted_block. split.
  - intros H. repeat destruct H as [H|H]; try done.
    all: destruct H as (b & ? & ?); exists b; tauto.
  - intros (b & Hb & H). repeat destruct H as [H|H]; eauto 10.
Qed.

Lemma Forall_filter_on_page (Q : Block -> Prop) page_num types all_blocks :
  (forall t, t ∈ types -> is_Some (group_of t)) ->
  (forall b, b ∈ all_blocks -> painted_block page_num b -> Q b) ->
  Forall Q (filter (on_page page_num types) all_blocks).
Proof.
  intros Ht HQ. apply Forall_forall. intros b [[Hp Hty] Hb]%list_elem_of_filter.
  apply HQ; [done|]. split; [done|]. by apply Ht.
Qed.

Lemma layers_drawable all_blocks page_num W H :
  (forall b, b ∈ all_blocks -> painted_block page_num b ->
     drawable_box W H (BoundingBox (Geometry b))) ->
  Forall (fun l => Forall (fun b => drawable_box W H (BoundingBox (Geometry b)))
                     (snd l))
    (layers (group_blocks all_blocks page_num)).
Proof.
  intros Hall. rewrite group_blocks_filter. unfold layers.
  cbn [page_figure_blocks page_table_blocks page_text_blocks
       page_header_blocks page_footer_blocks].
  repeat apply Forall_cons_2; [..|apply Forall_nil_2]; cbn [snd].
  all: apply Forall_filter_on_page; [|done].
  all: intros t Ht.
  - apply list_elem_of_singleton in Ht as ->. by exists 0%nat.
  - apply list_elem_of_singleton in Ht as ->. by exists 1%nat.
  - apply list_elem_of_singleton in Ht as ->. by exists 2%nat.
  - exists 3%nat. by apply group_of_Some.
  - apply list_elem_of_singleton in Ht as ->. by exists 4%nat.
Qed.

Lemma filter_on_page_skip page_num types l1 l2 (b : Block) :
  BlockType b ∉ types ->
  filter (on_page page_num types) (l1 ++ b :: l2)
  = filter (on_page page_num types) (l1 ++ l2).
Proof.
  intros Hb. rewrite !filter_app, filter_cons_False; [done|].
  by intros [_ ?].
Qed.

(* ===================================================================== *)
(** ** Lemmas: the renderer of a page *)
(* ===================================================================== *)

Lemma paint_page_Ok_pixels all_blocks page_num img w w' im l' :
  images w !! img = Some im ->
  render_page all_blocks page_num img w = Ok l' w' ->
  exists out,
    images w' !! l' = Some out /\
    im_size out = im_size im /\
    im_mode out
    = (if paints (group_blocks all_blocks page_num) then RGBA else im_mode im) /\
    forall x y,
      Z.of_nat x < fst (im_size im) -> Z.of_nat y < snd (im_size im) ->
      getpixel (convert_RGBA out) x y
      = fold_left alpha_composite_pixel
          (tints_at (fst (im_size im)) (snd (im_size im))
             (painted (layers (group_blocks all_blocks page_num))) x y)
        <$> getpixel (convert_RGBA im) x y.
Proof.
  intros Him Hrun. unfold render_page in Hrun.
  destruct (draw_overlays_Ok _ _ _ _ _ _ Him Hrun)
    as (out & extra & Hp & -> & Hout & _).
  exists out. split; [done|]. unfold paint_page in Hp.
  pose proof (paint_layers_size _ _ _ _ _ Hp) as [Hs Hm].
  split; [done|]. split.
  - rewrite Hm, paints_painted. by destruct (bool_decide _).
  - intros x y Hx Hy. by apply getpixel_paint_layers.
Qed.

Lemma render_page_nothing_to_paint all_blocks page_num img w im :
  images w !! img = Some im ->
  paints (group_blocks all_blocks page_num) = false ->
  render_page all_blocks page_num img w = Ok img w.
Proof.
  intros Him Hp. unfold render_page.
  pose proof (draw_overlays_computes (group_blocks all_blocks page_num)
                img w im Him) as Hc.
  unfold computes in Hc. rewrite Hp in Hc.
  destruct (paint_page _ im) as [e|out] eqn:E.
  - exfalso. unfold paint_page in E. revert E Hp. unfold paints, layers.
    intros E Hp. repeat apply orb_false_elim in Hp as [?%negb_false_iff%bool_decide_eq_true Hp].
    cbn [paint_layers] in E.
    repeat match goal with H : _ = [] |- _ => rewrite H in E end. done.
  - destruct Hc as (l' & extra & Hrun & _ & -> & ->).
    by rewrite add_images_nil in Hrun.
Qed.

(** Whatever the renderer does, it only adds objects to the store. *)
Lemma render_page_extends all_blocks page_num img w im :
  images w !! img = Some im ->
  match render_page all_blocks page_num img w with
  | Ok l' w' =>
      exists extra, w' = add_images w extra /\
        (if paints (group_blocks all_blocks page_num)
         then (length (images w) <= l')%nat
         else l' = img /\ extra = [])
  | Raise e w' => exists extra, w' = add_raised (add_images w extra) e
  end.
Proof.
  intros Him. unfold render_page.
  pose proof (draw_overlays_computes (group_blocks all_blocks page_num)
                img w im Him) as Hc.
  unfold computes in Hc. destruct (paint_page _ im) as [e|out].
  - destruct Hc as [extra ->]. by exists extra.
  - destruct Hc as (l' & extra & -> & _ & Hf). by exists extra.
Qed.

Lemma draw_overlays_ext g1 g2 img w :
  page_figure_blocks g1 = page_figure_blocks g2 ->
  page_table_blocks g1 = page_table_blocks g2 ->
  page_text_blocks g1 = page_text_blocks g2 ->
  page_header_blocks g1 = page_header_blocks g2 ->
  page_footer_blocks g1 = page_footer_blocks g2 ->
  draw_overlays g1 img w = draw_overlays g2 img w.
Proof. unfold draw_overlays. by intros -> -> -> -> ->. Qed.

(* ===================================================================== *)
(** ** Lemmas: the colour table *)
(* ===================================================================== *)

Lemma BLOCK_COLORS_entries :
  dict_get BLOCK_COLORS "LAYOUT_FIGURE" = Some (255, 0, 0, 64) /\
  dict_get BLOCK_COLORS "LAYOUT_TABLE" = Some (0, 0, 255, 64) /\
  dict_get BLOCK_COLORS "LAYOUT_TEXT" = Some (0, 255, 0, 64) /\
  dict_get BLOCK_COLORS "LAYOUT_HEADER/TITLE" = Some (128, 0, 128, 64) /\
  dict_get BLOCK_COLORS "LAYOUT_FOOTER" = Some (255, 255, 0, 64).
Proof. repeat split; vm_compute; reflexivity. Qed.

Lemma draw_overlays_table g img w :
  draw_overlays g img w
  = draw_overlays_by_table BLOCK_COLORS (legend_groups g) img w.
Proof.
  destruct BLOCK_COLORS_entries as (E1 & E2 & E3 & E4 & E5).
  unfold draw_overlays, draw_overlays_by_table.
  unfold mbind at 1 7, M_bind at 1 7.
  destruct (deref img w) as [i w1|e w1]; [|done].
  destruct (im_size i) as [W H]. unfold legend_groups.
  cbn [for_rebind fst snd]. rewrite E1, E2, E3, E4, E5.
  unfold mbind, M_bind.
  repeat match goal with
         | |- context [for_rebind ?l ?f ?v ?w] =>
             destruct (for_rebind l f v w); try reflexivity
         end.
Qed.

Lemma legend_loop (table : list (string * rgba)) : forall w,
  for_ table (fun item =>
    let '(block_type, color) := item in
    let hex_color := rgba_to_hex color in
    emit (st_legend_box hex_color block_type)) w
  = Ok tt {| images := images w; ui := ui w ++ legend_boxes table;
             raised := raised w |}.
Proof.
  induction table as [|[block_type color] table IH]; intros w.
  - cbn. rewrite app_nil_r. by destruct w.
  - cbn [for_]. unfold mbind, M_bind, emit at 1. rewrite IH. cbn.
    by rewrite <- app_assoc.
Qed.

(* ===================================================================== *)
(** ** Lemmas: errors in the flow *)
(* ===================================================================== *)

Section quiet.
Context {A B : Type}.

Lemma quiet_ret (a : A) : quiet (mret a).
Proof. intros w. cbn. split; [done|]. exists []. by rewrite app_nil_r. Qed.

Lemma quiet_raise e : quiet (raise (A := A) e).
Proof. intros w. cbn. exists []. by rewrite app_nil_r. Qed.

Lemma quiet_lift (r : Py.exn + A) : quiet (lift r).
Proof. destruct r; [apply quiet_raise|apply quiet_ret]. Qed.

Lemma quiet_bind (m : M A) (f : A -> M B) :
  quiet m -> (forall a, quiet (f a)) -> quiet (m ≫= f).
Proof.
  intros Hm Hf w. specialize (Hm w). unfold mbind, M_bind.
  destruct (m w) as [a w1|e w1]; [|done].
  destruct Hm as [Hr [new1 Hu]]. specialize (Hf a w1).
  destruct (f a w1) as [b w2|e w2].
  - destruct Hf as [Hr2 [new2 Hu2]]. split; [congruence|].
    exists (new1 ++ new2). by rewrite Hu2, Hu, app_assoc.
  - destruct Hf as [new2 Hu2]. exists (new1 ++ new2).
    by rewrite Hu2, Hu, app_assoc.
Qed.

Lemma quiet_reported (m : M A) : quiet m -> reported m.
Proof.
  intros Hm w. specialize (Hm w). destruct (m w) as [a w1|e w1]; [|done].
  destruct Hm as [Hr [new Hu]]. exists new. split; [done|]. by intros [].
Qed.

Lemma reported_bind (m : M A) (f : A -> M B) :
  reported m -> (forall a, reported (f a)) -> reported (m ≫= f).
Proof.
  intros Hm Hf w. specialize (Hm w). unfold mbind, M_bind.
  destruct (m w) as [a w1|e w1]; [|done].
  destruct Hm as (new1 & Hu & Hr). specialize (Hf a w1).
  destruct (f a w1) as [b w2|e w2].
  - destruct Hf as (new2 & Hu2 & Hr2). exists (new1 ++ new2).
    split; [by rewrite Hu2, Hu, app_assoc|].
    intros Hne. destruct (decide (raised w1 = raised w)) as [Heq|Hne1].
    + destruct Hr2 as [msg ?]; [congruence|].
      exists msg. apply elem_of_app. by right.
    + destruct (Hr Hne1) as [msg ?]. exists msg. apply elem_of_app. by left.
  - destruct Hf as [new2 Hu2]. exists (new1 ++ new2).
    by rewrite Hu2, Hu, app_assoc.
Qed.

Lemma reported_try_except (body : M A) handles (handler : Py.exn -> M A) :
  reported body -> (forall e, reports (handler e)) ->
  reported (try_except body handles handler).
Proof.
  intros Hb Hh w. specialize (Hb w). unfold try_except.
  destruct (body w) as [a w1|e w1]; [done|].
  destruct Hb as [new1 Hu]. destruct (handles e); [|by exists new1].
  destruct (Hh e w1) as (a & w2 & new2 & -> & Hu2 & msg & Hmsg).
  exists (new1 ++ new2). split; [by rewrite Hu2, Hu, app_assoc|].
  intros _. exists msg. apply elem_of_app. by right.
Qed.

End quiet.

Lemma quiet_emit ev : quiet (emit ev).
Proof. intros w. cbn. split; [done|]. by eexists. Qed.

Lemma quiet_alloc im : quiet (alloc im).
Proof. intros w. cbn. split; [done|]. exists []. by rewrite app_nil_r. Qed.

Lemma quiet_store l im : quiet (store l im).
Proof. intros w. cbn. split; [done|]. exists []. by rewrite app_nil_r. Qed.

Lemma quiet_deref l : quiet (deref l).
Proof.
  intros w. unfold deref. destruct (images w !! l).
  - split; [done|]. exists []. by rewrite app_nil_r.
  - cbn. exists []. by rewrite app_nil_r.
Qed.

Lemma quiet_for {A} (l : list A) (body : A -> M unit) :
  (forall a, quiet (body a)) -> quiet (for_ l body).
Proof.
  intros Hb. induction l as [|a l IH]; cbn [for_]; [apply quiet_ret|].
  apply quiet_bind; [apply Hb|]. by intros _.
Qed.

Lemma quiet_for_rebind {A V} (l : list A) (body : V -> A -> M V) :
  (forall v a, quiet (body v a)) -> forall v, quiet (for_rebind l body v).
Proof.
  intros Hb. induction l as [|a l IH]; intros v; cbn [for_rebind];
    [apply quiet_ret|].
  apply quiet_bind; [apply Hb|]. apply IH.
Qed.

Ltac quiet_step :=
  first
    [ apply quiet_ret | apply quiet_raise | apply quiet_lift
    | apply quiet_emit | apply quiet_alloc | apply quiet_store
    | apply quiet_deref
    | apply quiet_for; intros ?
    | apply quiet_for_rebind; intros ? ?
    | apply quiet_bind; [|intros ?] ].

Lemma quiet_overlay_block fill W H img block :
  quiet (overlay_block fill W H img block).
Proof.
  unfold overlay_block, Image_new, ImageDraw_rectangle, Image_convert_RGBA,
    Image_alpha_composite.
  repeat quiet_step. repeat case_match; repeat quiet_step.
Qed.

Lemma quiet_draw_overlays g img : quiet (draw_overlays g img).
Proof.
  unfold draw_overlays. apply quiet_bind; [apply quiet_deref|]. intros i.
  destruct (im_size i) as [W H].
  repeat (apply quiet_bind;
          [apply quiet_for_rebind; intros; apply quiet_overlay_block|intros ?]).
  apply quiet_ret.
Qed.

Lemma quiet_show_page pdf_document all_blocks page_num :
  quiet (show_page pdf_document all_blocks page_num).
Proof.
  unfold show_page, load_page_image, Image_open.
  repeat first [apply quiet_draw_overlays | quiet_step].
  case_match; repeat quiet_step.
Qed.

Lemma reported_get_github_file_content env path :
  reported (get_github_file_content env path).
Proof.
  unfold get_github_file_content. apply reported_try_except.
  - apply quiet_reported. repeat quiet_step.
  - intros e w. eexists _, _, _. split; [reflexivity|]. split; [reflexivity|].
    eexists. apply list_elem_of_singleton. reflexivity.
Qed.

Lemma quiet_display_legends : quiet display_legends_with_columns.
Proof.
  unfold display_legends_with_columns.
  do 3 (apply quiet_bind; [apply quiet_emit|intros _]).
  apply quiet_for. intros [block_type color]. apply quiet_emit.
Qed.

Lemma reported_process_file env selected_file pdf_path output_path :
  reported (process_file env selected_file pdf_path output_path).
Proof.
  unfold process_file.
  apply reported_bind; [apply quiet_reported, quiet_emit|]. intros _.
  apply reported_bind; [apply reported_get_github_file_content|].
  intros [raw_content|]; [|apply quiet_reported, quiet_emit].
  destruct raw_content as [|c raw]; [apply quiet_reported, quiet_emit|].
  apply reported_bind.
  - apply reported_try_except.
    + apply quiet_reported. repeat quiet_step.
    + intros e w. eexists _, _, _. split; [reflexivity|].
      split; [cbn; by rewrite <- !app_assoc|].
      eexists. apply elem_of_cons. left. reflexivity.
  - intros [content|]; [|apply quiet_reported, quiet_ret].
    apply quiet_reported.
    repeat first [apply quiet_display_legends | apply quiet_show_page
                 | quiet_step].
Qed.

(* ===================================================================== *)
(** ** Lemmas: when the renderer returns *)
(* ===================================================================== *)

Lemma paint_block_draws fill W H im block :
  returns (paint_block fill W H im block) <-> draws W H block = true.
Proof.
  unfold paint_block, draws. destruct (pixel_box _ _ _) as [e|box].
  - split; [by intros [? ?]|done].
  - rewrite andb_true_iff, !Z.leb_le.
    destruct (Z.ltb_spec (fst (snd box)) (fst (fst box))).
    { split; [by intros [? ?]|lia]. }
    destruct (Z.ltb_spec (snd (snd box)) (snd (fst box))).
    { split; [by intros [? ?]|lia]. }
    split; [done|]. intros _. by eexists.
Qed.

Lemma paint_blocks_draws fill W H blocks : forall im,
  returns (paint_blocks fill W H blocks im)
  <-> Forall (fun b => draws W H b = true) blocks.
Proof.
  induction blocks as [|b bs IH]; intros im; cbn [paint_blocks].
  - split; [done|]. intros _. by eexists.
  - rewrite Forall_cons, <- (paint_block_draws fill W H im b).
    destruct (paint_block _ _ _ _ _) as [e|im1].
    + split; [by intros [? ?]|]. by intros [[? ?] _].
    + rewrite IH. split; [|tauto]. intros ?. split; [by eexists|done].
Qed.

Lemma paint_layers_draws W H ls : forall im,
  returns (paint_layers W H ls im)
  <-> Forall (fun l => Forall (fun b => draws W H b = true) (snd l)) ls.
Proof.
  induction ls as [|[fill blocks] ls IH]; intros im; cbn [paint_layers].
  - split; [done|]. intros _. by eexists.
  - rewrite Forall_cons. cbn [snd].
    rewrite <- (paint_blocks_draws fill W H blocks im).
    destruct (paint_blocks _ _ _ _ _) as [e|im1].
    + split; [by intros [? ?]|]. by intros [[? ?] _].
    + rewrite IH. split; [|tauto]. intros ?. split; [by eexists|done].
Qed.

Lemma Forall_filter_iff {A} (P Q : A -> Prop) `{!forall a, Decision (P a)}
    (l : list A) :
  Forall Q (filter P l) <-> forall a, a ∈ l -> P a -> Q a.
Proof.
  rewrite Forall_forall. split.
  - intros Hall a Ha HP. apply Hall. by apply list_elem_of_filter.
  - intros Hall a [HP Ha]%list_elem_of_filter. by apply Hall.
Qed.

(** The five loops get through exactly when every painted block of the
    page has a box the drawing call accepts. *)
Lemma layers_draws all_blocks page_num W H :
  Forall (fun l => Forall (fun b => draws W H b = true) (snd l))
    (layers (group_blocks all_blocks page_num))
  <-> forall b, b ∈ all_blocks -> painted_block page_num b -> draws W H b = true.
Proof.
  rewrite group_blocks_filter. unfold layers.
  cbn [page_figure_blocks page_table_blocks page_text_blocks
       page_header_blocks page_footer_blocks].
  rewrite !Forall_cons. cbn [snd]. rewrite !Forall_filter_iff.
  setoid_rewrite on_page_painted_block. split.
  - intros (H1 & H2 & H3 & H4 & H5 & _) b Hb Hp.
    repeat destruct Hp as [Hp|Hp]; eauto.
  - intros Hall. repeat split; try apply Forall_nil_2; intros b Hb Hp;
      apply Hall; tauto.
Qed.

Lemma render_page_result all_blocks page_num img w im :
  images w !! img = Some im ->
  match paint_page (group_blocks all_blocks page_num) im with
  | inr out =>
      exists l' extra,
        render_page all_blocks page_num img w = Ok l' (add_images w extra) /\
        images (add_images w extra) !! l' = Some out
  | inl e =>
      exists extra,
        render_page all_blocks page_num img w
        = Raise e (add_raised (add_images w extra) e)
  end.
Proof.
  intros Him. unfold render_page.
  pose proof (draw_overlays_computes (group_blocks all_blocks page_num)
                img w im Him) as Hc.
  unfold computes in Hc. destruct (paint_page _ im) as [e|out]; [done|].
  destruct Hc as (l' & extra & ? & ? & _). by exists l', extra.
Qed.

Lemma render_page_Ok_iff all_blocks page_num img w im :
  images w !! img = Some im ->
  (exists l' w', render_page all_blocks page_num img w = Ok l' w')
  <-> forall b, b ∈ all_blocks -> painted_block page_num b ->
        draws (fst (im_size im)) (snd (im_size im)) b = true.
Proof.
  intros Him. rewrite <- layers_draws, <- (paint_layers_draws _ _ _ im).
  pose proof (render_page_result all_blocks page_num img w im Him) as Hr.
  unfold paint_page in Hr.
  destruct (paint_layers _ _ _ im) as [e|out].
  - destruct Hr as [extra ->]. split; [by intros (? & ? & ?)|by intros [? ?]].
  - destruct Hr as (l' & extra & -> & _). split; [by eexists|by eexists _, _].
Qed.

(* ===================================================================== *)
(** ** The claims *)
(* ===================================================================== *)

(** C1, the claim refuted: not every set of regions is composited.  On
    the white page a text block and a footer both hold the point a quarter
    of the page from the left at the top edge, which lies in the pixel
    (1, 0); they are of the groups 2 and 4.  The width of the footer is
    1e308: four times it is the float infinity, and [int] of it raises
    OverflowError in the footer loop.  The renderer returns no image, so
    the pixel does not get the colour of white with green and then yellow
    over it, nor any other. *)
Lemma C1_overlapping_regions_not_composited :
  (group_of (BlockType ex_text) = Some 2%nat /\
   group_of (BlockType ex_huge_footer) = Some 4%nat) /\
  Forall (fun b =>
    (Left (BoundingBox (Geometry b)) <=? 0.25)%float = true /\
    (0.25 <? Left (BoundingBox (Geometry b))
             + Width (BoundingBox (Geometry b)))%float = true /\
    (Top (BoundingBox (Geometry b)) <=? 0)%float = true /\
    (0 <? Top (BoundingBox (Geometry b))
          + Height (BoundingBox (Geometry b)))%float = true)
    [ex_text; ex_huge_footer] /\
  (exists w',
     render_page [ex_text; ex_huge_footer] 1 0%nat ex_world
     = Raise (Py.Exn Py.OverflowError "cannot convert float infinity to integer")
         w') /\
  ~ (exists l' w' out,
       render_page [ex_text; ex_huge_footer] 1 0%nat ex_world = Ok l' w' /\
       images w' !! l' = Some out /\
       getpixel out 1 0 = Some (207, 255, 143, 255)).
Proof.
  split; [split; reflexivity|]. split.
  { repeat constructor; vm_compute; reflexivity. }
  split.
  - eexists. vm_compute. reflexivity.
  - intros (l' & w' & out & Hrun & _). vm_compute in Hrun. discriminate.
Qed.

(** C1 as amended.  When every painted block of the page has a box that
    can be drawn (the four [int] calls return and the width and the height
    in pixels are not negative) with its corners in the range of a C int,
    the renderer returns, and it has composited the groups in the fixed
    order figure, table, text, header, footer, each block as its group's
    flat tint laid over the image so far: at every pixel of the page image
    the output colour is the base colour with the tints of the painted
    blocks that hold the pixel composited over it one after the other,
    group by group.  Hence where exactly two painted blocks of different
    groups overlap, the colour is the base with the tint of the earlier
    group and then the tint of the later group composited over it,
    whatever the order of the two blocks in the input. *)
Theorem C1_overlays_composited_in_group_order
    (all_blocks : list Block) (page_num : Z) (img : loc) (w : World)
    (im : Image) :
  images w !! img = Some im ->
  (forall b, b ∈ all_blocks -> painted_block page_num b ->
     draws (fst (im_size im)) (snd (im_size im)) b = true /\
     in_range (fst (im_size im)) (snd (im_size im)) b = true) ->
  exists l' w' out,
    render_page all_blocks page_num img w = Ok l' w' /\
    images w' !! l' = Some out /\
    forall x y q,
      Z.of_nat x < fst (im_size im) -> Z.of_nat y < snd (im_size im) ->
      getpixel (convert_RGBA im) x y = Some q ->
      getpixel (convert_RGBA out) x y
      = Some (fold_left alpha_composite_pixel
                (seq 0 5 ≫= fun c =>
                   (fun _ => group_fill c)
                   <$> filter (painted_at page_num (fst (im_size im))
                                 (snd (im_size im)) x y c) all_blocks)
                q) /\
      forall lo hi c_lo c_hi,
        filter (shown_at page_num (fst (im_size im)) (snd (im_size im)) x y)
          all_blocks = [lo; hi] \/
        filter (shown_at page_num (fst (im_size im)) (snd (im_size im)) x y)
          all_blocks = [hi; lo] ->
        group_of (BlockType lo) = Some c_lo ->
        group_of (BlockType hi) = Some c_hi ->
        (c_lo < c_hi)%nat ->
        getpixel out x y
        = Some (alpha_composite_pixel
                  (alpha_composite_pixel q (group_fill c_lo))
                  (group_fill c_hi)).
Proof.
  intros Him Hall.
  destruct (proj2 (render_page_Ok_iff all_blocks page_num img w im Him))
    as (l' & w' & Hrun).
  { intros b Hb Hp. by destruct (Hall b Hb Hp). }
  destruct (paint_page_Ok_pixels _ _ _ _ _ _ _ Him Hrun)
    as (out & Hout & _ & Hmode & Hpix).
  exists l', w', out. split; [done|]. split; [done|]. intros x y q Hx Hy Hq.
  specialize (Hpix x y Hx Hy). rewrite Hq in Hpix. split.
  - by rewrite Hpix, tints_at_page.
  - intros lo hi c_lo c_hi Hf Hlo Hhi Hlt.
    pose proof (tints_at_two _ _ _ _ _ _ _ _ _ _ Hf Hlo Hhi Hlt) as Ht.
    rewrite Ht in Hpix. rewrite <- (convert_RGBA_id out); [by rewrite Hpix|].
    rewrite Hmode, paints_painted.
    case_bool_decide as Hp; [|done]. by rewrite Hp in Ht.
Qed.

(** C1 as amended, at a concrete input: a footer listed before a text
    block on the white page.  The text is painted first all the same, and
    the pixel (1, 0) that both hold is white with green and then yellow
    over it. *)
Lemma C1_text_under_footer :
  exists l' w' out,
    render_page [ex_footer; ex_text] 1 0%nat ex_world = Ok l' w' /\
    images w' !! l' = Some out /\
    getpixel out 1 0 = Some (207, 255, 143, 255).
Proof.
  destruct (C1_overlays_composited_in_group_order
              [ex_footer; ex_text] 1 0%nat ex_world ex_base eq_refl)
    as (l' & w' & out & Hrun & Hout & Hpix).
  { intros b Hb _.
    repeat (apply elem_of_cons in Hb as [->|Hb]);
      try (by apply elem_of_nil in Hb); split; vm_compute; reflexivity. }
  exists l', w', out. split; [exact Hrun|]. split; [exact Hout|].
  destruct (Hpix 1%nat 0%nat white) as [_ Htwo];
    [vm_compute; reflexivity..|].
  apply (Htwo ex_text ex_footer 2%nat 4%nat);
    [right; vm_compute; reflexivity|reflexivity|reflexivity|lia].
Defined.

(** C2, the claim refuted: the corners are not the floors for every
    region, and not every region is clipped.  For the text block that
    starts three tenths of the page left of the 4 by 3 page, 4 * -0.3 is
    -1.2: [int] gives -1 where the floor is -2, so the box handed to the
    drawing call reaches from column -1 to column 1, and the pixel (1, 0)
    is painted, which the rectangle of the claim, from floor(-1.2) = -2 to
    -2 + 2 = 0, clamped, does not hold.  And nothing clamps the fractions:
    for the block of width 1e308 the loop body raises OverflowError. *)
Lemma C2_negative_left_is_truncated :
  pixel_box 4 3 (BoundingBox (Geometry ex_negative_left))
  = inr ((-1, 0), (1, 1)) /\
  Py.floor (Py.float_of_int 4 * Left (BoundingBox (Geometry ex_negative_left)))
  = Some (-2) /\
  Py.floor (Py.float_of_int 4 * Width (BoundingBox (Geometry ex_negative_left)))
  = Some 2 /\
  (exists l' w' overlay,
     overlay_block (0, 255, 0, 64) 4 3 0%nat ex_negative_left ex_world
     = Ok l' w' /\
     images w' !! length (images ex_world) = Some overlay /\
     getpixel overlay 1 0 = Some (0, 255, 0, 64)) /\
  in_box (clamp 0 4 (-2)) (clamp 0 3 0) (clamp 0 4 (-2 + 2)) (clamp 0 3 (0 + 1))
    1 0 = false /\
  (exists w',
     overlay_block (0, 255, 0, 64) 4 3 0%nat ex_huge_width ex_world
     = Raise (Py.Exn Py.OverflowError "cannot convert float infinity to integer")
         w').
Proof.
  split; [vm_compute; reflexivity|]. split; [vm_compute; reflexivity|].
  split; [vm_compute; reflexivity|]. split.
  { do 3 eexists. split; [vm_compute; reflexivity|].
    split; vm_compute; reflexivity. }
  split; [vm_compute; reflexivity|].
  eexists. vm_compute. reflexivity.
Qed.

(** C2 as amended.  For a block whose left and top lie between 0 and 1 and
    whose width and height are not negative and give finite products with
    the size of the page, the corners of its box in the range of a C int,
    on a page image W wide and H high: the corners handed to the drawing
    call are px_left = floor(W * left), px_top = floor(H * top),
    px_right = px_left + floor(W * width) and
    px_bottom = px_top + floor(H * height); the loop body does not raise;
    and the pixels it paints on the overlay are exactly the pixels of the
    image inside the rectangle with these four values clamped to [0, W]
    and [0, H], so a box that reaches beyond the right or the lower edge of
    the image is clipped.  The code has no clamp of its own: the drawing
    call clips.  The products are Python's, taken in binary64, and floor
    is [math.floor] of the product. *)
Theorem C2_pixel_rectangle_floor_and_clipped
    (fill : rgba) (W H : Z) (img : loc) (block : Block) (w : World)
    (im : Image) :
  images w !! img = Some im ->
  im_size im = (W, H) ->
  drawable_box W H (BoundingBox (Geometry block)) ->
  in_range W H block = true ->
  exists px_left px_top px_right px_bottom fw fh,
    pixel_box W H (BoundingBox (Geometry block))
    = inr ((px_left, px_top), (px_right, px_bottom)) /\
    Py.floor (Py.float_of_int W * Left (BoundingBox (Geometry block)))
    = Some px_left /\
    Py.floor (Py.float_of_int H * Top (BoundingBox (Geometry block)))
    = Some px_top /\
    Py.floor (Py.float_of_int W * Width (BoundingBox (Geometry block)))
    = Some fw /\
    Py.floor (Py.float_of_int H * Height (BoundingBox (Geometry block)))
    = Some fh /\
    px_right = px_left + fw /\ px_bottom = px_top + fh /\
    exists l' w' overlay,
      overlay_block fill W H img block w = Ok l' w' /\
      images w' !! length (images w) = Some overlay /\
      forall x y,
        Z.of_nat x < W -> Z.of_nat y < H ->
        getpixel overlay x y
        = Some (if in_box (clamp 0 W px_left) (clamp 0 H px_top)
                          (clamp 0 W px_right) (clamp 0 H px_bottom) x y
                then fill else transparent).
Proof.
  intros Him Hsize (HL & HT & [HW HWf] & [HH HHf]) _.
  destruct (int_unit_fraction W _ HL) as (x0 & Hx0 & Fx0 & ?).
  destruct (int_unit_fraction H _ HT) as (y0 & Hy0 & Fy0 & ?).
  destruct (int_finite_nonneg W _ HW HWf) as (fw & Hfw & ?).
  destruct (int_finite_nonneg H _ HH HHf) as (fh & Hfh & ?).
  destruct (int_nonneg W _ _ HW Hfw) as [Ffw _].
  destruct (int_nonneg H _ _ HH Hfh) as [Ffh _].
  exists x0, y0, (x0 + fw), (y0 + fh), fw, fh.
  assert (Hbox : pixel_box W H (BoundingBox (Geometry block))
                 = inr ((x0, y0), (x0 + fw, y0 + fh))).
  { unfold pixel_box. by rewrite Hx0, Hy0, Hfw, Hfh. }
  repeat (split; [done|]).
  eexists _, _, _. split.
  { apply (overlay_block_Ok _ _ _ _ _ _ _ _ Him Hbox); cbn; lia. }
  split.
  { by rewrite <- (Nat.add_0_r (length _)), lookup_add_images_new. }
  intros x y Hx Hy. rewrite getpixel_overlay by (by rewrite Hsize).
  cbn [fst snd]. by rewrite in_box_clamp by lia.
Qed.

(** C2 as amended, at a concrete input: the table block that starts in
    the middle of the page and is as large as the page. *)
Lemma C2_box_beyond_the_page :
  exists px_left px_top px_right px_bottom fw fh,
    pixel_box 4 3 (BoundingBox (Geometry ex_table))
    = inr ((px_left, px_top), (px_right, px_bottom)) /\
    Py.floor (Py.float_of_int 4 * Left (BoundingBox (Geometry ex_table)))
    = Some px_left /\
    Py.floor (Py.float_of_int 3 * Top (BoundingBox (Geometry ex_table)))
    = Some px_top /\
    Py.floor (Py.float_of_int 4 * Width (BoundingBox (Geometry ex_table)))
    = Some fw /\
    Py.floor (Py.float_of_int 3 * Height (BoundingBox (Geometry ex_table)))
    = Some fh /\
    px_right = px_left + fw /\ px_bottom = px_top + fh /\
    exists l' w' overlay,
      overlay_block (0, 0, 255, 64) 4 3 0%nat ex_table ex_world = Ok l' w' /\
      images w' !! length (images ex_world) = Some overlay /\
      forall x y,
        Z.of_nat x < 4 -> Z.of_nat y < 3 ->
        getpixel overlay x y
        = Some (if in_box (clamp 0 4 px_left) (clamp 0 3 px_top)
                          (clamp 0 4 px_right) (clamp 0 3 px_bottom) x y
                then (0, 0, 255, 64) else transparent).
Proof.
  apply (C2_pixel_rectangle_floor_and_clipped
           (0, 0, 255, 64) 4 3 0%nat ex_table ex_world ex_base);
    try reflexivity; vm_compute; repeat split; reflexivity.
Defined.

(** C3, the claim refuted: a block of width 0 is painted.  The box handed
    to the drawing call includes both end points, so its left and right
    edge coincide in one column of pixels, and the tint is composited over
    that column: the pixel (2, 0) of the white page turns green. *)
Lemma C3_zero_width_block_changes_pixels :
  (Width (BoundingBox (Geometry ex_zero_width)) =? 0)%float = true /\
  getpixel (convert_RGBA ex_base) 2 0 = Some (255, 255, 255, 255) /\
  exists l' w' out,
    render_page [ex_zero_width] 1 0%nat ex_world = Ok l' w' /\
    images w' !! l' = Some out /\
    getpixel out 2 0 = Some (191, 255, 191, 255).
Proof.
  split; [vm_compute; reflexivity|]. split; [vm_compute; reflexivity|].
  do 3 eexists. split; [vm_compute; reflexivity|].
  split; vm_compute; reflexivity.
Qed.

(** C3 as amended.  A block of width 0 or of height 0 (its fractions
    between 0 and 1) raises no error, and it is not passed over: its box
    has px_right = px_left (width 0) or px_bottom = px_top (height 0), and
    since the box includes its end points the tint is composited over the
    pixels of that one column or row inside the box.  Every other pixel is
    left as it was. *)
Theorem C3_zero_width_or_height_paints_one_line
    (fill : rgba) (W H : Z) (img : loc) (block : Block) (w : World)
    (im : Image) (x y : nat) (q : rgba) :
  images w !! img = Some im ->
  unit_fraction (Left (BoundingBox (Geometry block))) ->
  unit_fraction (Top (BoundingBox (Geometry block))) ->
  unit_fraction (Width (BoundingBox (Geometry block))) ->
  unit_fraction (Height (BoundingBox (Geometry block))) ->
  (Width (BoundingBox (Geometry block)) =? 0)%float = true \/
  (Height (BoundingBox (Geometry block)) =? 0)%float = true ->
  Z.of_nat x < fst (im_size im) -> Z.of_nat y < snd (im_size im) ->
  getpixel (convert_RGBA im) x y = Some q ->
  exists l' w' out px_left px_top px_right px_bottom,
    pixel_box W H (BoundingBox (Geometry block))
    = inr ((px_left, px_top), (px_right, px_bottom)) /\
    overlay_block fill W H img block w = Ok l' w' /\
    images w' !! l' = Some out /\
    ((Width (BoundingBox (Geometry block)) =? 0)%float = true ->
     px_right = px_left) /\
    ((Height (BoundingBox (Geometry block)) =? 0)%float = true ->
     px_bottom = px_top) /\
    getpixel out x y
    = Some (if in_box px_left px_top px_right px_bottom x y
            then alpha_composite_pixel q fill else q) /\
    ((Width (BoundingBox (Geometry block)) =? 0)%float = true ->
     Z.of_nat x <> px_left -> getpixel out x y = Some q) /\
    ((Height (BoundingBox (Geometry block)) =? 0)%float = true ->
     Z.of_nat y <> px_top -> getpixel out x y = Some q).
Proof.
  intros Him HL HT HW HH Hzero Hx Hy Hq.
  destruct (int_unit_fraction W _ HL) as (x0 & Hx0 & _ & ?).
  destruct (int_unit_fraction H _ HT) as (y0 & Hy0 & _ & ?).
  destruct (int_unit_fraction W _ HW) as (fw & Hfw & _ & ?).
  destruct (int_unit_fraction H _ HH) as (fh & Hfh & _ & ?).
  assert (Hbox : pixel_box W H (BoundingBox (Geometry block))
                 = inr ((x0, y0), (x0 + fw, y0 + fh))).
  { unfold pixel_box. by rewrite Hx0, Hy0, Hfw, Hfh. }
  destruct (getpixel_overlay_block fill W H img block w im _ x y q
              Him Hbox ltac:(cbn; lia) ltac:(cbn; lia) Hx Hy Hq)
    as (l' & w' & out & Hrun & Hout & Hpix).
  cbn [fst snd] in Hpix.
  assert (Hw0 : (Width (BoundingBox (Geometry block)) =? 0)%float = true ->
                x0 + fw = x0).
  { intros Hz. rewrite (int_mul_zero W _ Hz) in Hfw. injection Hfw as <-. lia. }
  assert (Hh0 : (Height (BoundingBox (Geometry block)) =? 0)%float = true ->
                y0 + fh = y0).
  { intros Hz. rewrite (int_mul_zero H _ Hz) in Hfh. injection Hfh as <-. lia. }
  exists l', w', out, x0, y0, (x0 + fw), (y0 + fh).
  repeat (split; [done|]). split.
  - intros Hz Hne. rewrite Hpix. unfold in_box. rewrite (Hw0 Hz).
    destruct (Z.leb_spec x0 (Z.of_nat x)), (Z.leb_spec (Z.of_nat x) x0);
      cbn; try done; lia.
  - intros Hz Hne. rewrite Hpix. unfold in_box. rewrite (Hh0 Hz).
    destruct (Z.leb_spec y0 (Z.of_nat y)), (Z.leb_spec (Z.of_nat y) y0);
      cbn; rewrite ?andb_false_r; try done; lia.
Qed.

(** C3 as amended, at the block of width 0 and the pixel (2, 0). *)
Lemma C3_zero_width_column :
  exists l' w' out px_left px_top px_right px_bottom,
    pixel_box 4 3 (BoundingBox (Geometry ex_zero_width))
    = inr ((px_left, px_top), (px_right, px_bottom)) /\
    overlay_block (0, 255, 0, 64) 4 3 0%nat ex_zero_width ex_world = Ok l' w' /\
    images w' !! l' = Some out /\
    ((Width (BoundingBox (Geometry ex_zero_width)) =? 0)%float = true ->
     px_right = px_left) /\
    ((Height (BoundingBox (Geometry ex_zero_width)) =? 0)%float = true ->
     px_bottom = px_top) /\
    getpixel out 2 0
    = Some (if in_box px_left px_top px_right px_bottom 2 0
            then alpha_composite_pixel white (0, 255, 0, 64) else white) /\
    ((Width (BoundingBox (Geometry ex_zero_width)) =? 0)%float = true ->
     Z.of_nat 2 <> px_left -> getpixel out 2 0 = Some white) /\
    ((Height (BoundingBox (Geometry ex_zero_width)) =? 0)%float = true ->
     Z.of_nat 0 <> px_top -> getpixel out 2 0 = Some white).
Proof.
  apply (C3_zero_width_or_height_paints_one_line
           (0, 255, 0, 64) 4 3 0%nat ex_zero_width ex_world ex_base 2 0 white);
    try reflexivity; try (split; vm_compute; reflexivity).
  left. vm_compute. reflexivity.
Defined.

(** C4, the claim refuted: on a page without regions the five loops do not
    run, nothing converts the page image, and what is shown is the RGB
    image as it was opened: the output is not in a format with an alpha
    channel. *)
Lemma C4_empty_page_output_is_RGB :
  im_mode ex_base = RGB /\
  exists l' w' out,
    render_page [] 1 0%nat ex_world = Ok l' w' /\
    images w' !! l' = Some out /\
    im_mode out = RGB.
Proof.
  split; [reflexivity|]. exists 0%nat, ex_world, ex_base.
  split; [|split]; reflexivity.
Qed.

(** C4 as amended.  Rendering a page none of whose blocks is of a painted
    type (in particular a page with no blocks) returns the page image
    itself, in the mode it has, with the store untouched; whenever the
    renderer returns, the output has the width and height of the input;
    and it is RGBA when at least one block was painted. *)
Theorem C4_empty_page_returns_the_input
    (all_blocks : list Block) (page_num : Z) (img : loc) (w : World)
    (im : Image) :
  images w !! img = Some im ->
  (~ Exists (painted_block page_num) all_blocks ->
   render_page all_blocks page_num img w = Ok img w) /\
  (forall l' w',
     render_page all_blocks page_num img w = Ok l' w' ->
     exists out,
       images w' !! l' = Some out /\
       im_size out = im_size im /\
       (Exists (painted_block page_num) all_blocks -> im_mode out = RGBA) /\
       (~ Exists (painted_block page_num) all_blocks -> out = im)).
Proof.
  intros Him. split.
  - intros Hn. apply (render_page_nothing_to_paint _ _ _ _ _ Him).
    destruct (paints _) eqn:E; [|done]. by apply paints_Exists in E.
  - intros l' w' Hrun.
    destruct (paint_page_Ok_pixels _ _ _ _ _ _ _ Him Hrun)
      as (out & Hout & Hsize & Hmode & _).
    exists out. split; [done|]. split; [done|]. split.
    + intros He%paints_Exists. by rewrite He in Hmode.
    + intros Hn.
      assert (Hp : paints (group_blocks all_blocks page_num) = false).
      { destruct (paints _) eqn:E; [|done]. by apply paints_Exists in E. }
      rewrite (render_page_nothing_to_paint _ _ _ _ _ Him Hp) in Hrun.
      injection Hrun as <- <-. congruence.
Qed.

(** C4 as amended, at the page without blocks. *)
Lemma C4_page_without_blocks :
  (~ Exists (painted_block 1) [] ->
   render_page [] 1 0%nat ex_world = Ok 0%nat ex_world) /\
  (forall l' w',
     render_page [] 1 0%nat ex_world = Ok l' w' ->
     exists out,
       images w' !! l' = Some out /\
       im_size out = im_size ex_base /\
       (Exists (painted_block 1) [] -> im_mode out = RGBA) /\
       (~ Exists (painted_block 1) [] -> out = ex_base)).
Proof.
  apply (C4_empty_page_returns_the_input [] 1 0%nat ex_world ex_base).
  reflexivity.
Defined.

(** C5, the claim refuted: a width that is not negative can still be too
    large.  The product of the page width 4 and the width 1e308 is the
    float infinity, and [int] of an infinity raises OverflowError: the
    renderer raises. *)
Lemma C5_huge_width_raises :
  unit_fraction (Left (BoundingBox (Geometry ex_huge_width))) /\
  unit_fraction (Top (BoundingBox (Geometry ex_huge_width))) /\
  (0 <=? Width (BoundingBox (Geometry ex_huge_width)))%float = true /\
  (0 <=? Height (BoundingBox (Geometry ex_huge_width)))%float = true /\
  exists w',
    render_page [ex_huge_width] 1 0%nat ex_world
    = Raise (Py.Exn Py.OverflowError "cannot convert float infinity to integer")
        w'.
Proof.
  split; [split; vm_compute; reflexivity|].
  split; [split; vm_compute; reflexivity|].
  split; [vm_compute; reflexivity|]. split; [vm_compute; reflexivity|].
  eexists. vm_compute. reflexivity.
Qed.

(** C5 as amended.  When every painted block of the page has left and top
    between 0 and 1 and a width and height that are not negative and whose
    products with the page width and height are finite floats, also when
    the box reaches beyond the page, rendering raises no error and the
    output image has the width and height of the input image. *)
Theorem C5_drawable_boxes_never_raise
    (all_blocks : list Block) (page_num : Z) (img : loc) (w : World)
    (im : Image) :
  images w !! img = Some im ->
  (forall b, b ∈ all_blocks -> painted_block page_num b ->
     drawable_box (fst (im_size im)) (snd (im_size im))
       (BoundingBox (Geometry b))) ->
  exists l' w' out,
    render_page all_blocks page_num img w = Ok l' w' /\
    images w' !! l' = Some out /\
    im_size out = im_size im.
Proof.
  intros Him Hall.
  destruct (paint_layers_drawable _ _ _ im (layers_drawable _ _ _ _ Hall))
    as [out Hout].
  pose proof (draw_overlays_computes (group_blocks all_blocks page_num)
                img w im Him) as Hc.
  unfold computes, paint_page in Hc. rewrite Hout in Hc.
  destruct Hc as (l' & extra & Hrun & Hl & _).
  exists l', (add_images w extra), out. split; [done|]. split; [done|].
  by apply paint_layers_size in Hout as [? _].
Qed.

(** C5 as amended, at a block twice as large as the page. *)
Lemma C5_oversized_box_is_clipped :
  exists l' w' out,
    render_page [ex_oversized] 1 0%nat ex_world = Ok l' w' /\
    images w' !! l' = Some out /\
    im_size out = im_size ex_base.
Proof.
  apply (C5_drawable_boxes_never_raise [ex_oversized] 1 0%nat ex_world ex_base).
  - reflexivity.
  - intros b Hb _. apply list_elem_of_singleton in Hb as ->.
    vm_compute. repeat split; reflexivity.
Defined.

(** C6.  A block whose type is not one of the types the renderer paints
    has no effect on the rendering of the page: with the block or without
    it the renderer returns the same reference and leaves the same store,
    or raises the same exception.  The coordinates of such a block are
    never looked at, so it cannot raise an error either. *)
Theorem C6_unknown_block_type_is_ignored
    (l1 l2 : list Block) (block : Block) (page_num : Z) (img : loc)
    (w : World) :
  BlockType block ∉ painted_types ->
  render_page (l1 ++ block :: l2) page_num img w
  = render_page (l1 ++ l2) page_num img w.
Proof.
  intros Hb. unfold render_page. rewrite !group_blocks_filter.
  unfold painted_types in Hb. rewrite !not_elem_of_cons in Hb.
  destruct Hb as (? & ? & ? & ? & ? & ? & ? & _).
  apply draw_overlays_ext;
    cbn [page_figure_blocks page_table_blocks page_text_blocks
         page_header_blocks page_footer_blocks];
    apply filter_on_page_skip; unfold header_types;
    rewrite ?not_elem_of_cons; repeat split; try done; apply not_elem_of_nil.
Qed.

(** C6 at a concrete input: a LAYOUT_LIST block, with a width no box
    could have, between a footer and a text block. *)
Lemma C6_unknown_block_between_two_known :
  render_page ([ex_footer] ++ ex_unknown :: [ex_text]) 1 0%nat ex_world
  = render_page ([ex_footer] ++ [ex_text]) 1 0%nat ex_world.
Proof.
  apply (C6_unknown_block_type_is_ignored
           [ex_footer] [ex_text] ex_unknown 1 0%nat ex_world).
  apply (bool_decide_unpack _). vm_compute. exact I.
Defined.

(** C7, the claim refuted: on a page without regions the renderer makes no
    new buffer.  The reference it returns is the reference of the page
    image it was given, and the store holds no more objects than before. *)
Lemma C7_empty_page_returns_the_base_object :
  exists w',
    render_page [] 1 0%nat ex_world = Ok 0%nat w' /\
    length (images w') = length (images ex_world).
Proof. exists ex_world. split; reflexivity. Qed.

(** C7 as amended.  The renderer never changes the page image in place:
    when it returns, and also when it raises, the object behind the
    reference it was given, and every other object that was in the store,
    is as it was.  When at least one block of the page is painted, the
    reference returned is that of a new object, different from the page
    image; when none is, it is the reference of the page image itself. *)
Theorem C7_page_image_is_never_mutated
    (all_blocks : list Block) (page_num : Z) (img : loc) (w : World)
    (im : Image) :
  images w !! img = Some im ->
  (forall l' w',
     render_page all_blocks page_num img w = Ok l' w' ->
     images w' !! img = Some im /\
     (forall l, (l < length (images w))%nat -> images w' !! l = images w !! l) /\
     (Exists (painted_block page_num) all_blocks ->
      (length (images w) <= l')%nat /\ l' <> img) /\
     (~ Exists (painted_block page_num) all_blocks -> l' = img /\ w' = w)) /\
  (forall e w',
     render_page all_blocks page_num img w = Raise e w' ->
     images w' !! img = Some im /\
     (forall l, (l < length (images w))%nat -> images w' !! l = images w !! l)).
Proof.
  intros Him. pose proof (render_page_extends all_blocks page_num img w im Him) as Hx.
  pose proof (lookup_lt_Some _ _ _ Him) as Hlt.
  split.
  - intros l' w' Hrun. rewrite Hrun in Hx. destruct Hx as (extra & -> & Hf).
    split; [by apply lookup_add_images_old|].
    split; [intros l Hl; cbn [images add_images]; by apply lookup_app_l|].
    split.
    + intros He%paints_Exists. rewrite He in Hf. split; [done|lia].
    + intros Hn.
      destruct (paints _) eqn:E; [by apply paints_Exists in E|].
      destruct Hf as [-> ->]. by rewrite add_images_nil.
  - intros e w' Hrun. rewrite Hrun in Hx. destruct Hx as (extra & ->).
    split; [by apply lookup_app_l_Some|].
    intros l Hl. cbn [images add_images add_raised]. by apply lookup_app_l.
Qed.

(** C7 as amended, at the page with a footer and a text block. *)
Lemma C7_page_image_after_rendering :
  (forall l' w',
     render_page [ex_footer; ex_text] 1 0%nat ex_world = Ok l' w' ->
     images w' !! 0%nat = Some ex_base /\
     (forall l, (l < length (images ex_world))%nat ->
        images w' !! l = images ex_world !! l) /\
     (Exists (painted_block 1) [ex_footer; ex_text] ->
      (length (images ex_world) <= l')%nat /\ l' <> 0%nat) /\
     (~ Exists (painted_block 1) [ex_footer; ex_text] ->
      l' = 0%nat /\ w' = ex_world)) /\
  (forall e w',
     render_page [ex_footer; ex_text] 1 0%nat ex_world = Raise e w' ->
     images w' !! 0%nat = Some ex_base /\
     (forall l, (l < length (images ex_world))%nat ->
        images w' !! l = images ex_world !! l)).
Proof.
  apply (C7_page_image_is_never_mutated
           [ex_footer; ex_text] 1 0%nat ex_world ex_base).
  reflexivity.
Defined.

(** C8.  A block of type LAYOUT_SECTION_HEADER, LAYOUT_HEADER or
    LAYOUT_TITLE is put in the header group of its page, the group painted
    with the header tint, and the header group of a page holds exactly the
    blocks of these three types on the page; the block is in none of the
    four lists the statistics count, the statistics are the same with the
    block and without it, and they count the LINE, WORD, LAYOUT_FIGURE and
    LAYOUT_TABLE blocks and nothing else. *)
Theorem C8_headers_are_drawn_but_not_counted
    (l1 l2 : list Block) (block : Block) (pdf_document : Pdf) :
  BlockType block ∈ header_types ->
  block ∈ page_header_blocks (group_blocks (l1 ++ block :: l2) (Page block)) /\
  (forall page_num,
     page_header_blocks (group_blocks (l1 ++ block :: l2) page_num)
     = filter (on_page page_num header_types) (l1 ++ block :: l2)) /\
  (block ∉ line_blocks (sort_blocks (l1 ++ block :: l2))) /\
  (block ∉ word_blocks (sort_blocks (l1 ++ block :: l2))) /\
  (block ∉ figure_blocks (sort_blocks (l1 ++ block :: l2))) /\
  (block ∉ table_blocks (sort_blocks (l1 ++ block :: l2))) /\
  make_stats pdf_document (sort_blocks (l1 ++ block :: l2))
  = make_stats pdf_document (sort_blocks (l1 ++ l2)) /\
  make_stats pdf_document (sort_blocks (l1 ++ block :: l2))
  = {| Page_Count := len pdf_document;
       Line_Count := len (filter (has_type "LINE") (l1 ++ block :: l2));
       Word_Count := len (filter (has_type "WORD") (l1 ++ block :: l2));
       Figure_Count :=
         len (filter (has_type "LAYOUT_FIGURE") (l1 ++ block :: l2));
       Table_Count :=
         len (filter (has_type "LAYOUT_TABLE") (l1 ++ block :: l2)) |}.
Proof.
  intros Ht. pose proof (header_type_not_counted _ Ht) as (? & ? & ? & ?).
  rewrite !sort_blocks_filter.
  cbn [line_blocks word_blocks figure_blocks table_blocks].
  split.
  { rewrite group_blocks_filter. cbn [page_header_blocks].
    apply list_elem_of_filter. split; [done|].
    apply elem_of_app. right. apply elem_of_cons. by left. }
  split.
  { intros page_num. by rewrite group_blocks_filter. }
  repeat (split; [by intros [? _]%list_elem_of_filter|]).
  split; [|done].
  unfold make_stats. cbn [line_blocks word_blocks figure_blocks table_blocks].
  by rewrite !filter_app, !filter_cons_False by done.
Qed.

(** C8 at a concrete input: a section header between a text block and a
    footer. *)
Lemma C8_section_header_example :
  ex_section_header
  ∈ page_header_blocks
      (group_blocks ([ex_text] ++ ex_section_header :: [ex_footer])
         (Page ex_section_header)) /\
  (forall page_num,
     page_header_blocks
       (group_blocks ([ex_text] ++ ex_section_header :: [ex_footer]) page_num)
     = filter (on_page page_num header_types)
         ([ex_text] ++ ex_section_header :: [ex_footer])) /\
  (ex_section_header
   ∉ line_blocks (sort_blocks ([ex_text] ++ ex_section_header :: [ex_footer]))) /\
  (ex_section_header
   ∉ word_blocks (sort_blocks ([ex_text] ++ ex_section_header :: [ex_footer]))) /\
  (ex_section_header
   ∉ figure_blocks (sort_blocks ([ex_text] ++ ex_section_header :: [ex_footer]))) /\
  (ex_section_header
   ∉ table_blocks (sort_blocks ([ex_text] ++ ex_section_header :: [ex_footer]))) /\
  make_stats [inr ex_base]
    (sort_blocks ([ex_text] ++ ex_section_header :: [ex_footer]))
  = make_stats [inr ex_base] (sort_blocks ([ex_text] ++ [ex_footer])) /\
  make_stats [inr ex_base]
    (sort_blocks ([ex_text] ++ ex_section_header :: [ex_footer]))
  = {| Page_Count := len [inr (A := Py.exn) ex_base];
       Line_Count :=
         len (filter (has_type "LINE")
                ([ex_text] ++ ex_section_header :: [ex_footer]));
       Word_Count :=
         len (filter (has_type "WORD")
                ([ex_text] ++ ex_section_header :: [ex_footer]));
       Figure_Count :=
         len (filter (has_type "LAYOUT_FIGURE")
                ([ex_text] ++ ex_section_header :: [ex_footer]));
       Table_Count :=
         len (filter (has_type "LAYOUT_TABLE")
                ([ex_text] ++ ex_section_header :: [ex_footer])) |}.
Proof.
  apply (C8_headers_are_drawn_but_not_counted
           [ex_text] [ex_footer] ex_section_header [inr ex_base]).
  apply (bool_decide_unpack _). vm_compute. exact I.
Defined.

(** C9.  The flow for the selected file never lets an exception out: it
    always returns.  Whenever an exception was raised on the way, whether
    in the fetch, in the JSON parser, in opening the PDF, in the lookup of
    the document key, in rasterising a page or in the renderer, an error
    message is among what has been shown.  An exception that reaches the
    outer handler is shown as an error message, followed by an expander
    with the traceback. *)
Theorem C9_errors_are_shown_and_never_propagate
    (env : Env) (selected_folder selected_file output_path : string)
    (w : World) :
  exists w' new,
    main_selected env selected_folder selected_file output_path w = Ok tt w' /\
    ui w' = ui w ++ new /\
    (raised w' <> raised w -> exists msg, st_error msg ∈ new) /\
    (forall e w1,
       process_file env selected_file
         (Path_join env selected_folder (selected_file +:+ ".pdf"))
         output_path w = Raise e w1 ->
       ui w' = ui w1 ++
         [st_error ("Error loading processed file: " +:+ Py.exn_str e);
          st_expander "Show Error Traceback";
          st_code (traceback_format_exc env e)]).
Proof.
  unfold main_selected, try_except.
  pose proof (reported_process_file env selected_file
                (Path_join env selected_folder (selected_file +:+ ".pdf"))
                output_path w) as Hp.
  destruct (process_file _ _ _ _ w) as [[] w1|e w1].
  - destruct Hp as (new & Hu & Hr). exists w1, new. repeat split; try done.
  - destruct Hp as [new Hu]. eexists _, _. split; [reflexivity|].
    cbn [ui]. split; [by rewrite Hu, <- !app_assoc|]. split.
    + intros _. eexists. apply elem_of_app. right.
      apply elem_of_cons. left. reflexivity.
    + intros e' w1' [= <- <-]. by rewrite <- !app_assoc.
Qed.

(** C10.  The tints the five loops composite with are the entries of the
    legend table [BLOCK_COLORS]: the five loops of the source are the one
    loop that looks each category's tint up in the table, category by
    category in the table's order; the table holds Figure (255,0,0,64),
    Table (0,0,255,64), Text (0,255,0,64), Header/Title (128,0,128,64) and
    Footer (255,255,0,64), which are the fills of the five loops in their
    order; every tint has alpha 64.  The legend shows, after its heading
    and its style sheet, one box per entry of the same table: the boxes
    are #ff0000, #0000ff, #00ff00, #800080 and #ffff00 under the names of
    the five categories, and the colour of each box, read as a style sheet
    reads it, is the red, green and blue of the fill of the loop of its
    category.  So the legend and the overlays agree. *)
Theorem C10_overlay_tints_are_the_legend_colours :
  (forall g img w,
     draw_overlays g img w
     = draw_overlays_by_table BLOCK_COLORS (legend_groups g) img w) /\
  (forall g, fst <$> legend_groups g = fst <$> BLOCK_COLORS) /\
  (forall g, fst <$> layers g = snd <$> BLOCK_COLORS) /\
  group_fill <$> seq 0 5 = snd <$> BLOCK_COLORS /\
  (dict_get BLOCK_COLORS "LAYOUT_FIGURE" = Some (255, 0, 0, 64) /\
   dict_get BLOCK_COLORS "LAYOUT_TABLE" = Some (0, 0, 255, 64) /\
   dict_get BLOCK_COLORS "LAYOUT_TEXT" = Some (0, 255, 0, 64) /\
   dict_get BLOCK_COLORS "LAYOUT_HEADER/TITLE" = Some (128, 0, 128, 64) /\
   dict_get BLOCK_COLORS "LAYOUT_FOOTER" = Some (255, 255, 0, 64)) /\
  Forall (fun item => alpha (snd item) = 64) BLOCK_COLORS /\
  (forall w,
     display_legends_with_columns w
     = Ok tt {| images := images w;
                ui := ui w ++ [st_markdown "### Block Type Legend";
                               st_markdown legend_css; st_columns 5]
                           ++ legend_boxes BLOCK_COLORS;
                raised := raised w |}) /\
  legend_boxes BLOCK_COLORS
  = [st_legend_box "#ff0000" "LAYOUT_FIGURE";
     st_legend_box "#0000ff" "LAYOUT_TABLE";
     st_legend_box "#00ff00" "LAYOUT_TEXT";
     st_legend_box "#800080" "LAYOUT_HEADER/TITLE";
     st_legend_box "#ffff00" "LAYOUT_FOOTER"] /\
  (forall g,
     Css.legend_box_color <$> legend_boxes BLOCK_COLORS
     = (fun fill => Some (Css.rgb fill)) <$> (fst <$> layers g)).
Proof.
  split; [apply draw_overlays_table|].
  split; [done|]. split; [done|]. split; [done|].
  split; [apply BLOCK_COLORS_entries|].
  split; [by repeat constructor|].
  split.
  { intros w. unfold display_legends_with_columns, mbind, M_bind, emit at 1 2 3.
    rewrite legend_loop. cbn [images ui raised]. by rewrite <- !app_assoc. }
  split; [vm_compute; reflexivity|].
  intros g. vm_compute. reflexivity.
Qed.

(* ===================================================================== *)
(** ** Examples: the program run on concrete inputs *)
(* ===================================================================== *)

Example spec_end_to_end_box :
  pixel_box 1000 2000 (mkBoundingBox 0.1 0.1 0.2 0.05)
  = inr ((100, 200), (300, 300)) /\
  alpha_composite_pixel white (0, 0, 255, 64) = (191, 191, 255, 255).
Proof. split; vm_compute; reflexivity. Qed.

(** The range the drawing call is modelled in.  A text block ten thousand
    million pages wide has the right corner of its box at 40000000002,
    which is no C int: the statements that carry [in_range] say nothing of
    such a block.  The blocks that reach beyond the page by a page or two
    are in range. *)
Example box_outside_the_range :
  pixel_box 4 3 (mkBoundingBox 0.5 0 1e10 0.5)
  = inr ((2, 0), (40000000002, 1)) /\
  in_range 4 3 (ex_block "LAYOUT_TEXT" 0.5 0 1e10 0.5) = false /\
  in_range 4 3 ex_table = true /\
  in_range 4 3 ex_oversized = true /\
  in_range 4 3 ex_negative_left = true.
Proof. repeat split; vm_compute; reflexivity. Qed.

Lemma c_int_spec n : c_int n = true <-> - 2147483648 <= n <= 2147483647.
Proof. unfold c_int. rewrite andb_true_iff, Z.leb_le, Z.ltb_lt. lia. Qed.

(** [repr] of three keys: between single quotes, between double quotes
    for a key with an apostrophe, and with the backslash doubled. *)
Example repr_of_keys :
  Py.repr "docs/a.pdf" = "'docs/a.pdf'" /\
  Py.repr "anne's" = String Py.dquote ("anne's" +:+ String Py.dquote "") /\
  Py.repr "docs\a.pdf" = "'docs\\a.pdf'".
Proof. repeat split; vm_compute; reflexivity. Qed.

Example compositing_order_matters :
  alpha_composite_pixel (alpha_composite_pixel white (0, 255, 0, 64))
    (255, 255, 0, 64) = (207, 255, 143, 255) /\
  alpha_composite_pixel (alpha_composite_pixel white (255, 255, 0, 64))
    (0, 255, 0, 64) = (191, 255, 143, 255).
Proof. split; vm_compute; reflexivity. Qed.

Example flow_fetch_fails :
  main_selected ex_env_no_fetch "docs" "a" "out\a.json" no_world
  = Ok tt
      {| images := [];
         ui := [st_write "Processing file: out/a.json";
                st_error "Error fetching file from GitHub: 404 Client Error";
                st_error "File is empty"];
         raised := [Py.Exn Py.RequestException "404 Client Error"] |}.
Proof. vm_compute. reflexivity. Qed.

Example flow_bad_json :
  main_selected ex_env_bad_json "docs" "a" "out\a.json" no_world
  = Ok tt
      {| images := [];
         ui := [st_write "Processing file: out/a.json";
                st_error "Invalid JSON format: Expecting value";
                st_write_raw "Content that failed to parse:" "{...}";
                st_expander "Show Error Traceback";
                st_code "Traceback: Expecting value"];
         raised := [Py.Exn Py.JSONDecodeError "Expecting value"] |}.
Proof. vm_compute. reflexivity. Qed.

Example flow_no_pdf :
  main_selected ex_env_no_pdf "docs" "a" "out\a.json" no_world
  = Ok tt
      {| images := [];
         ui := [st_write "Processing file: out/a.json";
                st_error "Error loading processed file: no such file";
                st_expander "Show Error Traceback";
                st_code "Traceback: no such file"];
         raised := [Py.Exn Py.OtherException "no such file"] |}.
Proof. vm_compute. reflexivity. Qed.

Example flow_one_page :
  exists w',
    main_selected ex_env "docs" "a" "out\a.json" no_world = Ok tt w' /\
    raised w' = [] /\
    ui w'
    = [st_write "Processing file: out/a.json";
       st_write_stats "Statistics:" (mkStats 1 1 0 0 0);
       st_markdown "### Block Type Legend";
       st_markdown legend_css;
       st_columns 5;
       st_legend_box "#ff0000" "LAYOUT_FIGURE";
       st_legend_box "#0000ff" "LAYOUT_TABLE";
       st_legend_box "#00ff00" "LAYOUT_TEXT";
       st_legend_box "#800080" "LAYOUT_HEADER/TITLE";
       st_legend_box "#ffff00" "LAYOUT_FOOTER";
       st_header "Processed File: a";
       st_columns 2;
       st_subheader "Original PDF Page 1";
       st_image 6;
       st_subheader "Extracted Text";
       st_text_line "Hello"] /\
    (images w' !! 6%nat ≫= fun out => getpixel out 1 0)
    = Some (207, 255, 143, 255).
Proof.
  eexists. split; [vm_compute; reflexivity|].
  split; [|split]; vm_compute; reflexivity.
Qed.

(* ===================================================================== *)
(** * Further properties *)
(* ===================================================================== *)

Import Blend Css Trace Main Cases.

(* ===================================================================== *)
(** ** Lemmas: the exceptions of the renderer *)
(* ===================================================================== *)

Lemma int_error f e : Py.int f = inl e -> drawing_error e.
Proof.
  unfold Py.int, Py.int_of_spec, drawing_error.
  destruct (Prim2SF f); intros [= <-]; cbn; tauto.
Qed.

Lemma pixel_box_error W H bb e : pixel_box W H bb = inl e -> drawing_error e.
Proof.
  unfold pixel_box, and_then.
  repeat match goal with
         | |- context [match Py.int ?f with _ => _ end] =>
             let E := fresh "E" in
             destruct (Py.int f) eqn:E;
             [intros [= <-]; by eapply int_error|]
         end.
  done.
Qed.

Lemma paint_block_error fill W H im block e :
  paint_block fill W H im block = inl e -> drawing_error e.
Proof.
  unfold paint_block. destruct (pixel_box _ _ _) as [e'|box] eqn:E.
  - intros [= <-]. by eapply pixel_box_error.
  - repeat case_match; intros [= <-]; left; done.
Qed.

Lemma paint_blocks_error fill W H blocks : forall im e,
  paint_blocks fill W H blocks im = inl e -> drawing_error e.
Proof.
  induction blocks as [|b bs IH]; intros im e; cbn [paint_blocks]; [done|].
  destruct (paint_block _ _ _ _ _) as [e'|im1] eqn:E.
  - intros [= <-]. by eapply paint_block_error.
  - apply IH.
Qed.

Lemma paint_layers_error W H ls : forall im e,
  paint_layers W H ls im = inl e -> drawing_error e.
Proof.
  induction ls as [|[fill blocks] ls IH]; intros im e; cbn [paint_layers]; [done|].
  destruct (paint_blocks _ _ _ _ _) as [e'|im1] eqn:E.
  - intros [= <-]. by eapply paint_blocks_error.
  - apply IH.
Qed.

(** *** Floats that are not finite *)

Lemma int_not_finite n x :
  isfinite x = false -> exists e, Py.int (Py.float_of_int n * x) = inl e.
Proof.
  unfold isfinite, Py.int. rewrite mul_spec. unfold SF64mul.
  pose proof (float_of_int_finite n) as Hn.
  destruct (Prim2SF (Py.float_of_int n)) as [s|s| |s m e]; try done;
    destruct (Prim2SF x) as [t|t| |t m' e']; try done; intros _; cbn;
    by eexists.
Qed.

Lemma draws_finite W H block :
  draws W H block = true -> finite_box (BoundingBox (Geometry block)) = true.
Proof.
  unfold draws, pixel_box, finite_box, and_then. intros Hd.
  destruct (Py.int (_ * Left _)) eqn:E1; [done|].
  destruct (Py.int (_ * Top _)) eqn:E2; [done|].
  destruct (Py.int (_ * Width _)) eqn:E3; [done|].
  destruct (Py.int (_ * Height _)) eqn:E4; [done|].
  rewrite !andb_true_iff. repeat split.
  all: match goal with
       | |- isfinite ?x = true => destruct (isfinite x) eqn:E; [done|]
       end.
  - destruct (int_not_finite W _ E); congruence.
  - destruct (int_not_finite H _ E); congruence.
  - destruct (int_not_finite W _ E); congruence.
  - destruct (int_not_finite H _ E); congruence.
Qed.

Lemma render_page_Raise all_blocks page_num img w im e w' :
  images w !! img = Some im ->
  render_page all_blocks page_num img w = Raise e w' -> drawing_error e.
Proof.
  intros Him Hrun.
  pose proof (render_page_result all_blocks page_num img w im Him) as Hr.
  destruct (paint_page _ im) as [e'|out] eqn:E.
  - destruct Hr as [extra Hr]. rewrite Hr in Hrun. injection Hrun as <- _.
    by eapply paint_layers_error.
  - destruct Hr as (l' & extra & Hr & _). congruence.
Qed.

(** *** The input order *)

Lemma const_fmap_length {A B} (c : B) (l1 l2 : list A) :
  length l1 = length l2 ->
  (fun _ => c) <$> l1 = (fun _ => c) <$> l2.
Proof.
  revert l2. induction l1 as [|a l1 IH]; intros [|b l2]; cbn; try done.
  intros [= Hl]. f_equal. by apply IH.
Qed.

Lemma tints_at_page_perm W H all_blocks all_blocks' page_num x y :
  all_blocks ≡ₚ all_blocks' ->
  tints_at W H (painted (layers (group_blocks all_blocks page_num))) x y
  = tints_at W H (painted (layers (group_blocks all_blocks' page_num))) x y.
Proof.
  intros Hp. rewrite !tints_at_page. cbn [seq mbind list_bind].
  repeat (apply (f_equal2 app); [apply const_fmap_length; by rewrite Hp|]).
  done.
Qed.

Lemma painted_block_perm page_num (l1 l2 : list Block) :
  l1 ≡ₚ l2 ->
  Exists (painted_block page_num) l1 <-> Exists (painted_block page_num) l2.
Proof. intros Hp. by rewrite Hp. Qed.

Lemma paints_perm all_blocks all_blocks' page_num :
  all_blocks ≡ₚ all_blocks' ->
  paints (group_blocks all_blocks page_num)
  = paints (group_blocks all_blocks' page_num).
Proof.
  intros Hp. pose proof (paints_Exists all_blocks page_num) as H1.
  pose proof (paints_Exists all_blocks' page_num) as H2.
  rewrite (painted_block_perm _ _ _ Hp) in H1.
  destruct (paints (group_blocks all_blocks _)),
           (paints (group_blocks all_blocks' _)); try done.
  - symmetry. tauto.
  - tauto.
Qed.

Lemma render_page_pixels all_blocks page_num img w w' im l' :
  images w !! img = Some im ->
  render_page all_blocks page_num img w = Ok l' w' ->
  exists out,
    images w' !! l' = Some out /\
    im_size out = im_size im /\
    im_mode out
    = (if paints (group_blocks all_blocks page_num) then RGBA else im_mode im) /\
    (paints (group_blocks all_blocks page_num) = false -> out = im) /\
    forall x y,
      Z.of_nat x < fst (im_size im) -> Z.of_nat y < snd (im_size im) ->
      getpixel (convert_RGBA out) x y
      = fold_left alpha_composite_pixel
          (tints_at (fst (im_size im)) (snd (im_size im))
             (painted (layers (group_blocks all_blocks page_num))) x y)
        <$> getpixel (convert_RGBA im) x y.
Proof.
  intros Him Hrun.
  destruct (paint_page_Ok_pixels _ _ _ _ _ _ _ Him Hrun)
    as (out & Hout & Hs & Hm & Hpix).
  exists out. repeat (split; [done|]). split; [|done].
  intros Hp. rewrite (render_page_nothing_to_paint _ _ _ _ _ Him Hp) in Hrun.
  injection Hrun as <- <-. congruence.
Qed.

(* ===================================================================== *)
(** ** The renderer: when it returns, and the order of the input *)
(* ===================================================================== *)

(** X1.  On a page whose painted blocks have the corners of their boxes
    in the range of a C int, the renderer returns exactly when every block
    of the page that is of a painted type has a box the loop body can draw:
    the four [int] calls return and the width and the height in pixels are
    not negative.  Within that range left and top are free: a box that
    starts left of the page or above it is drawn. *)
Theorem render_page_returns_iff_boxes_drawn
    (all_blocks : list Block) (page_num : Z) (img : loc) (w : World)
    (im : Image) :
  images w !! img = Some im ->
  (forall b, b ∈ all_blocks -> painted_block page_num b ->
     in_range (fst (im_size im)) (snd (im_size im)) b = true) ->
  (exists l' w', render_page all_blocks page_num img w = Ok l' w')
  <-> (forall b, b ∈ all_blocks -> painted_block page_num b ->
         exists left top width height,
           Py.int (Py.float_of_int (fst (im_size im))
                   * Left (BoundingBox (Geometry b))) = inr left /\
           Py.int (Py.float_of_int (snd (im_size im))
                   * Top (BoundingBox (Geometry b))) = inr top /\
           Py.int (Py.float_of_int (fst (im_size im))
                   * Width (BoundingBox (Geometry b))) = inr width /\
           Py.int (Py.float_of_int (snd (im_size im))
                   * Height (BoundingBox (Geometry b))) = inr height /\
           0 <= width /\ 0 <= height).
Proof.
  intros Him _. rewrite (render_page_Ok_iff _ _ _ _ _ Him).
  apply forall_proper; intros b. apply forall_proper; intros _.
  apply forall_proper; intros _. unfold draws, pixel_box, and_then.
  destruct (Py.int (_ * Left _)) as [e|x0].
  { split; [done|]. by intros (? & ? & ? & ? & ? & _). }
  destruct (Py.int (_ * Top _)) as [e|y0].
  { split; [done|]. by intros (? & ? & ? & ? & ? & ? & _). }
  destruct (Py.int (_ * Width _)) as [e|wd].
  { split; [done|]. by intros (? & ? & ? & ? & ? & ? & ? & _). }
  destruct (Py.int (_ * Height _)) as [e|ht].
  { split; [done|]. by intros (? & ? & ? & ? & ? & ? & ? & ? & _). }
  cbn [fst snd]. rewrite andb_true_iff, !Z.leb_le. split.
  - intros [? ?]. exists x0, y0, wd, ht. repeat split; try done; lia.
  - intros (? & ? & ? & ? & [= <-] & [= <-] & [= <-] & [= <-] & ? & ?). lia.
Qed.

(** X1 at a concrete input: a text block whose left edge is half a page
    left of the page is drawn. *)
Lemma render_page_returns_iff_boxes_drawn_example :
  exists l' w', render_page [ex_left_of_page] 1 0%nat ex_world = Ok l' w'.
Proof.
  apply (render_page_returns_iff_boxes_drawn
           [ex_left_of_page] 1 0%nat ex_world ex_base eq_refl).
  - intros b ->%list_elem_of_singleton _. vm_compute. reflexivity.
  - intros b ->%list_elem_of_singleton _. exists (-2), 0, 4, 3.
    repeat split; try (vm_compute; reflexivity); lia.
Defined.

(** X2.  A block of a painted type one of whose four fractions is not a
    finite float (a NaN or an infinity) makes the renderer of its page
    raise, whatever the other blocks are, and what the renderer raises is
    a ValueError or an OverflowError. *)
Theorem render_page_raises_on_non_finite_box
    (all_blocks : list Block) (page_num : Z) (img : loc) (w : World)
    (im : Image) (b : Block) :
  images w !! img = Some im ->
  b ∈ all_blocks -> painted_block page_num b ->
  finite_box (BoundingBox (Geometry b)) = false ->
  exists e w',
    render_page all_blocks page_num img w = Raise e w' /\
    (Py.exn_cls e = Py.ValueError \/ Py.exn_cls e = Py.OverflowError).
Proof.
  intros Him Hb Hp Hf.
  destruct (render_page all_blocks page_num img w) as [l' w'|e w'] eqn:Hrun.
  - exfalso.
    assert (Hd : draws (fst (im_size im)) (snd (im_size im)) b = true).
    { apply (proj1 (render_page_Ok_iff all_blocks page_num img w im Him));
        [by eexists _, _|done..]. }
    apply draws_finite in Hd. congruence.
  - exists e, w'. split; [done|]. by eapply render_page_Raise.
Qed.

(** X2 at a concrete input: a figure whose left edge is a NaN, listed
    after a footer. *)
Lemma render_page_raises_on_non_finite_box_example :
  exists e w',
    render_page [ex_footer; ex_nan_left] 1 0%nat ex_world = Raise e w' /\
    (Py.exn_cls e = Py.ValueError \/ Py.exn_cls e = Py.OverflowError).
Proof.
  apply (render_page_raises_on_non_finite_box
           [ex_footer; ex_nan_left] 1 0%nat ex_world ex_base ex_nan_left).
  - reflexivity.
  - apply elem_of_cons. right. apply list_elem_of_singleton. reflexivity.
  - split; [reflexivity|]. by exists 0%nat.
  - vm_compute. reflexivity.
Defined.

(** X3.  The rendering of a page does not depend on the order of the
    blocks in the input.  For two inputs that hold the same blocks in a
    different order the renderer returns for both or raises for both; when
    it returns, the two images have the same size, the same mode and the
    same colour at every pixel of the page. *)
Theorem render_page_ignores_input_order
    (all_blocks all_blocks' : list Block) (page_num : Z) (img : loc)
    (w : World) (im : Image) :
  images w !! img = Some im ->
  all_blocks ≡ₚ all_blocks' ->
  match render_page all_blocks page_num img w,
        render_page all_blocks' page_num img w with
  | Ok l1 w1, Ok l2 w2 =>
      exists out1 out2,
        images w1 !! l1 = Some out1 /\ images w2 !! l2 = Some out2 /\
        im_size out1 = im_size out2 /\ im_mode out1 = im_mode out2 /\
        forall x y,
          Z.of_nat x < fst (im_size im) -> Z.of_nat y < snd (im_size im) ->
          getpixel out1 x y = getpixel out2 x y
  | Raise _ _, Raise _ _ => True
  | _, _ => False
  end.
Proof.
  intros Him Hp.
  pose proof (render_page_Ok_iff all_blocks page_num img w im Him) as H1.
  pose proof (render_page_Ok_iff all_blocks' page_num img w im Him) as H2.
  assert (Hiff :
    (exists l' w', render_page all_blocks page_num img w = Ok l' w')
    <-> (exists l' w', render_page all_blocks' page_num img w = Ok l' w')).
  { rewrite H1, H2. split; intros Hall b Hb; apply Hall;
      [by rewrite Hp|by rewrite <- Hp]. }
  clear H1 H2.
  destruct (render_page all_blocks page_num img w) as [l1 w1|e1 w1] eqn:R1,
           (render_page all_blocks' page_num img w) as [l2 w2|e2 w2] eqn:R2.
  - destruct (render_page_pixels _ _ _ _ _ _ _ Him R1)
      as (out1 & Ho1 & Hs1 & Hm1 & Hn1 & Hpix1).
    destruct (render_page_pixels _ _ _ _ _ _ _ Him R2)
      as (out2 & Ho2 & Hs2 & Hm2 & Hn2 & Hpix2).
    rewrite <- (paints_perm _ _ _ Hp) in Hm2, Hn2.
    exists out1, out2. repeat (split; [congruence|]).
    intros x y Hx Hy.
    destruct (paints (group_blocks all_blocks page_num)).
    + rewrite <- (convert_RGBA_id out1), <- (convert_RGBA_id out2) by done.
      rewrite Hpix1, Hpix2 by done.
      by rewrite (tints_at_page_perm _ _ _ _ _ _ _ Hp).
    + by rewrite Hn1, Hn2.
  - destruct (proj1 Hiff) as (? & ? & ?); [by eexists _, _|done].
  - destruct (proj2 Hiff) as (? & ? & ?); [by eexists _, _|done].
  - done.
Qed.

(** X3 at a concrete input: the footer and the text block of the white
    page in both orders. *)
Lemma render_page_ignores_input_order_example :
  match render_page [ex_footer; ex_text] 1 0%nat ex_world,
        render_page [ex_text; ex_footer] 1 0%nat ex_world with
  | Ok l1 w1, Ok l2 w2 =>
      exists out1 out2,
        images w1 !! l1 = Some out1 /\ images w2 !! l2 = Some out2 /\
        im_size out1 = im_size out2 /\ im_mode out1 = im_mode out2 /\
        forall x y,
          Z.of_nat x < fst (im_size ex_base) ->
          Z.of_nat y < snd (im_size ex_base) ->
          getpixel out1 x y = getpixel out2 x y
  | Raise _ _, Raise _ _ => True
  | _, _ => False
  end.
Proof.
  apply (render_page_ignores_input_order
           [ex_footer; ex_text] [ex_text; ex_footer] 1 0%nat ex_world ex_base).
  - reflexivity.
  - apply perm_swap.
Defined.

(* ===================================================================== *)
(** ** Lemmas: blocks of other pages, and counting *)
(* ===================================================================== *)

Lemma group_blocks_other_page l1 l2 (b : Block) page_num :
  Page b <> page_num ->
  group_blocks (l1 ++ b :: l2) page_num = group_blocks (l1 ++ l2) page_num.
Proof.
  intros Hb. rewrite !group_blocks_filter.
  f_equal; rewrite !filter_app, filter_cons_False; try done; by intros [? _].
Qed.

Lemma for_ext {A} (f g : A -> M unit) (l : list A) w :
  (forall a, a ∈ l -> f a = g a) -> for_ l f w = for_ l g w.
Proof.
  revert w. induction l as [|a l IH]; intros w Hfg; [done|].
  cbn [for_]. rewrite (Hfg a) by (by left). unfold mbind, M_bind.
  destruct (g a w) as [[] w1|e w1]; [|done].
  apply IH. intros a' Ha'. apply Hfg. by right.
Qed.

Lemma filter_or_disjoint {A} (P Q : A -> Prop)
    `{!forall a, Decision (P a)} `{!forall a, Decision (Q a)} (l : list A) :
  (forall a, P a -> Q a -> False) ->
  filter P l ++ filter Q l ≡ₚ filter (fun a => P a \/ Q a) l.
Proof.
  intros Hd. induction l as [|a l IH]; [done|].
  rewrite !filter_cons.
  destruct (decide (P a)) as [HP|HP], (decide (Q a)) as [HQ|HQ].
  - destruct (Hd a HP HQ).
  - rewrite decide_True by tauto. cbn. by rewrite IH.
  - rewrite decide_True by tauto. by rewrite <- Permutation_middle, IH.
  - rewrite decide_False by tauto. done.
Qed.

Lemma on_page_disjoint page_num types1 types2 (b : Block) :
  (forall t, t ∈ types1 -> t ∈ types2 -> False) ->
  on_page page_num types1 b -> on_page page_num types2 b -> False.
Proof. intros Hd [_ H1] [_ H2]. by apply (Hd (BlockType b)). Qed.

Lemma on_page_app page_num types1 types2 (b : Block) :
  on_page page_num types1 b \/ on_page page_num types2 b
  <-> on_page page_num (types1 ++ types2) b.
Proof. unfold on_page. rewrite elem_of_app. tauto. Qed.

(** Two groups of a page whose types are apart, one after the other, are
    the blocks of the page of the types of both, each block once. *)
Lemma filter_on_page_app page_num types1 types2 (l : list Block) :
  (forall t, t ∈ types1 -> t ∈ types2 -> False) ->
  filter (on_page page_num types1) l ++ filter (on_page page_num types2) l
  ≡ₚ filter (on_page page_num (types1 ++ types2)) l.
Proof.
  intros Hd. rewrite filter_or_disjoint.
  - erewrite list_filter_iff; [done|]. intros b. apply on_page_app.
  - intros b. by apply on_page_disjoint.
Qed.

Ltac types_apart :=
  let t := fresh "t" in
  intros t; unfold header_types; rewrite ?elem_of_app, ?elem_of_cons, ?elem_of_nil;
  intros; repeat match goal with H : _ \/ _ |- _ => destruct H end;
  subst; try done; try discriminate.

Lemma painted_groups_perm all_blocks page_num :
  let g := group_blocks all_blocks page_num in
  page_figure_blocks g ++ page_table_blocks g ++ page_text_blocks g ++
  page_header_blocks g ++ page_footer_blocks g
  ≡ₚ filter (painted_block page_num) all_blocks.
Proof.
  cbn zeta. rewrite group_blocks_filter.
  cbn [page_figure_blocks page_table_blocks page_text_blocks
       page_header_blocks page_footer_blocks].
  rewrite (filter_on_page_app _ header_types) by types_apart.
  rewrite (filter_on_page_app _ ["LAYOUT_TEXT"]) by types_apart.
  rewrite (filter_on_page_app _ ["LAYOUT_TABLE"]) by types_apart.
  rewrite (filter_on_page_app _ ["LAYOUT_FIGURE"]) by types_apart.
  erewrite list_filter_iff; [done|]. intros b.
  rewrite on_page_painted_block, !on_page_app. done.
Qed.

Lemma all_groups_perm all_blocks page_num :
  all_groups (group_blocks all_blocks page_num)
  ≡ₚ filter (on_page page_num grouped_types) all_blocks.
Proof.
  unfold all_groups. rewrite group_blocks_filter.
  cbn [page_line_blocks page_word_blocks page_figure_blocks page_table_blocks
       page_text_blocks page_header_blocks page_footer_blocks].
  rewrite (filter_on_page_app _ header_types) by types_apart.
  rewrite (filter_on_page_app _ ["LAYOUT_TEXT"]) by types_apart.
  rewrite (filter_on_page_app _ ["LAYOUT_TABLE"]) by types_apart.
  rewrite (filter_on_page_app _ ["LAYOUT_FIGURE"]) by types_apart.
  rewrite (filter_on_page_app _ ["WORD"]) by types_apart.
  rewrite (filter_on_page_app _ ["LINE"]) by types_apart.
  done.
Qed.

(** *** The objects the loops create *)

Lemma for_rebind_alloc fill W H blocks : forall img w im l' w',
  images w !! img = Some im ->
  for_rebind blocks (overlay_block fill W H) img w = Ok l' w' ->
  length (images w') = (length (images w) + 3 * length blocks)%nat /\
  is_Some (images w' !! l') /\
  (blocks <> [] -> S l' = length (images w')) /\
  (blocks = [] -> l' = img).
Proof.
  induction blocks as [|b bs IH]; intros img w im l' w' Him.
  - intros [= <- <-]. cbn. split; [lia|]. split; [by eexists|done].
  - cbn [for_rebind]. unfold mbind, M_bind.
    pose proof (overlay_block_sim fill W H img b w im Him) as Hs.
    destruct (paint_block fill W H im b) as [e|out].
    { destruct Hs as [extra ->]. done. }
    destruct Hs as (box & _ & ->). intros Hrun.
    eapply IH in Hrun as (Hlen & Hl' & Hne & Hnil).
    2:{ replace (S (S (length (images w)))) with (length (images w) + 2)%nat
          by lia.
        by rewrite lookup_add_images_new. }
    rewrite length_add_images in Hlen. cbn [length] in *.
    split; [lia|]. split; [done|]. split; [|done]. intros _.
    destruct bs as [|b' bs]; [|by apply Hne].
    rewrite Hnil by done. cbn in Hlen. lia.
Qed.

Lemma draw_overlays_alloc g img w im l' w' :
  images w !! img = Some im ->
  draw_overlays g img w = Ok l' w' ->
  let n := length (page_figure_blocks g ++ page_table_blocks g ++
                   page_text_blocks g ++ page_header_blocks g ++
                   page_footer_blocks g) in
  length (images w') = (length (images w) + 3 * n)%nat /\
  (n <> 0%nat -> S l' = length (images w')).
Proof.
  intros Him. unfold draw_overlays. rewrite (deref_bind _ _ _ _ Him).
  destruct (im_size im) as [W H]. unfold mbind, M_bind.
  destruct (for_rebind (page_figure_blocks g) _ img w) as [l1 w1|] eqn:E1;
    [|done].
  destruct (for_rebind_alloc _ _ _ _ _ _ _ _ _ Him E1) as (N1 & [im1 I1] & L1 & Z1).
  destruct (for_rebind (page_table_blocks g) _ l1 w1) as [l2 w2|] eqn:E2;
    [|done].
  destruct (for_rebind_alloc _ _ _ _ _ _ _ _ _ I1 E2) as (N2 & [im2 I2] & L2 & Z2).
  destruct (for_rebind (page_text_blocks g) _ l2 w2) as [l3 w3|] eqn:E3;
    [|done].
  destruct (for_rebind_alloc _ _ _ _ _ _ _ _ _ I2 E3) as (N3 & [im3 I3] & L3 & Z3).
  destruct (for_rebind (page_header_blocks g) _ l3 w3) as [l4 w4|] eqn:E4;
    [|done].
  destruct (for_rebind_alloc _ _ _ _ _ _ _ _ _ I3 E4) as (N4 & [im4 I4] & L4 & Z4).
  destruct (for_rebind (page_footer_blocks g) _ l4 w4) as [l5 w5|] eqn:E5;
    [|done].
  destruct (for_rebind_alloc _ _ _ _ _ _ _ _ _ I4 E5) as (N5 & [im5 I5] & L5 & Z5).
  intros [= <- <-]. cbn zeta. rewrite !length_app. split; [lia|].
  intros Hn.
  destruct (page_footer_blocks g) as [|? ?]; [|by apply L5].
  rewrite Z5, N5 by done. cbn [length] in *.
  destruct (page_header_blocks g) as [|? ?]; [|rewrite <- L4 by done; lia].
  rewrite Z4, N4 by done. cbn [length] in *.
  destruct (page_text_blocks g) as [|? ?]; [|rewrite <- L3 by done; lia].
  rewrite Z3, N3 by done. cbn [length] in *.
  destruct (page_table_blocks g) as [|? ?]; [|rewrite <- L2 by done; lia].
  rewrite Z2, N2 by done. cbn [length] in *.
  destruct (page_figure_blocks g) as [|? ?]; [|rewrite <- L1 by done; lia].
  cbn in Hn. done.
Qed.

(* ===================================================================== *)
(** ** The renderer: the pages of the blocks, and the objects created *)
(* ===================================================================== *)

(** X4.  A block is grouped, painted and listed on its own page only: a
    block whose page number is not the number of the page being shown
    enters none of the seven lists of that page, so the overlays and
    everything else the page shows are the same with the block and
    without it. *)
Theorem block_is_shown_on_its_page_only
    (l1 l2 : list Block) (block : Block) (page_num : Z) (img : loc)
    (pdf_document : Pdf) (w : World) :
  Page block <> page_num ->
  group_blocks (l1 ++ block :: l2) page_num = group_blocks (l1 ++ l2) page_num /\
  render_page (l1 ++ block :: l2) page_num img w
  = render_page (l1 ++ l2) page_num img w /\
  show_page pdf_document (l1 ++ block :: l2) page_num w
  = show_page pdf_document (l1 ++ l2) page_num w.
Proof.
  intros Hb. pose proof (group_blocks_other_page l1 l2 block page_num Hb) as Hg.
  split; [done|]. unfold render_page, show_page. by rewrite Hg.
Qed.

(** X4 at a concrete input: a table block of page 2 between the footer and
    the text block, on page 1. *)
Lemma block_is_shown_on_its_page_only_example :
  group_blocks ([ex_footer] ++ ex_page2_table :: [ex_text]) 1
  = group_blocks ([ex_footer] ++ [ex_text]) 1 /\
  render_page ([ex_footer] ++ ex_page2_table :: [ex_text]) 1 0%nat ex_world
  = render_page ([ex_footer] ++ [ex_text]) 1 0%nat ex_world /\
  show_page [inr ex_base] ([ex_footer] ++ ex_page2_table :: [ex_text]) 1 ex_world
  = show_page [inr ex_base] ([ex_footer] ++ [ex_text]) 1 ex_world.
Proof.
  apply (block_is_shown_on_its_page_only
           [ex_footer] [ex_text] ex_page2_table 1 0%nat [inr ex_base] ex_world).
  vm_compute. discriminate.
Defined.

(** X5.  The statistics count the blocks of the result file whatever their
    page number, and the pages are those of the PDF: a block whose page
    number is not between 1 and the page count is shown on no page (the
    loop over the pages does the same with the block and without it),
    and it is counted all the same when its type is LINE, WORD,
    LAYOUT_FIGURE or LAYOUT_TABLE. *)
Theorem block_outside_document_is_counted_not_shown
    (pdf_document : Pdf) (l1 l2 : list Block) (block : Block) (w : World) :
  ~ (1 <= Page block <= len pdf_document) ->
  for_ (seqZ 1 (len pdf_document)) (show_page pdf_document (l1 ++ block :: l2)) w
  = for_ (seqZ 1 (len pdf_document)) (show_page pdf_document (l1 ++ l2)) w /\
  let stats := make_stats pdf_document (sort_blocks (l1 ++ block :: l2)) in
  let stats' := make_stats pdf_document (sort_blocks (l1 ++ l2)) in
  (BlockType block = "LINE" -> Line_Count stats = Line_Count stats' + 1) /\
  (BlockType block = "WORD" -> Word_Count stats = Word_Count stats' + 1) /\
  (BlockType block = "LAYOUT_FIGURE" ->
   Figure_Count stats = Figure_Count stats' + 1) /\
  (BlockType block = "LAYOUT_TABLE" ->
   Table_Count stats = Table_Count stats' + 1).
Proof.
  intros Hp. split.
  - apply for_ext. intros page_num Hin%elem_of_seqZ. unfold show_page.
    rewrite group_blocks_other_page; [done|]. unfold len in *. lia.
  - cbn zeta. rewrite !sort_blocks_filter. unfold make_stats, len.
    cbn [Line_Count Word_Count Figure_Count Table_Count
         line_blocks word_blocks figure_blocks table_blocks].
    rewrite !filter_app, !filter_cons, !length_app.
    repeat split; intros Ht; rewrite decide_True by done; cbn [length]; lia.
Qed.

(** X5 at a concrete input: a LINE block of page 7 in a document of one
    page. *)
Lemma block_outside_document_is_counted_not_shown_example :
  for_ (seqZ 1 (len [inr (A := Py.exn) ex_base]))
    (show_page [inr ex_base] ([ex_line] ++ ex_page7_line :: [ex_text])) ex_world
  = for_ (seqZ 1 (len [inr (A := Py.exn) ex_base]))
      (show_page [inr ex_base] ([ex_line] ++ [ex_text])) ex_world /\
  let stats :=
    make_stats [inr ex_base] (sort_blocks ([ex_line] ++ ex_page7_line :: [ex_text])) in
  let stats' := make_stats [inr ex_base] (sort_blocks ([ex_line] ++ [ex_text])) in
  (BlockType ex_page7_line = "LINE" -> Line_Count stats = Line_Count stats' + 1) /\
  (BlockType ex_page7_line = "WORD" -> Word_Count stats = Word_Count stats' + 1) /\
  (BlockType ex_page7_line = "LAYOUT_FIGURE" ->
   Figure_Count stats = Figure_Count stats' + 1) /\
  (BlockType ex_page7_line = "LAYOUT_TABLE" ->
   Table_Count stats = Table_Count stats' + 1).
Proof.
  apply (block_outside_document_is_counted_not_shown
           [inr ex_base] [ex_line] [ex_text] ex_page7_line ex_world).
  vm_compute. intros [_ H]. by apply H.
Defined.

(** X6.  Each block the renderer paints costs three new images of the size
    of the page: the overlay, the RGBA copy of the image so far and their
    composite.  When the renderer returns, the store has three objects
    more for each painted block of the page, and when the page has a
    painted block the image returned is the object created last. *)
Theorem render_page_creates_three_images_per_block
    (all_blocks : list Block) (page_num : Z) (img : loc) (w w' : World)
    (im : Image) (l' : loc) :
  images w !! img = Some im ->
  render_page all_blocks page_num img w = Ok l' w' ->
  length (images w')
  = (length (images w)
     + 3 * length (filter (painted_block page_num) all_blocks))%nat /\
  (Exists (painted_block page_num) all_blocks -> S l' = length (images w')).
Proof.
  intros Him Hrun. unfold render_page in Hrun.
  destruct (draw_overlays_alloc _ _ _ _ _ _ Him Hrun) as [Hlen Hlast].
  rewrite (painted_groups_perm all_blocks page_num) in Hlen, Hlast.
  split; [done|]. intros He. apply Hlast.
  apply Exists_exists in He as (b & Hb & Hp).
  assert (b ∈ filter (painted_block page_num) all_blocks) as Hin
    by by apply list_elem_of_filter.
  destruct (filter _ all_blocks); [by apply elem_of_nil in Hin|done].
Qed.

(** X6 at a concrete input: the footer and the text block on the white
    page. *)
Lemma render_page_creates_three_images_per_block_example :
  exists l' w',
    render_page [ex_footer; ex_text] 1 0%nat ex_world = Ok l' w' /\
    length (images w') = 7%nat /\ S l' = length (images w').
Proof.
  destruct (render_page [ex_footer; ex_text] 1 0%nat ex_world)
    as [l' w'|e w'] eqn:Hrun; [|vm_compute in Hrun; discriminate].
  destruct (render_page_creates_three_images_per_block
              [ex_footer; ex_text] 1 0%nat ex_world w' ex_base l'
              eq_refl Hrun) as [Hlen Hlast].
  exists l', w'. split; [reflexivity|]. split; [exact Hlen|].
  apply Hlast. apply Exists_cons_hd. split; [reflexivity|]. by exists 4%nat.
Defined.

(* ===================================================================== *)
(** ** Lemmas: a tint of alpha 64 over an opaque pixel *)
(* ===================================================================== *)

(** One band of Pillow's compositing for a source of alpha 64 over a
    destination of alpha 255, checked for every pair of bytes. *)
Lemma mix64_bytes :
  Forall (fun d =>
    Forall (fun s =>
      Z.shiftr (SHIFTFORDIV255 (s * 8192 + d * 24448 + 16384)) 7 = mix64 d s)
      (seqZ 0 256))
    (seqZ 0 256).
Proof. apply (bool_decide_unpack _). vm_compute. exact I. Qed.

Lemma mix64_band d s :
  byte d -> byte s ->
  Z.shiftr (SHIFTFORDIV255 (s * 8192 + d * 24448 + 16384)) 7 = mix64 d s.
Proof.
  intros Hd Hs. pose proof mix64_bytes as H.
  rewrite Forall_forall in H. specialize (H d).
  rewrite Forall_forall in H. apply H; apply elem_of_seqZ; unfold byte in *; lia.
Qed.

Lemma mix64_byte d s : byte d -> byte s -> byte (mix64 d s).
Proof.
  unfold byte, mix64. intros Hd Hs. split.
  - apply Z.div_pos; lia.
  - apply Z.lt_succ_r. apply Z.div_lt_upper_bound; lia.
Qed.

Lemma over_opaque q t :
  opaque q -> tint64 t ->
  alpha_composite_pixel q t = blend64 q t /\ opaque (blend64 q t).
Proof.
  destruct q as [[[r g] b] a], t as [[[tr tg] tb] ta].
  intros (Hr & Hg & Hb & ->) (Htr & Htg & Htb & ->). split.
  - unfold alpha_composite_pixel, blend64.
    change (64 =? 0) with false. cbv iota.
    change (255 * (255 - 64)) with 48705.
    change (64 * 255 + 48705) with 65025.
    change (Z.shiftl 1 PRECISION_BITS) with 128.
    change (64 * 255 * 255 * 128 / 65025) with 8192.
    change (255 * 128 - 8192) with 24448.
    change (Z.shiftl 128 PRECISION_BITS) with 16384.
    change (SHIFTFORDIV255 (65025 + 128)) with 255.
    change PRECISION_BITS with 7. cbv zeta.
    by rewrite !mix64_band.
  - cbn. repeat split; try apply mix64_byte; try done; apply Htr || apply Hr
      || apply Hg || apply Htg || apply Hb || apply Htb.
Qed.

Lemma fold_over_opaque tints : forall q,
  opaque q -> Forall tint64 tints ->
  fold_left alpha_composite_pixel tints q = fold_left blend64 tints q /\
  opaque (fold_left blend64 tints q).
Proof.
  induction tints as [|t ts IH]; intros q Hq Hts; [done|].
  apply Forall_cons in Hts as [Ht Hts]. cbn [fold_left].
  destruct (over_opaque q t Hq Ht) as [-> Ho]. by apply IH.
Qed.

Lemma group_fill_tint64 c : tint64 (group_fill c).
Proof.
  destruct c as [|[|[|[|c]]]]; cbn; unfold byte; repeat split; lia.
Qed.

Lemma page_tints_tint64 page_num W H x y all_blocks :
  Forall tint64
    (seq 0 5 ≫= fun c =>
       (fun _ => group_fill c)
       <$> filter (painted_at page_num W H x y c) all_blocks).
Proof.
  apply Forall_forall. intros t (c & Ht & _)%list_elem_of_bind.
  apply list_elem_of_fmap in Ht as (b & -> & _). apply group_fill_tint64.
Qed.

(* ===================================================================== *)
(** ** The renderer: the colours *)
(* ===================================================================== *)

(** X7.  On an opaque page every overlay is a blend of 64 parts of the
    tint with 191 parts of what is there: where the page image is opaque
    (every RGB page is) and the painted blocks of the page have the corners
    of their boxes in the range of a C int, each block that holds a pixel
    replaces each of its three colour bands v by
    (191 * v + 64 * t + 127) div 255, t being the band of the tint of the
    block's group, in paint order, and the pixel stays opaque. *)
Theorem overlays_blend_a_quarter_of_the_tint
    (all_blocks : list Block) (page_num : Z) (img : loc) (w w' : World)
    (im : Image) (l' : loc) (x y : nat) (q : rgba) :
  images w !! img = Some im ->
  (forall b, b ∈ all_blocks -> painted_block page_num b ->
     in_range (fst (im_size im)) (snd (im_size im)) b = true) ->
  render_page all_blocks page_num img w = Ok l' w' ->
  Z.of_nat x < fst (im_size im) -> Z.of_nat y < snd (im_size im) ->
  getpixel (convert_RGBA im) x y = Some q ->
  opaque q ->
  exists out q',
    images w' !! l' = Some out /\
    getpixel (convert_RGBA out) x y = Some q' /\
    q' = fold_left blend64
           (seq 0 5 ≫= fun c =>
              (fun _ => group_fill c)
              <$> filter (painted_at page_num (fst (im_size im))
                            (snd (im_size im)) x y c) all_blocks)
           q /\
    opaque q'.
Proof.
  intros Him _ Hrun Hx Hy Hq Ho.
  destruct (render_page_pixels _ _ _ _ _ _ _ Him Hrun)
    as (out & Hout & _ & _ & _ & Hpix).
  specialize (Hpix x y Hx Hy). rewrite Hq, tints_at_page in Hpix.
  destruct (fold_over_opaque _ q Ho
              (page_tints_tint64 page_num (fst (im_size im)) (snd (im_size im))
                 x y all_blocks)) as [Heq Hop].
  cbn [fmap option_fmap option_map] in Hpix. rewrite Heq in Hpix.
  eexists out, _. repeat split; done.
Qed.

(** X7 at a concrete input: the pixel (1, 0) of the white page under the
    text block and the footer. *)
Lemma overlays_blend_a_quarter_of_the_tint_example :
  exists l' w' out,
    render_page [ex_footer; ex_text] 1 0%nat ex_world = Ok l' w' /\
    images w' !! l' = Some out /\
    getpixel (convert_RGBA out) 1 0
    = Some (blend64 (blend64 white (0, 255, 0, 64)) (255, 255, 0, 64)).
Proof.
  destruct (render_page [ex_footer; ex_text] 1 0%nat ex_world)
    as [l' w'|e w'] eqn:Hrun; [|vm_compute in Hrun; discriminate].
  destruct (overlays_blend_a_quarter_of_the_tint
              [ex_footer; ex_text] 1 0%nat ex_world w' ex_base l' 1 0 white
              eq_refl) as (out & q' & Hout & Hq' & Heq & _).
  - intros b Hb _.
    repeat (apply elem_of_cons in Hb as [->|Hb]);
      try (by apply elem_of_nil in Hb); vm_compute; reflexivity.
  - exact Hrun.
  - reflexivity.
  - reflexivity.
  - reflexivity.
  - cbn. unfold byte. repeat split; lia.
  - exists l', w', out. split; [reflexivity|]. split; [exact Hout|].
    rewrite Hq', Heq. reflexivity.
Defined.

(* ===================================================================== *)
(** ** Lemmas: the statistics and the pages *)
(* ===================================================================== *)

Lemma has_type_on_some_page (pages : list Z) (t : string) (l : list Block) :
  NoDup pages ->
  sum_list_with (fun p => length (filter (on_page p [t]) l)) pages
  = length (filter (fun b => Page b ∈ pages /\ has_type t b) l).
Proof.
  induction 1 as [|p ps Hp Hnd IH]; cbn [sum_list_with].
  - rewrite (list_filter_iff _ (fun _ => False)).
    + by induction l.
    + intros b. rewrite elem_of_nil. tauto.
  - rewrite IH, <- length_app. apply Permutation_length.
    rewrite filter_or_disjoint.
    + erewrite list_filter_iff; [done|]. intros b. unfold on_page, has_type.
      rewrite list_elem_of_singleton, elem_of_cons. intuition congruence.
    + intros b [<- _] [? _]. done.
Qed.

Lemma length_filter_and_le {A} (P Q : A -> Prop)
    `{!forall a, Decision (P a)} `{!forall a, Decision (Q a)} (l : list A) :
  (length (filter (fun a => P a /\ Q a) l) <= length (filter Q l))%nat.
Proof.
  induction l as [|a l IH]; [done|]. rewrite !filter_cons.
  destruct (decide (Q a)); repeat case_decide; cbn [length]; try lia; tauto.
Qed.

Lemma filter_and_True {A} (P Q : A -> Prop)
    `{!forall a, Decision (P a)} `{!forall a, Decision (Q a)} (l : list A) :
  Forall P l -> filter (fun a => P a /\ Q a) l = filter Q l.
Proof.
  intros Hall. induction Hall as [|a l Ha Hl IH]; [done|].
  rewrite !filter_cons, IH.
  destruct (decide (Q a)); [by rewrite decide_True|by rewrite decide_False by tauto].
Qed.

Lemma counted_le (l : list Block) :
  (length (filter (has_type "LINE") l) + length (filter (has_type "WORD") l)
   + length (filter (has_type "LAYOUT_FIGURE") l)
   + length (filter (has_type "LAYOUT_TABLE") l) <= length l)%nat.
Proof.
  induction l as [|b l IH]; [done|]. rewrite !filter_cons.
  repeat case_decide; cbn [length]; try lia; unfold has_type in *; congruence.
Qed.

(* ===================================================================== *)
(** ** The groups of a page and the statistics: further properties *)
(* ===================================================================== *)

(** X8.  The seven lists of a page divide the blocks of the page: each
    list holds the blocks of the page of the type or types it is for, in
    the order of the input; taken together the seven lists hold every
    block of the page whose type is one of the nine the loop tests for
    exactly as often as the input does, so no block is in two lists; and
    a block of another page or of another type is in none. *)
Theorem page_groups_divide_the_blocks_of_the_page
    (all_blocks : list Block) (page_num : Z) :
  group_blocks all_blocks page_num
  = {| page_line_blocks := filter (on_page page_num ["LINE"]) all_blocks;
       page_word_blocks := filter (on_page page_num ["WORD"]) all_blocks;
       page_figure_blocks :=
         filter (on_page page_num ["LAYOUT_FIGURE"]) all_blocks;
       page_table_blocks :=
         filter (on_page page_num ["LAYOUT_TABLE"]) all_blocks;
       page_text_blocks := filter (on_page page_num ["LAYOUT_TEXT"]) all_blocks;
       page_header_blocks :=
         filter (on_page page_num
                   ["LAYOUT_SECTION_HEADER"; "LAYOUT_HEADER"; "LAYOUT_TITLE"])
           all_blocks;
       page_footer_blocks :=
         filter (on_page page_num ["LAYOUT_FOOTER"]) all_blocks |} /\
  all_groups (group_blocks all_blocks page_num)
  ≡ₚ filter (on_page page_num grouped_types) all_blocks /\
  (forall b,
     b ∈ all_groups (group_blocks all_blocks page_num)
     <-> b ∈ all_blocks /\ Page b = page_num /\ BlockType b ∈ grouped_types).
Proof.
  split; [apply group_blocks_filter|]. split; [apply all_groups_perm|].
  intros b. rewrite all_groups_perm, list_elem_of_filter. unfold on_page. tauto.
Qed.

(** X9.  The statistics are counts over the whole list of blocks: the
    four block counts of two lists put together are the sums of the counts
    of each, so the counts over the parts of a result file add up; they do
    not depend on the order of the blocks; together they never exceed the
    number of blocks; and the page count is the number of pages of the PDF,
    whatever the blocks are. *)
Theorem statistics_are_counts_over_all_blocks
    (pdf_document : Pdf) (l1 l2 : list Block) :
  let stats l := make_stats pdf_document (sort_blocks l) in
  Line_Count (stats (l1 ++ l2)) = Line_Count (stats l1) + Line_Count (stats l2) /\
  Word_Count (stats (l1 ++ l2)) = Word_Count (stats l1) + Word_Count (stats l2) /\
  Figure_Count (stats (l1 ++ l2))
  = Figure_Count (stats l1) + Figure_Count (stats l2) /\
  Table_Count (stats (l1 ++ l2)) = Table_Count (stats l1) + Table_Count (stats l2) /\
  (forall l, l1 ≡ₚ l -> stats l = stats l1) /\
  Line_Count (stats l1) + Word_Count (stats l1) + Figure_Count (stats l1)
  + Table_Count (stats l1) <= len l1 /\
  Page_Count (stats l1) = len pdf_document.
Proof.
  cbv zeta beta. rewrite !sort_blocks_filter. unfold make_stats, len.
  cbn [Page_Count Line_Count Word_Count Figure_Count Table_Count
       line_blocks word_blocks figure_blocks table_blocks].
  rewrite !filter_app, !length_app.
  repeat (split; [lia|]). split; [|split; [|done]].
  - intros l Hp. rewrite sort_blocks_filter.
    cbn [line_blocks word_blocks figure_blocks table_blocks].
    by rewrite Hp.
  - pose proof (counted_le l1). lia.
Qed.

(** X10.  The statistics against the pages.  For each of the types LINE,
    WORD, LAYOUT_FIGURE and LAYOUT_TABLE the lists of the pages 1 to the
    page count hold, taken together, the blocks of that type whose page
    number is a page of the PDF: never more blocks than the statistics
    count, and as many when every block of the file has a page number
    between 1 and the page count. *)
Theorem page_lists_against_the_statistics
    (pdf_document : Pdf) (all_blocks : list Block) :
  let pages := seqZ 1 (len pdf_document) in
  let stats := make_stats pdf_document (sort_blocks all_blocks) in
  let shown (list_of : PageBlocks -> list Block) :=
    Z.of_nat (sum_list_with
                (fun p => length (list_of (group_blocks all_blocks p))) pages) in
  (shown page_line_blocks <= Line_Count stats /\
   shown page_word_blocks <= Word_Count stats /\
   shown page_figure_blocks <= Figure_Count stats /\
   shown page_table_blocks <= Table_Count stats) /\
  (Forall (fun b => 1 <= Page b <= len pdf_document) all_blocks ->
   shown page_line_blocks = Line_Count stats /\
   shown page_word_blocks = Word_Count stats /\
   shown page_figure_blocks = Figure_Count stats /\
   shown page_table_blocks = Table_Count stats).
Proof.
  cbv zeta beta. rewrite sort_blocks_filter. unfold make_stats, len.
  cbn [Line_Count Word_Count Figure_Count Table_Count
       line_blocks word_blocks figure_blocks table_blocks].
  assert (Hsum : forall t (list_of : PageBlocks -> list Block),
    (forall p, list_of (group_blocks all_blocks p)
               = filter (on_page p [t]) all_blocks) ->
    sum_list_with (fun p => length (list_of (group_blocks all_blocks p)))
      (seqZ 1 (Z.of_nat (length pdf_document)))
    = length (filter (fun b => Page b ∈ seqZ 1 (Z.of_nat (length pdf_document))
                               /\ has_type t b) all_blocks)).
  { intros t list_of Hl.
    rewrite <- (has_type_on_some_page (seqZ 1 (Z.of_nat (length pdf_document))))
      by apply NoDup_seqZ.
    induction (seqZ 1 (Z.of_nat (length pdf_document))) as [|p ps IH]; [done|].
    cbn [sum_list_with]. by rewrite Hl, IH. }
  rewrite (Hsum "LINE"), (Hsum "WORD"), (Hsum "LAYOUT_FIGURE"),
    (Hsum "LAYOUT_TABLE")
    by (intros p; by rewrite group_blocks_filter).
  split.
  - repeat split; apply Nat2Z.inj_le, length_filter_and_le.
  - intros Hall.
    assert (Hin : Forall (fun b : Block =>
              Page b ∈ seqZ 1 (Z.of_nat (length pdf_document))) all_blocks).
    { eapply Forall_impl; [exact Hall|]. intros b Hb. cbn beta in Hb.
      apply elem_of_seqZ. lia. }
    by rewrite !(filter_and_True _ _ _ Hin).
Qed.

(** X10 at a concrete input: a document of one page with a LINE block of
    page 1 and one of page 7. *)
Lemma page_lists_against_the_statistics_example :
  Z.of_nat (sum_list_with
              (fun p => length (page_line_blocks
                                  (group_blocks [ex_line; ex_page7_line] p)))
              (seqZ 1 (len [inr (A := Py.exn) ex_base])))
  <= Line_Count (make_stats [inr ex_base] (sort_blocks [ex_line; ex_page7_line])).
Proof.
  apply (page_lists_against_the_statistics [inr ex_base] [ex_line; ex_page7_line]).
Defined.

(* ===================================================================== *)
(** ** Lemmas: the steps of the flow *)
(* ===================================================================== *)

Lemma emit_bind {B} ev (f : unit -> M B) w :
  (emit ev ≫= f) w = f tt (shows w [ev]).
Proof. done. Qed.

Lemma emit_run ev w : emit ev w = Ok tt (shows w [ev]).
Proof. done. Qed.

Lemma shows_shows w new1 new2 : shows (shows w new1) new2 = shows w (new1 ++ new2).
Proof. unfold shows. cbn. by rewrite app_assoc. Qed.

Lemma shows_nil w : shows w [] = w.
Proof. destruct w. unfold shows. cbn. by rewrite app_nil_r. Qed.

Lemma get_github_file_content_returns env path raw w :
  requests_get env (url_of path) = inr raw ->
  get_github_file_content env path w = Ok (Some raw) w.
Proof.
  intros Hget. unfold get_github_file_content, try_except.
  fold (url_of path). by rewrite Hget.
Qed.

Lemma get_github_file_content_caught env path e w :
  requests_get env (url_of path) = inl e ->
  Py.exn_cls e = Py.RequestException ->
  get_github_file_content env path w
  = Ok None
      (shows (add_raised w e)
         [st_error ("Error fetching file from GitHub: " +:+ Py.exn_str e)]).
Proof.
  intros Hget Hcls. unfold get_github_file_content, try_except.
  fold (url_of path). rewrite Hget.
  unfold lift, mbind, M_bind, raise, is_instance. cbv beta iota.
  by rewrite bool_decide_eq_true_2.
Qed.

Lemma get_github_file_content_raises env path e w :
  requests_get env (url_of path) = inl e ->
  Py.exn_cls e <> Py.RequestException ->
  get_github_file_content env path w = Raise e (add_raised w e).
Proof.
  intros Hget Hcls. unfold get_github_file_content, try_except.
  fold (url_of path). rewrite Hget.
  unfold lift, mbind, M_bind, raise, is_instance. cbv beta iota.
  by rewrite bool_decide_eq_false_2.
Qed.

Lemma process_file_start env selected_file pdf_path output_path w :
  process_file env selected_file pdf_path output_path w
  = (raw_content ← get_github_file_content env (replace_backslash output_path);
     match raw_content with
     | None | Some EmptyString => emit (st_error "File is empty")
     | Some raw_content =>
         parsed ← try_except
           (content ← lift (json_loads env raw_content); mret (Some content))
           (is_instance Py.JSONDecodeError)
           (fun e =>
              emit (st_error ("Invalid JSON format: " +:+ Py.exn_str e));;
              emit (st_write_raw "Content that failed to parse:" raw_content);;
              emit (st_expander "Show Error Traceback");;
              emit (st_code (traceback_format_exc env e));;
              mret None);
         match parsed with
         | None => mret tt
         | Some content =>
             pdf_document ← lift (fitz_open env pdf_path);
             textract_parts ←
               lift (get_item content (document_key_of env pdf_path));
             let all_blocks := concat (fmap (M := list) Blocks textract_parts) in
             emit (st_write_stats "Statistics:"
                     (make_stats pdf_document (sort_blocks all_blocks)));;
             display_legends_with_columns;;
             emit (st_header ("Processed File: " +:+ selected_file));;
             for_ (seqZ 1 (len pdf_document)) (show_page pdf_document all_blocks)
         end
     end)
    (shows w [st_write ("Processing file: " +:+ replace_backslash output_path)]).
Proof. done. Qed.

(** The flow up to the parsed content, when the fetch and the parser
    return. *)
Lemma process_file_parsed env selected_file pdf_path output_path w raw content :
  requests_get env (url_of (replace_backslash output_path)) = inr raw ->
  raw <> EmptyString ->
  json_loads env raw = inr content ->
  process_file env selected_file pdf_path output_path w
  = (pdf_document ← lift (fitz_open env pdf_path);
     textract_parts ← lift (get_item content (document_key_of env pdf_path));
     let all_blocks := concat (fmap (M := list) Blocks textract_parts) in
     emit (st_write_stats "Statistics:"
             (make_stats pdf_document (sort_blocks all_blocks)));;
     display_legends_with_columns;;
     emit (st_header ("Processed File: " +:+ selected_file));;
     for_ (seqZ 1 (len pdf_document)) (show_page pdf_document all_blocks))
    (shows w [st_write ("Processing file: " +:+ replace_backslash output_path)]).
Proof.
  intros Hget Hraw Hjson. rewrite process_file_start.
  rewrite (bind_Ok _ _ _ _ _ (get_github_file_content_returns _ _ _ _ Hget)).
  destruct raw as [|c raw]; [done|].
  unfold try_except at 1. unfold mbind at 1, M_bind at 1.
  unfold try_except. rewrite Hjson. reflexivity.
Qed.

Lemma main_selected_handler env selected_folder selected_file output_path w e w1 :
  process_file env selected_file
    (Path_join env selected_folder (selected_file +:+ ".pdf")) output_path w
  = Raise e w1 ->
  main_selected env selected_folder selected_file output_path w
  = Ok tt (shows w1 (handler_events env e)).
Proof.
  intros Hp. unfold main_selected, try_except. rewrite Hp.
  rewrite !emit_bind, emit_run, !shows_shows. reflexivity.
Qed.

Lemma main_selected_returns env selected_folder selected_file output_path w w1 :
  process_file env selected_file
    (Path_join env selected_folder (selected_file +:+ ".pdf")) output_path w
  = Ok tt w1 ->
  main_selected env selected_folder selected_file output_path w = Ok tt w1.
Proof.
  intros Hp. unfold main_selected, try_except. rewrite Hp. done.
Qed.

(** The goal is an equation between two results whose worlds differ in
    the bracketing of what was appended. *)
Ltac same_world :=
  unfold shows, handler_events, add_raised, add_images;
  cbn [images ui raised app];
  rewrite <- ?app_assoc; cbn [app]; reflexivity.

(* ===================================================================== *)
(** ** The flow for one file: what is shown when a step fails *)
(* ===================================================================== *)

(** X11.  [get_github_file_content] asks for the file under the outputs
    branch of the repository.  When the request returns, it returns the
    content and shows nothing; when the request raises a RequestException,
    it shows one error message with the text of the exception and returns
    None; an exception of any other class is not caught and leaves the
    function, with nothing shown. *)
Theorem get_github_file_content_catches_request_errors_only
    (env : Env) (path : string) (w : World) :
  match requests_get env
          ("https://raw.githubusercontent.com/" +:+ repo +:+ "/outputs/"
           +:+ path) with
  | inr content => get_github_file_content env path w = Ok (Some content) w
  | inl e =>
      if bool_decide (Py.exn_cls e = Py.RequestException) then
        get_github_file_content env path w
        = Ok None
            {| images := images w;
               ui := ui w ++ [st_error ("Error fetching file from GitHub: "
                                        +:+ Py.exn_str e)];
               raised := raised w ++ [e] |}
      else
        get_github_file_content env path w
        = Raise e {| images := images w; ui := ui w;
                     raised := raised w ++ [e] |}
  end.
Proof.
  fold (url_of path). destruct (requests_get env (url_of path)) as [e|raw] eqn:E.
  - case_bool_decide.
    + by apply get_github_file_content_caught.
    + by apply get_github_file_content_raises.
  - by apply get_github_file_content_returns.
Qed.

(** X12.  When the fetch fails with a RequestException the flow shows two
    error messages, the one of the fetch and then "File is empty", and
    returns: the None the fetch returns is taken for an empty file.
    Nothing is parsed and no PDF is opened. *)
Theorem failed_fetch_is_shown_as_two_errors
    (env : Env) (selected_folder selected_file output_path : string)
    (w : World) (e : Py.exn) :
  requests_get env (url_of (replace_backslash output_path)) = inl e ->
  Py.exn_cls e = Py.RequestException ->
  main_selected env selected_folder selected_file output_path w
  = Ok tt
      {| images := images w;
         ui := ui w ++
           [st_write ("Processing file: " +:+ replace_backslash output_path);
            st_error ("Error fetching file from GitHub: " +:+ Py.exn_str e);
            st_error "File is empty"];
         raised := raised w ++ [e] |}.
Proof.
  intros Hget Hcls. apply main_selected_returns. rewrite process_file_start.
  rewrite (bind_Ok _ _ _ _ _ (get_github_file_content_caught _ _ _ _ Hget Hcls)).
  rewrite emit_run. same_world.
Qed.

(** X12 at a concrete input: the fetch that fails with a 404. *)
Lemma failed_fetch_is_shown_as_two_errors_example :
  main_selected ex_env_no_fetch "docs" "a" "out\a.json" no_world
  = Ok tt
      {| images := images no_world;
         ui := ui no_world ++
           [st_write ("Processing file: " +:+ replace_backslash "out\a.json");
            st_error ("Error fetching file from GitHub: "
                      +:+ Py.exn_str (Py.Exn Py.RequestException "404 Client Error"));
            st_error "File is empty"];
         raised := raised no_world
                   ++ [Py.Exn Py.RequestException "404 Client Error"] |}.
Proof.
  apply (failed_fetch_is_shown_as_two_errors
           ex_env_no_fetch "docs" "a" "out\a.json" no_world
           (Py.Exn Py.RequestException "404 Client Error"));
    reflexivity.
Defined.

(** X13.  A file that is fetched and is empty is reported as "File is
    empty" and nothing else: no exception is raised, nothing is parsed and
    no PDF is opened. *)
Theorem empty_file_is_reported
    (env : Env) (selected_folder selected_file output_path : string)
    (w : World) :
  requests_get env (url_of (replace_backslash output_path)) = inr "" ->
  main_selected env selected_folder selected_file output_path w
  = Ok tt
      {| images := images w;
         ui := ui w ++
           [st_write ("Processing file: " +:+ replace_backslash output_path);
            st_error "File is empty"];
         raised := raised w |}.
Proof.
  intros Hget. apply main_selected_returns. rewrite process_file_start.
  rewrite (bind_Ok _ _ _ _ _ (get_github_file_content_returns _ _ _ _ Hget)).
  rewrite emit_run. same_world.
Qed.

(** X13 at a concrete input. *)
Lemma empty_file_is_reported_example :
  main_selected ex_env_empty_file "docs" "a" "out\a.json" no_world
  = Ok tt
      {| images := images no_world;
         ui := ui no_world ++
           [st_write ("Processing file: " +:+ replace_backslash "out\a.json");
            st_error "File is empty"];
         raised := raised no_world |}.
Proof.
  apply (empty_file_is_reported ex_env_empty_file "docs" "a" "out\a.json" no_world).
  reflexivity.
Defined.

(** X14.  When the parser raises on a file that was fetched, the flow
    returns without opening the PDF.  A JSONDecodeError is handled by the
    inner handler, which shows the error, the content that failed to parse
    and the traceback; an exception of another class reaches the outer
    handler, which shows it as an error of loading the file. *)
Theorem parser_error_is_reported
    (env : Env) (selected_folder selected_file output_path : string)
    (w : World) (raw : string) (e : Py.exn) :
  requests_get env (url_of (replace_backslash output_path)) = inr raw ->
  raw <> "" ->
  json_loads env raw = inl e ->
  main_selected env selected_folder selected_file output_path w
  = Ok tt
      {| images := images w;
         ui := ui w ++
           [st_write ("Processing file: " +:+ replace_backslash output_path)]
           ++ (if bool_decide (Py.exn_cls e = Py.JSONDecodeError) then
                 [st_error ("Invalid JSON format: " +:+ Py.exn_str e);
                  st_write_raw "Content that failed to parse:" raw;
                  st_expander "Show Error Traceback";
                  st_code (traceback_format_exc env e)]
               else
                 [st_error ("Error loading processed file: " +:+ Py.exn_str e);
                  st_expander "Show Error Traceback";
                  st_code (traceback_format_exc env e)]);
         raised := raised w ++ [e] |}.
Proof.
  intros Hget Hraw Hjson. case_bool_decide as Hcls.
  - apply main_selected_returns. rewrite process_file_start.
    rewrite (bind_Ok _ _ _ _ _ (get_github_file_content_returns _ _ _ _ Hget)).
    destruct raw as [|c raw]; [done|].
    unfold try_except at 1. unfold mbind at 1, M_bind at 1.
    unfold try_except. rewrite Hjson.
    unfold lift, mbind at 1, M_bind at 1, raise, is_instance. cbv beta iota.
    rewrite bool_decide_eq_true_2 by done.
    rewrite !emit_bind. same_world.
  - erewrite main_selected_handler.
    2:{ rewrite process_file_start.
        rewrite (bind_Ok _ _ _ _ _ (get_github_file_content_returns _ _ _ _ Hget)).
        destruct raw as [|c raw]; [done|].
        unfold try_except at 1. unfold mbind at 1, M_bind at 1.
        unfold try_except. rewrite Hjson.
        unfold lift, mbind at 1, M_bind at 1, raise, is_instance. cbv beta iota.
        rewrite bool_decide_eq_false_2 by done. reflexivity. }
    same_world.
Qed.

(** X14 at a concrete input: the file that is not JSON. *)
Lemma parser_error_is_reported_example :
  main_selected ex_env_bad_json "docs" "a" "out\a.json" no_world
  = Ok tt
      {| images := [];
         ui := [st_write "Processing file: out/a.json";
                st_error "Invalid JSON format: Expecting value";
                st_write_raw "Content that failed to parse:" "{...}";
                st_expander "Show Error Traceback";
                st_code "Traceback: Expecting value"];
         raised := [Py.Exn Py.JSONDecodeError "Expecting value"] |}.
Proof.
  apply (parser_error_is_reported
           ex_env_bad_json "docs" "a" "out\a.json" no_world "{...}"
           (Py.Exn Py.JSONDecodeError "Expecting value")).
  - reflexivity.
  - discriminate.
  - reflexivity.
Defined.

(** X15.  When the PDF cannot be opened, or when the result file has no
    entry for the document, the exception reaches the outer handler before
    anything of the document is shown: after the line that names the file,
    what is shown is the error, the expander and the traceback, and
    neither statistics nor legend nor page.  The key the document is
    looked up under is the prefix and the path of the PDF, normalised, with
    every backslash replaced by a slash; the PDF is opened before the key
    is looked up.  The text of the KeyError is [repr] of the key: the key
    between single quotes, or between double quotes when it holds an
    apostrophe and no double quote. *)
Theorem failure_before_the_first_page
    (env : Env) (selected_folder selected_file output_path : string)
    (w : World) (raw : string) (content : gmap string (list Part))
    (e : Py.exn) :
  let pdf_path := Path_join env selected_folder (selected_file +:+ ".pdf") in
  let document_key :=
    replace_backslash (os_path_normpath env (prefix +:+ "/" +:+ pdf_path)) in
  requests_get env (url_of (replace_backslash output_path)) = inr raw ->
  raw <> "" ->
  json_loads env raw = inr content ->
  fitz_open env pdf_path = inl e \/
  (exists pdf_document,
     fitz_open env pdf_path = inr pdf_document /\
     content !! document_key = None /\
     e = Py.Exn Py.KeyError (Py.repr document_key)) ->
  main_selected env selected_folder selected_file output_path w
  = Ok tt
      {| images := images w;
         ui := ui w ++
           [st_write ("Processing file: " +:+ replace_backslash output_path);
            st_error ("Error loading processed file: " +:+ Py.exn_str e);
            st_expander "Show Error Traceback";
            st_code (traceback_format_exc env e)];
         raised := raised w ++ [e] |}.
Proof.
  intros pdf_path document_key Hget Hraw Hjson Hfail.
  erewrite main_selected_handler.
  2:{ rewrite (process_file_parsed _ _ _ _ _ _ _ Hget Hraw Hjson).
      fold pdf_path.
      destruct Hfail as [Hpdf|(pdf_document & Hpdf & Hkey & ->)]; rewrite Hpdf.
      - reflexivity.
      - rewrite lift_inr_bind. unfold get_item, document_key_of.
        fold pdf_path. fold document_key. rewrite Hkey. reflexivity. }
  same_world.
Qed.

(** X15 at a concrete input: a result file that holds another document,
    asked for the file [anne's].  The key is shown between double
    quotes. *)
Lemma failure_before_the_first_page_example :
  let key :=
    String Py.dquote
      ("pdpvp_textract_test_cases/docs/anne's.pdf" +:+ String Py.dquote "") in
  main_selected ex_env_other_document "docs" ex_file_apostrophe "out\a.json"
    no_world
  = Ok tt
      {| images := [];
         ui := [st_write "Processing file: out/a.json";
                st_error ("Error loading processed file: " +:+ key);
                st_expander "Show Error Traceback";
                st_code ("Traceback: " +:+ key)];
         raised := [Py.Exn Py.KeyError key] |}.
Proof.
  apply (failure_before_the_first_page
           ex_env_other_document "docs" ex_file_apostrophe "out\a.json"
           no_world "{...}"
           {[ "pdpvp_textract_test_cases/docs/b.pdf" := [mkPart [ex_line]] ]}
           (Py.Exn Py.KeyError
              (Py.repr "pdpvp_textract_test_cases/docs/anne's.pdf"))).
  - reflexivity.
  - discriminate.
  - reflexivity.
  - right. exists [inr ex_base]. split; [reflexivity|].
    split; [vm_compute; reflexivity|reflexivity].
Defined.

(* ===================================================================== *)
(** ** Lemmas: the pages of a document *)
(* ===================================================================== *)

Lemma text_lines_shown lines : forall w,
  Forall (fun b => is_Some (Text b)) lines ->
  for_ lines (fun block =>
    text ← lift (get_Text block); emit (st_text_line text)) w
  = Ok tt (shows w (st_text_line <$> omap Text lines)).
Proof.
  induction lines as [|b lines IH]; intros w Hall.
  - cbn. by rewrite shows_nil.
  - apply Forall_cons in Hall as [[t Ht] Hall]. cbn [for_ omap list_omap].
    unfold mbind at 1, M_bind at 1. unfold get_Text. rewrite Ht.
    rewrite lift_inr_bind, emit_run, IH by done. cbn [fmap list_fmap].
    same_world.
Qed.

Lemma display_legends_run w :
  display_legends_with_columns w
  = Ok tt (shows w ([st_markdown "### Block Type Legend";
                     st_markdown legend_css; st_columns 5]
                    ++ legend_boxes BLOCK_COLORS)).
Proof.
  unfold display_legends_with_columns. rewrite !emit_bind, legend_loop.
  same_world.
Qed.

Lemma seqZ_pages first (n : nat) :
  seqZ first (Z.of_nat (S n)) = first :: seqZ (first + 1) (Z.of_nat n).
Proof.
  rewrite seqZ_cons by lia. f_equal. f_equal; lia.
Qed.

(** What the page loop does on a page that can be shown. *)
Lemma show_page_shown pdf all_blocks page_num page w :
  pdf !! Z.to_nat (page_num - 1) = Some page ->
  page_ok all_blocks page_num page ->
  exists im out l extra,
    page = inr im /\
    show_page pdf all_blocks page_num w
    = Ok tt (shows (add_images w (im :: extra))
               (page_events page_num l
                  (omap Text (page_line_blocks
                                (group_blocks all_blocks page_num))))) /\
    (images w ++ im :: extra) !! l = Some out /\
    im_size out = im_size im.
Proof.
  intros Hpage (im & -> & Hdraw & Htext).
  assert (Hp : exists out,
    paint_page (group_blocks all_blocks page_num) im = inr out).
  { unfold paint_page. apply paint_layers_draws, layers_draws.
    intros b Hb Hpb. by destruct (Hdraw b Hb Hpb). }
  destruct Hp as [out Hp].
  unfold show_page. rewrite !emit_bind, shows_shows.
  unfold load_page_image. rewrite Hpage. unfold Image_open.
  rewrite bind_assoc, lift_inr_bind, alloc_bind.
  set (w1 := add_images _ [im]).
  assert (Him : images w1 !! length (images w) = Some im).
  { subst w1. unfold shows, add_images. cbn [images].
    by rewrite lookup_app_r, Nat.sub_diag by lia. }
  pose proof (draw_overlays_computes (group_blocks all_blocks page_num)
                _ w1 im Him) as Hc.
  unfold computes in Hc. rewrite Hp in Hc.
  destruct Hc as (l & extra & Hrun & Hl & _).
  cbn [images shows] in *.
  rewrite (bind_Ok _ _ _ _ _ Hrun), !emit_bind, text_lines_shown.
  2:{ rewrite group_blocks_filter. cbn [page_line_blocks].
      apply Forall_filter_iff. exact Htext. }
  exists im, out, l, extra. split; [done|]. split.
  - subst w1. unfold page_events. same_world.
  - split.
    + subst w1. revert Hl. unfold shows, add_images. cbn [images].
      by rewrite <- app_assoc.
    + unfold paint_page in Hp. by apply paint_layers_size in Hp as [? _].
Qed.

Lemma pages_shown pdf all_blocks : forall pages before after w,
  pdf = before ++ pages ++ after ->
  pages_ok all_blocks (len before + 1) pages ->
  exists imgs extra,
    for_ (seqZ (len before + 1) (len pages)) (show_page pdf all_blocks) w
    = Ok tt (shows (add_images w extra)
               (pages_events all_blocks (len before + 1) imgs)) /\
    Forall2 (fun l page => exists im out,
               page = inr im /\ (images w ++ extra) !! l = Some out /\
               im_size out = im_size im) imgs pages.
Proof.
  induction pages as [|page pages IH]; intros before after w Hpdf Hok.
  - exists [], []. split; [|done]. cbn. by rewrite add_images_nil, shows_nil.
  - destruct Hok as [Hpage Hok]. unfold len at 2. cbn [length].
    rewrite seqZ_pages. cbn [for_].
    destruct (show_page_shown pdf all_blocks (len before + 1) page w)
      as (im & out & l & extra1 & -> & Hrun & Hl & Hs); [|done|].
    { rewrite Hpdf. apply (list_lookup_middle before (pages ++ after)).
      unfold len. lia. }
    rewrite (bind_Ok _ _ _ _ _ Hrun).
    destruct (IH (before ++ [inr im]) after
                (shows (add_images w (im :: extra1))
                   (page_events (len before + 1) l
                      (omap Text (page_line_blocks
                         (group_blocks all_blocks (len before + 1)))))))
      as (imgs & extra2 & Hloop & Hall).
    { by rewrite Hpdf, <- app_assoc. }
    { replace (len (before ++ [inr im]) + 1) with (len before + 1 + 1); [done|].
      unfold len. rewrite length_app. cbn. lia. }
    replace (len (before ++ [inr im]) + 1) with (len before + 1 + 1) in Hloop.
    2:{ unfold len. rewrite length_app. cbn. lia. }
    fold (len pages). rewrite Hloop.
    exists (l :: imgs), ((im :: extra1) ++ extra2). split.
    + cbn [pages_events]. same_world.
    + apply Forall2_cons. split.
      * exists im, out. split; [done|]. split; [|done].
        rewrite app_assoc. by apply lookup_app_l_Some.
      * eapply Forall2_impl; [exact Hall|]. cbn [images shows add_images].
        intros l' page' (im' & out' & ? & ? & ?). exists im', out'.
        by rewrite app_assoc.
Qed.

(** *** A page that stops the loop *)

Lemma for_raises {A} (body : A -> M unit) l1 x l2 : forall w w1 e w2,
  for_ l1 body w = Ok tt w1 ->
  body x w1 = Raise e w2 ->
  for_ (l1 ++ x :: l2) body w = Raise e w2.
Proof.
  induction l1 as [|a l1 IH]; intros w w1 e w2.
  - intros [= <-] Hx. cbn [app for_]. by rewrite (bind_Raise _ _ _ _ _ Hx).
  - cbn [app for_]. unfold mbind, M_bind.
    destruct (body a w) as [[] w'|e' w']; [|done]. apply IH.
Qed.

(** What the page loop does on a page that cannot be rasterised, or that
    has a painted block whose box cannot be drawn: it stops after the
    heading of the page. *)
Lemma show_page_not_drawn pdf all_blocks page_num page w :
  pdf !! Z.to_nat (page_num - 1) = Some page ->
  match page with
  | inl _ => True
  | inr im =>
      exists b, b ∈ all_blocks /\ painted_block page_num b /\
        draws (fst (im_size im)) (snd (im_size im)) b = false
  end ->
  exists e extra,
    show_page pdf all_blocks page_num w
    = Raise e
        (add_raised
           (shows (add_images w extra)
              [st_columns 2;
               st_subheader ("Original PDF Page " +:+ pretty page_num)]) e) /\
    match page with
    | inl e0 => e = e0
    | inr _ => drawing_error e
    end.
Proof.
  intros Hpage Hbad. unfold show_page. rewrite !emit_bind, shows_shows.
  unfold load_page_image. rewrite Hpage. unfold Image_open.
  destruct page as [e0|im].
  - exists e0, []. split; [|done]. rewrite add_images_nil. reflexivity.
  - rewrite bind_assoc, lift_inr_bind, alloc_bind.
    set (w1 := add_images _ [im]).
    assert (Him : images w1 !! length (images w) = Some im).
    { subst w1. unfold shows, add_images. cbn [images].
      by rewrite lookup_app_r, Nat.sub_diag by lia. }
    pose proof (draw_overlays_computes (group_blocks all_blocks page_num)
                  _ w1 im Him) as Hc.
    unfold computes in Hc. cbn [images shows] in Hc.
    destruct (paint_page _ im) as [e|out] eqn:Hp.
    + destruct Hc as [extra Hrun]. rewrite (bind_Raise _ _ _ _ _ Hrun).
      exists e, (im :: extra). split.
      * subst w1. same_world.
      * by eapply paint_layers_error.
    + exfalso. destruct Hbad as (b & Hb & Hpb & Hd).
      assert (Hr : returns (paint_page (group_blocks all_blocks page_num) im))
        by by eexists.
      unfold paint_page in Hr. apply paint_layers_draws in Hr.
      rewrite layers_draws in Hr. rewrite (Hr b Hb Hpb) in Hd. done.
Qed.

Lemma seqZ_split (n m : nat) :
  seqZ 1 (Z.of_nat (n + S m))
  = seqZ 1 (Z.of_nat n) ++ (Z.of_nat n + 1) :: seqZ (Z.of_nat n + 2) (Z.of_nat m).
Proof.
  rewrite Nat2Z.inj_add, seqZ_app by lia. f_equal.
  rewrite seqZ_pages. f_equal; [lia|]. f_equal. lia.
Qed.

(* ===================================================================== *)
(** ** The flow for one file: the pages *)
(* ===================================================================== *)

(** X16.  On a document that is in order the flow shows everything and
    no error.  When the file is fetched and parsed, the PDF opens, the
    result file has the entry of the document, every page rasterises, every
    painted block has a box that can be drawn, with its corners in the
    range of a C int, and every LINE block has its text, then the flow
    returns with no exception raised, and what it has
    shown is the line that names the file, the statistics, the legend (its
    heading, the style sheet of lines 40 to 50, the five columns and the
    five boxes), the heading, and then for each page of the PDF in order
    the heading of the page, its image, and the text of its LINE blocks in
    the order of the file.  The image shown for a page has the size of the
    page's raster image. *)
Theorem sound_document_is_shown_page_by_page
    (env : Env) (selected_folder selected_file output_path : string)
    (w : World) (raw : string) (content : gmap string (list Part))
    (pdf_document : Pdf) (textract_parts : list Part) :
  let pdf_path := Path_join env selected_folder (selected_file +:+ ".pdf") in
  let document_key :=
    replace_backslash (os_path_normpath env (prefix +:+ "/" +:+ pdf_path)) in
  let all_blocks := concat (Blocks <$> textract_parts) in
  requests_get env (url_of (replace_backslash output_path)) = inr raw ->
  raw <> "" ->
  json_loads env raw = inr content ->
  fitz_open env pdf_path = inr pdf_document ->
  content !! document_key = Some textract_parts ->
  pages_ok all_blocks 1 pdf_document ->
  exists w' imgs,
    main_selected env selected_folder selected_file output_path w = Ok tt w' /\
    raised w' = raised w /\
    ui w'
    = ui w
      ++ [st_write ("Processing file: " +:+ replace_backslash output_path);
          st_write_stats "Statistics:"
            (make_stats pdf_document (sort_blocks all_blocks));
          st_markdown "### Block Type Legend"; st_markdown legend_css;
          st_columns 5]
      ++ legend_boxes BLOCK_COLORS
      ++ [st_header ("Processed File: " +:+ selected_file)]
      ++ pages_events all_blocks 1 imgs /\
    Forall2 (fun l page => exists im out,
               page = inr im /\ images w' !! l = Some out /\
               im_size out = im_size im) imgs pdf_document.
Proof.
  intros pdf_path document_key all_blocks Hget Hraw Hjson Hpdf Hkey Hok.
  destruct (pages_shown pdf_document all_blocks pdf_document [] []
              (shows w ([st_write ("Processing file: "
                                   +:+ replace_backslash output_path);
                         st_write_stats "Statistics:"
                           (make_stats pdf_document (sort_blocks all_blocks));
                         st_markdown "### Block Type Legend";
                         st_markdown legend_css; st_columns 5]
                        ++ legend_boxes BLOCK_COLORS
                        ++ [st_header ("Processed File: " +:+ selected_file)])))
    as (imgs & extra & Hloop & Hall); [by rewrite app_nil_r|done|].
  change (len (A := Py.exn + Image) [] + 1) with 1 in Hloop.
  eexists _, imgs. split; [|split; [|split]].
  - apply main_selected_returns.
    rewrite (process_file_parsed _ _ _ _ _ _ _ Hget Hraw Hjson).
    fold pdf_path. rewrite Hpdf, lift_inr_bind.
    unfold get_item, document_key_of. fold pdf_path. fold document_key.
    rewrite Hkey, lift_inr_bind. cbv zeta. fold all_blocks.
    rewrite emit_bind, shows_shows.
    unfold mbind at 1, M_bind at 1. rewrite display_legends_run.
    rewrite shows_shows, emit_bind, shows_shows.
    rewrite <- !app_assoc. exact Hloop.
  - done.
  - cbn [ui shows add_images]. by rewrite <- !app_assoc.
  - exact Hall.
Qed.

(** X16 at a concrete input: the document of one page with a line, a
    footer and a text block. *)
Lemma sound_document_is_shown_page_by_page_example :
  exists w' imgs,
    main_selected ex_env "docs" "a" "out\a.json" no_world = Ok tt w' /\
    raised w' = raised no_world /\
    ui w'
    = ui no_world
      ++ [st_write ("Processing file: " +:+ replace_backslash "out\a.json");
          st_write_stats "Statistics:"
            (make_stats [inr ex_base]
               (sort_blocks (concat (Blocks <$> [mkPart [ex_line; ex_footer; ex_text]]))));
          st_markdown "### Block Type Legend"; st_markdown legend_css;
          st_columns 5]
      ++ legend_boxes BLOCK_COLORS
      ++ [st_header ("Processed File: " +:+ "a")]
      ++ pages_events (concat (Blocks <$> [mkPart [ex_line; ex_footer; ex_text]]))
           1 imgs /\
    Forall2 (fun l page => exists im out,
               page = inr im /\ images w' !! l = Some out /\
               im_size out = im_size im) imgs [inr (A := Py.exn) ex_base].
Proof.
  apply (sound_document_is_shown_page_by_page
           ex_env "docs" "a" "out\a.json" no_world "{...}" ex_content
           [inr ex_base] [mkPart [ex_line; ex_footer; ex_text]]).
  - reflexivity.
  - discriminate.
  - reflexivity.
  - reflexivity.
  - vm_compute. reflexivity.
  - split; [|exact I]. exists ex_base. split; [reflexivity|]. split.
    + intros b Hb _. cbn in Hb.
      repeat (apply elem_of_cons in Hb as [->|Hb]);
        try (by apply elem_of_nil in Hb); split; vm_compute; reflexivity.
    + intros b Hb Hp. cbn in Hb.
      repeat (apply elem_of_cons in Hb as [->|Hb]);
        try (by apply elem_of_nil in Hb); try (by eexists);
        destruct Hp as [_ Ht%list_elem_of_singleton]; discriminate.
Defined.

(** X17.  A page that cannot be rasterised, or that has a painted block
    whose box cannot be drawn, stops the flow at that page.  This is for
    painted blocks, of that page and of the pages before it, whose boxes
    have their corners in the range of a C int.  The pages before it,
    being in order, are shown in full after the legend; of the page itself
    the
    heading is shown and no image; then the exception is shown by the
    outer handler, and nothing of the pages after it is shown.  The
    exception is the one of the rasteriser, or the ValueError or
    OverflowError of the loop body. *)
Theorem page_that_cannot_be_drawn_stops_the_flow
    (env : Env) (selected_folder selected_file output_path : string)
    (w : World) (raw : string) (content : gmap string (list Part))
    (textract_parts : list Part)
    (before after : list (Py.exn + Image)) (page : Py.exn + Image) :
  let pdf_path := Path_join env selected_folder (selected_file +:+ ".pdf") in
  let document_key :=
    replace_backslash (os_path_normpath env (prefix +:+ "/" +:+ pdf_path)) in
  let all_blocks := concat (Blocks <$> textract_parts) in
  let pdf_document := before ++ page :: after in
  let page_num := len before + 1 in
  requests_get env (url_of (replace_backslash output_path)) = inr raw ->
  raw <> "" ->
  json_loads env raw = inr content ->
  fitz_open env pdf_path = inr pdf_document ->
  content !! document_key = Some textract_parts ->
  pages_ok all_blocks 1 before ->
  match page with
  | inl _ => True
  | inr im =>
      (forall b, b ∈ all_blocks -> painted_block page_num b ->
         in_range (fst (im_size im)) (snd (im_size im)) b = true) /\
      exists b, b ∈ all_blocks /\ painted_block page_num b /\
        draws (fst (im_size im)) (snd (im_size im)) b = false
  end ->
  exists w' imgs e,
    main_selected env selected_folder selected_file output_path w = Ok tt w' /\
    raised w' = raised w ++ [e] /\
    match page with
    | inl e0 => e = e0
    | inr _ => Py.exn_cls e = Py.ValueError \/ Py.exn_cls e = Py.OverflowError
    end /\
    length imgs = length before /\
    ui w'
    = ui w
      ++ [st_write ("Processing file: " +:+ replace_backslash output_path);
          st_write_stats "Statistics:"
            (make_stats pdf_document (sort_blocks all_blocks));
          st_markdown "### Block Type Legend"; st_markdown legend_css;
          st_columns 5]
      ++ legend_boxes BLOCK_COLORS
      ++ [st_header ("Processed File: " +:+ selected_file)]
      ++ pages_events all_blocks 1 imgs
      ++ [st_columns 2;
          st_subheader ("Original PDF Page " +:+ pretty page_num);
          st_error ("Error loading processed file: " +:+ Py.exn_str e);
          st_expander "Show Error Traceback";
          st_code (traceback_format_exc env e)].
Proof.
  intros pdf_path document_key all_blocks pdf_document page_num
    Hget Hraw Hjson Hpdf Hkey Hok Hbad.
  set (w0 := shows w ([st_write ("Processing file: "
                                 +:+ replace_backslash output_path);
                       st_write_stats "Statistics:"
                         (make_stats pdf_document (sort_blocks all_blocks));
                       st_markdown "### Block Type Legend";
                       st_markdown legend_css; st_columns 5]
                      ++ legend_boxes BLOCK_COLORS
                      ++ [st_header ("Processed File: " +:+ selected_file)])).
  destruct (pages_shown pdf_document all_blocks before [] (page :: after) w0)
    as (imgs & extra & Hloop & Hall); [done|done|].
  change (len (A := Py.exn + Image) [] + 1) with 1 in Hloop.
  destruct (show_page_not_drawn pdf_document all_blocks page_num page
              (shows (add_images w0 extra) (pages_events all_blocks 1 imgs)))
    as (e & extra' & Hfail & He);
    [|destruct page; [exact I|apply Hbad]|].
  { subst pdf_document page_num. apply (list_lookup_middle before after).
    unfold len. lia. }
  eexists _, imgs, e. split; [|split; [|split; [|split]]].
  - apply main_selected_handler.
    rewrite (process_file_parsed _ _ _ _ _ _ _ Hget Hraw Hjson).
    fold pdf_path. rewrite Hpdf, lift_inr_bind.
    unfold get_item, document_key_of. fold pdf_path. fold document_key.
    rewrite Hkey, lift_inr_bind. cbv zeta. fold all_blocks.
    rewrite emit_bind, shows_shows.
    unfold mbind at 1, M_bind at 1. rewrite display_legends_run.
    rewrite shows_shows, emit_bind, shows_shows.
    rewrite <- !app_assoc. fold w0.
    subst pdf_document. unfold len at 1. rewrite length_app. cbn [length].
    rewrite seqZ_split.
    apply (for_raises _ _ _ _ _ _ _ _ Hloop). exact Hfail.
  - reflexivity.
  - destruct page; [done|]. exact He.
  - by apply Forall2_length in Hall.
  - subst w0. unfold shows, handler_events, add_raised, add_images.
    cbn [images ui raised]. rewrite <- !app_assoc. reflexivity.
Qed.

(** X17 at a concrete input: a PDF of three pages of which the second
    cannot be rasterised. *)
Lemma page_that_cannot_be_drawn_stops_the_flow_example :
  exists w',
    main_selected ex_env_bad_page "docs" "a" "out\a.json" no_world = Ok tt w' /\
    raised w' = [Py.Exn Py.OtherException "cannot render page"] /\
    ui w'
    = [st_write "Processing file: out/a.json";
       st_write_stats "Statistics:" (mkStats 3 1 0 0 0);
       st_markdown "### Block Type Legend";
       st_markdown legend_css;
       st_columns 5;
       st_legend_box "#ff0000" "LAYOUT_FIGURE";
       st_legend_box "#0000ff" "LAYOUT_TABLE";
       st_legend_box "#00ff00" "LAYOUT_TEXT";
       st_legend_box "#800080" "LAYOUT_HEADER/TITLE";
       st_legend_box "#ffff00" "LAYOUT_FOOTER";
       st_header "Processed File: a";
       st_columns 2;
       st_subheader "Original PDF Page 1";
       st_image 6;
       st_subheader "Extracted Text";
       st_text_line "Hello";
       st_columns 2;
       st_subheader "Original PDF Page 2";
       st_error "Error loading processed file: cannot render page";
       st_expander "Show Error Traceback";
       st_code "Traceback: cannot render page"].
Proof.
  destruct (page_that_cannot_be_drawn_stops_the_flow
              ex_env_bad_page "docs" "a" "out\a.json" no_world "{...}"
              ex_content [mkPart [ex_line; ex_footer; ex_text]]
              [inr ex_base] [inr ex_base]
              (inl (Py.Exn Py.OtherException "cannot render page")))
    as (w' & imgs & e & Hrun & Hraised & -> & Hlen & Hui).
  - reflexivity.
  - discriminate.
  - reflexivity.
  - reflexivity.
  - vm_compute. reflexivity.
  - split; [|exact I]. exists ex_base. split; [reflexivity|]. split.
    + intros b Hb _. cbn in Hb.
      repeat (apply elem_of_cons in Hb as [->|Hb]);
        try (by apply elem_of_nil in Hb); split; vm_compute; reflexivity.
    + intros b Hb Hp. cbn in Hb.
      repeat (apply elem_of_cons in Hb as [->|Hb]);
        try (by apply elem_of_nil in Hb); try (by eexists);
        destruct Hp as [_ Ht%list_elem_of_singleton]; discriminate.
  - exact I.
  - exists w'. split; [exact Hrun|]. split; [exact Hraised|].
    rewrite Hui. vm_compute in Hrun. injection Hrun as <-.
    destruct imgs as [|l [|? ?]]; try discriminate.
    vm_compute in Hui. injection Hui as ->. vm_compute. reflexivity.
Defined.

(** *** A LINE block without its text *)




(* ===================================================================== *)
(** ** Lemmas: the helpers *)
(* ===================================================================== *)

Lemma format_02x_bytes :
  Forall (fun n =>
    format_02x n
    = String (hex_digit (n / 16)) (String (hex_digit (n mod 16)) EmptyString))
    (seqZ 0 256).
Proof. apply (bool_decide_unpack _). vm_compute. exact I. Qed.

Lemma format_02x_byte n :
  byte n ->
  format_02x n
  = String (hex_digit (n / 16)) (String (hex_digit (n mod 16)) EmptyString).
Proof.
  intros Hn. pose proof format_02x_bytes as H. rewrite Forall_forall in H.
  apply H. apply elem_of_seqZ. unfold byte in Hn. lia.
Qed.

Lemma hex_value_digit d : 0 <= d < 16 -> hex_value (hex_digit d) = Some d.
Proof.
  intros Hd.
  assert (Hall : Forall (fun d => hex_value (hex_digit d) = Some d) (seqZ 0 16))
    by (apply (bool_decide_unpack _); vm_compute; exact I).
  rewrite Forall_forall in Hall. apply Hall, elem_of_seqZ. lia.
Qed.

Lemma hex_pair_byte n :
  byte n -> hex_pair (hex_digit (n / 16)) (hex_digit (n mod 16)) = Some n.
Proof.
  intros Hn. unfold byte in Hn. unfold hex_pair.
  rewrite !hex_value_digit.
  - cbn. f_equal. pose proof (Z.div_mod n 16). lia.
  - split; [apply Z.div_pos; lia|apply Z.div_lt_upper_bound; lia].
  - apply Z.mod_pos_bound. lia.
Qed.

(** *** Paths and dicts *)

Lemma replace_backslash_app s1 s2 :
  replace_backslash (s1 +:+ s2) = replace_backslash s1 +:+ replace_backslash s2.
Proof.
  induction s1 as [|c s1 IH]; [done|].
  change (replace_backslash (String c s1 +:+ s2))
    with (String (if Ascii.eqb c "\"%char then "/"%char else c)
            (replace_backslash (s1 +:+ s2))).
  by rewrite IH.
Qed.

Lemma getitem_keys {V} (d : dict V) key :
  key ∈ keys d -> exists v, getitem d key = inr v.
Proof.
  unfold getitem, keys. induction d as [|[k v] d IH]; cbn.
  - by intros ?%elem_of_nil.
  - intros [->|Hin]%elem_of_cons.
    + rewrite bool_decide_eq_true_2 by done. by eexists.
    + case_bool_decide; [by eexists|]. by apply IH.
Qed.

Lemma load_processed_results_run s w :
  load_processed_results s w
  = match open_ s "processing_map.json" with
    | open_file f =>
        match json_load s f with
        | inl e => Raise e (add_raised w e)
        | inr results => Ok (Some results) w
        end
    | open_FileNotFoundError e =>
        Ok None
          (shows (add_raised w e)
             [st_error
                "No previously processed results found. Please process files first."])
    | open_error e => Raise e (add_raised w e)
    end.
Proof.
  unfold load_processed_results.
  destruct (open_ s _) as [f|e|e]; [destruct (json_load s f)|..]; reflexivity.
Qed.

Lemma main_selected_total env selected_folder selected_file output_path w :
  exists w', main_selected env selected_folder selected_file output_path w
             = Ok tt w'.
Proof.
  unfold main_selected, try_except.
  destruct (process_file _ _ _ _ w) as [[] w1|e w1]; by eexists.
Qed.

(* ===================================================================== *)
(** ** The helpers *)
(* ===================================================================== *)

(** X19.  For a colour whose red, green and blue are bytes, [rgba_to_hex]
    gives the seven characters [#rrggbb] that a style sheet reads back as
    the same red, green and blue: two hexadecimal digits for each, the
    upper half of the byte first.  The alpha of the colour plays no part,
    so the box of the legend has the tint of the overlay at full
    opacity. *)
Theorem rgba_to_hex_reads_back_as_the_colour (r g b a : Z) :
  0 <= r <= 255 -> 0 <= g <= 255 -> 0 <= b <= 255 ->
  rgba_to_hex (r, g, b, a)
  = String "#" (String (hex_digit (r / 16)) (String (hex_digit (r mod 16))
      (String (hex_digit (g / 16)) (String (hex_digit (g mod 16))
      (String (hex_digit (b / 16)) (String (hex_digit (b mod 16))
      EmptyString)))))) /\
  String.length (rgba_to_hex (r, g, b, a)) = 7%nat /\
  css_color (rgba_to_hex (r, g, b, a)) = Some (r, g, b).
Proof.
  intros Hr Hg Hb.
  assert (Heq : rgba_to_hex (r, g, b, a)
    = String "#" (String (hex_digit (r / 16)) (String (hex_digit (r mod 16))
        (String (hex_digit (g / 16)) (String (hex_digit (g mod 16))
        (String (hex_digit (b / 16)) (String (hex_digit (b mod 16))
        EmptyString))))))).
  { unfold rgba_to_hex. by rewrite !format_02x_byte. }
  rewrite Heq. split; [done|]. split; [done|].
  cbn -[hex_digit hex_pair Z.div Z.modulo]. by rewrite !hex_pair_byte.
Qed.

(** X19 at a concrete input: the tint of the header group. *)
Lemma rgba_to_hex_reads_back_as_the_colour_example :
  rgba_to_hex (128, 0, 128, 64) = "#800080" /\
  String.length (rgba_to_hex (128, 0, 128, 64)) = 7%nat /\
  css_color (rgba_to_hex (128, 0, 128, 64)) = Some (128, 0, 128).
Proof.
  apply (rgba_to_hex_reads_back_as_the_colour 128 0 128 64); lia.
Defined.

(** X20.  Replacing the backslashes of a path leaves no backslash: every
    backslash becomes a slash and every other character stays, so the
    length is the same, a path without a backslash is unchanged, doing it
    twice is doing it once, and the replacement of two strings put
    together is the two replacements put together. *)
Theorem replace_backslash_leaves_no_backslash (s s' : string) :
  has_char "\" (replace_backslash s) = false /\
  String.length (replace_backslash s) = String.length s /\
  (has_char "\" s = false -> replace_backslash s = s) /\
  replace_backslash (replace_backslash s) = replace_backslash s /\
  replace_backslash (s +:+ s') = replace_backslash s +:+ replace_backslash s'.
Proof.
  assert (H1 : has_char "\" (replace_backslash s) = false).
  { induction s as [|c s IH]; [done|]. cbn [replace_backslash has_char].
    rewrite IH, orb_false_r. destruct (Ascii.eqb_spec c "\"); [reflexivity|].
    apply Ascii.eqb_neq. congruence. }
  assert (H3 : forall t, has_char "\" t = false -> replace_backslash t = t).
  { induction t as [|c t IH]; [done|]. cbn [replace_backslash has_char].
    intros [Hc Ht]%orb_false_elim. rewrite (IH Ht).
    rewrite Ascii.eqb_sym in Hc. by rewrite Hc. }
  split; [done|]. split.
  { clear H1. induction s as [|c s IH]; [done|].
    cbn [replace_backslash String.length]. by rewrite IH. }
  split; [apply H3|]. split; [by apply H3|]. apply replace_backslash_app.
Qed.

(* ===================================================================== *)
(** ** main: the processing map and the selection *)
(* ===================================================================== *)

(** X21.  When there is no processing map, [main] shows its heading and
    the message that no processed results were found, and returns: the
    FileNotFoundError of [open] is caught, nothing is selected and no file
    is fetched. *)
Theorem missing_processing_map_is_reported
    (env : Env) (s : Session) (w : World) (e : Py.exn) :
  open_ s "processing_map.json" = open_FileNotFoundError e ->
  main env s w
  = Ok tt
      {| images := images w;
         ui := ui w ++
           [st_header "Document Processing Viewer";
            st_error
              "No previously processed results found. Please process files first."];
         raised := raised w ++ [e] |}.
Proof.
  intros Hopen. unfold main. rewrite emit_bind.
  unfold mbind at 1, M_bind at 1. rewrite load_processed_results_run, Hopen.
  same_world.
Qed.

(** X21 at a concrete input. *)
Lemma missing_processing_map_is_reported_example :
  main ex_env ex_session_no_map no_world
  = Ok tt
      {| images := [];
         ui := [st_header "Document Processing Viewer";
                st_error
                  "No previously processed results found. Please process files first."];
         raised := [Py.Exn Py.OtherException
                      "[Errno 2] No such file or directory: 'processing_map.json'"] |}.
Proof.
  apply (missing_processing_map_is_reported ex_env ex_session_no_map no_world).
  reflexivity.
Defined.

(** X22.  The only exceptions that leave [main] are those of reading the
    processing map.  With select boxes that return one of their options,
    [main] raises exactly when [open] raises an exception that is not
    FileNotFoundError or [json.load] raises; the exception is that one, and
    the heading is all that has been shown.  The lookups of the selected
    folder and file cannot fail, and the flow for the file has its own
    handler. *)
Theorem only_the_processing_map_makes_main_raise
    (env : Env) (s : Session) (w : World) (e : Py.exn) (w' : World) :
  selectbox_sound s ->
  main env s w = Raise e w'
  <-> (open_ s "processing_map.json" = open_error e \/
       exists f, open_ s "processing_map.json" = open_file f /\
                 json_load s f = inl e) /\
      w' = {| images := images w;
              ui := ui w ++ [st_header "Document Processing Viewer"];
              raised := raised w ++ [e] |}.
Proof.
  intros Hsound. unfold main. rewrite emit_bind.
  unfold mbind at 1, M_bind at 1. rewrite load_processed_results_run.
  destruct (open_ s "processing_map.json") as [f|e0|e0] eqn:Hopen.
  - destruct (json_load s f) as [e0|results] eqn:Hload.
    + split.
      * intros [= <- <-]. split; [right; by exists f|done].
      * intros [[?|(f' & [= <-] & He)] ->]; [done|]. rewrite Hload in He.
        by injection He as ->.
    + split.
      2:{ intros [[?|(f' & [= <-] & He)] _]; [done|]. congruence. }
      intros Hrun. exfalso.
      destruct results as [|item results']; [done|].
      set (results := item :: results') in *.
      destruct (st_selectbox s "Select Folder" (keys results))
        as [selected_folder|] eqn:Hfolder; [|done].
      destruct selected_folder as [|c folder]; [done|].
      destruct (getitem_keys results _ (Hsound _ _ _ Hfolder)) as [d Hd].
      cbv beta iota in Hrun. rewrite Hd, lift_inr_bind in Hrun.
      destruct (st_selectbox s "Select File" (keys d))
        as [selected_file|] eqn:Hfile; [|done].
      destruct selected_file as [|c' file]; [done|].
      destruct (getitem_keys d _ (Hsound _ _ _ Hfile)) as [path Hpath].
      cbv beta iota in Hrun.
      rewrite lift_inr_bind, Hpath, lift_inr_bind in Hrun.
      destruct (main_selected_total env (String c folder) (String c' file) path
                  (shows w [st_header "Document Processing Viewer"]))
        as [w1 Hw1].
      congruence.
  - split; [done|]. intros [[?|(f' & ? & _)] _]; done.
  - split.
    + intros [= <- <-]. split; [by left|done].
    + intros [[[= ->]|(f' & ? & _)] ->]; done.
Qed.

(** X22 at a concrete input: a processing map that is not JSON. *)
Lemma only_the_processing_map_makes_main_raise_example :
  main ex_env ex_session_bad_map no_world
  = Raise (Py.Exn Py.JSONDecodeError "Expecting value")
      {| images := images no_world;
         ui := ui no_world ++ [st_header "Document Processing Viewer"];
         raised := raised no_world
                   ++ [Py.Exn Py.JSONDecodeError "Expecting value"] |}.
Proof.
  apply (only_the_processing_map_makes_main_raise
           ex_env ex_session_bad_map no_world).
  - intros label [|o options] o'; [done|]. intros [= ->].
    apply elem_of_cons. by left.
  - split; [|reflexivity]. right. exists "{". split; reflexivity.
Defined.

(** X23.  [main] tests the processing map, the selected folder and the
    selected file for their truth value, and an empty map, an empty folder
    name and an empty file name are false just as None is.  When the map is
    empty, when the folder selected is None or the empty string, or when
    the file selected is None or the empty string, [main] returns with
    nothing shown besides its heading and the select boxes: a folder or a
    file whose name is the empty string cannot be viewed, and a folder
    without files shows nothing. *)
Theorem empty_map_or_empty_name_shows_nothing
    (env : Env) (s : Session) (w : World) (f : string)
    (results : dict (dict string)) :
  open_ s "processing_map.json" = open_file f ->
  json_load s f = inr results ->
  results = [] \/
  st_selectbox s "Select Folder" (keys results) = None \/
  st_selectbox s "Select Folder" (keys results) = Some "" \/
  (exists selected_folder folder,
     st_selectbox s "Select Folder" (keys results) = Some selected_folder /\
     getitem results selected_folder = inr folder /\
     (st_selectbox s "Select File" (keys folder) = None \/
      st_selectbox s "Select File" (keys folder) = Some "")) ->
  main env s w
  = Ok tt
      {| images := images w;
         ui := ui w ++ [st_header "Document Processing Viewer"];
         raised := raised w |}.
Proof.
  intros Hopen Hload Hcase. unfold main. rewrite emit_bind.
  unfold mbind at 1, M_bind at 1.
  rewrite load_processed_results_run, Hopen, Hload.
  destruct results as [|item results']; [reflexivity|].
  set (results := item :: results') in *.
  destruct Hcase as [?|[Hn|[Hn|(selected_folder & folder & Hs & Hd & Hn)]]];
    [done|by rewrite Hn..|].
  rewrite Hs. destruct selected_folder as [|c name]; [reflexivity|].
  rewrite Hd, lift_inr_bind. by destruct Hn as [-> | ->].
Qed.

(** X23 at a concrete input: a processing map whose only folder has the
    empty name. *)
Lemma empty_map_or_empty_name_shows_nothing_example :
  main ex_env ex_session_no_name no_world
  = Ok tt
      {| images := images no_world;
         ui := ui no_world ++ [st_header "Document Processing Viewer"];
         raised := raised no_world |}.
Proof.
  apply (empty_map_or_empty_name_shows_nothing
           ex_env ex_session_no_name no_world "{...}" ex_results_no_name).
  - reflexivity.
  - reflexivity.
  - right. right. left. reflexivity.
Defined.

(** X24.  When a folder and a file are selected, what [main] does after
    its heading and the two select boxes is the flow for that file, with
    the output path the processing map has for the folder and the file:
    [main] returns what that flow returns, so every exception from the
    fetch on is caught by the handler of the flow. *)
Theorem main_runs_the_flow_for_the_selected_file
    (env : Env) (s : Session) (w : World) (f : string)
    (results : dict (dict string)) (selected_folder selected_file : string)
    (folder : dict string) (output_path : string) :
  open_ s "processing_map.json" = open_file f ->
  json_load s f = inr results ->
  st_selectbox s "Select Folder" (keys results) = Some selected_folder ->
  selected_folder <> "" ->
  getitem results selected_folder = inr folder ->
  st_selectbox s "Select File" (keys folder) = Some selected_file ->
  selected_file <> "" ->
  getitem folder selected_file = inr output_path ->
  main env s w
  = main_selected env selected_folder selected_file output_path
      {| images := images w;
         ui := ui w ++ [st_header "Document Processing Viewer"];
         raised := raised w |}.
Proof.
  intros Hopen Hload Hfolder Hne Hd Hfile Hne' Hpath.
  unfold main. rewrite emit_bind. unfold mbind at 1, M_bind at 1.
  rewrite load_processed_results_run, Hopen, Hload.
  destruct results as [|item results'].
  { unfold getitem in Hd. done. }
  set (results := item :: results') in *.
  rewrite Hfolder. destruct selected_folder as [|c name]; [done|].
  rewrite Hd, lift_inr_bind, Hfile.
  destruct selected_file as [|c' name']; [done|].
  rewrite lift_inr_bind, Hpath, lift_inr_bind. reflexivity.
Qed.

(** X24 at a concrete input: the session whose map has the folder [docs]
    with the file [a]. *)
Lemma main_runs_the_flow_for_the_selected_file_example :
  main ex_env ex_session no_world
  = main_selected ex_env "docs" "a" "out\a.json"
      {| images := images no_world;
         ui := ui no_world ++ [st_header "Document Processing Viewer"];
         raised := raised no_world |}.
Proof.
  apply (main_runs_the_flow_for_the_selected_file
           ex_env ex_session no_world "{...}" ex_results "docs" "a"
           [("a", "out\a.json")] "out\a.json");
    try reflexivity; discriminate.
Defined.

(* ===================================================================== *)
(** ** Lemmas: the program only adds *)
(* ===================================================================== *)

Lemma only_adds_same {A} (r : result A) w :
  match r with Ok _ w' | Raise _ w' => w' = w end ->
  match r with
  | Ok _ w' | Raise _ w' =>
      (exists extra, images w' = images w ++ extra) /\
      (exists new, ui w' = ui w ++ new) /\
      (exists es, raised w' = raised w ++ es)
  end.
Proof.
  destruct r; intros ->; repeat split; exists []; by rewrite app_nil_r.
Qed.

Lemma only_adds_trans {C} (w w1 : World) (r : result C) :
  (exists extra, images w1 = images w ++ extra) /\
  (exists new, ui w1 = ui w ++ new) /\
  (exists es, raised w1 = raised w ++ es) ->
  match r with
  | Ok _ w' | Raise _ w' =>
      (exists extra, images w' = images w1 ++ extra) /\
      (exists new, ui w' = ui w1 ++ new) /\
      (exists es, raised w' = raised w1 ++ es)
  end ->
  match r with
  | Ok _ w' | Raise _ w' =>
      (exists extra, images w' = images w ++ extra) /\
      (exists new, ui w' = ui w ++ new) /\
      (exists es, raised w' = raised w ++ es)
  end.
Proof.
  intros ([x1 H1] & [n1 H2] & [e1 H3]).
  destruct r; intros ([x2 H4] & [n2 H5] & [e2 H6]).
  all: rewrite H4, H5, H6, H1, H2, H3, <- !app_assoc; repeat split; by eexists.
Qed.

Section only_adds.
Context {A B : Type}.

Lemma only_adds_ret (a : A) : only_adds (mret a).
Proof. intros w. by apply (only_adds_same (Ok a w)). Qed.

Lemma only_adds_raise e : only_adds (raise (A := A) e).
Proof.
  intros w. cbn. split; [|split].
  - exists []. by rewrite app_nil_r.
  - exists []. by rewrite app_nil_r.
  - by eexists.
Qed.

Lemma only_adds_lift (r : Py.exn + A) : only_adds (lift r).
Proof. destruct r; [apply only_adds_raise|apply only_adds_ret]. Qed.

Lemma only_adds_bind (m : M A) (f : A -> M B) :
  only_adds m -> (forall a, only_adds (f a)) -> only_adds (m ≫= f).
Proof.
  intros Hm Hf w. specialize (Hm w). unfold mbind, M_bind.
  destruct (m w) as [a w1|e w1]; [|done].
  apply (only_adds_trans w w1 (f a w1) Hm). apply Hf.
Qed.

Lemma only_adds_try_except (body : M A) handles (handler : Py.exn -> M A) :
  only_adds body -> (forall e, only_adds (handler e)) ->
  only_adds (try_except body handles handler).
Proof.
  intros Hb Hh w. specialize (Hb w). unfold try_except.
  destruct (body w) as [a w1|e w1]; [done|].
  destruct (handles e); [|done].
  apply (only_adds_trans w w1 (handler e w1) Hb). apply Hh.
Qed.

End only_adds.

Lemma only_adds_emit ev : only_adds (emit ev).
Proof.
  intros w. cbn. split; [|split].
  - exists []. by rewrite app_nil_r.
  - by eexists.
  - exists []. by rewrite app_nil_r.
Qed.

Lemma only_adds_alloc im : only_adds (alloc im).
Proof.
  intros w. cbn. split; [|split].
  - by eexists.
  - exists []. by rewrite app_nil_r.
  - exists []. by rewrite app_nil_r.
Qed.

Lemma only_adds_for {A} (l : list A) (body : A -> M unit) :
  (forall a, only_adds (body a)) -> only_adds (for_ l body).
Proof.
  intros Hb. induction l as [|a l IH]; cbn [for_]; [apply only_adds_ret|].
  apply only_adds_bind; [apply Hb|]. by intros _.
Qed.

(** The five loops change no object that exists, although the loop body
    draws on an image in place: the image it draws on is the overlay it
    has just created. *)
Lemma only_adds_draw_overlays g img : only_adds (draw_overlays g img).
Proof.
  intros w. destruct (images w !! img) as [im|] eqn:Him.
  - pose proof (draw_overlays_computes g img w im Him) as Hc.
    unfold computes in Hc. destruct (paint_page g im) as [e|out].
    + destruct Hc as [extra ->]. cbn. split; [by eexists|].
      split; [exists []; by rewrite app_nil_r|by eexists].
    + destruct Hc as (l' & extra & -> & _). cbn. split; [by eexists|].
      split; exists []; by rewrite app_nil_r.
  - unfold draw_overlays, mbind, M_bind, deref. rewrite Him.
    apply (only_adds_raise (A := loc)).
Qed.

Ltac only_adds_step :=
  first
    [ apply only_adds_ret | apply only_adds_raise | apply only_adds_lift
    | apply only_adds_emit | apply only_adds_alloc
    | apply only_adds_draw_overlays
    | apply only_adds_for; intros ?
    | apply only_adds_bind; [|intros ?] ].

Lemma only_adds_show_page pdf_document all_blocks page_num :
  only_adds (show_page pdf_document all_blocks page_num).
Proof.
  unfold show_page, load_page_image, Image_open.
  repeat only_adds_step. case_match; repeat only_adds_step.
Qed.

Lemma only_adds_display_legends : only_adds display_legends_with_columns.
Proof.
  unfold display_legends_with_columns.
  do 3 (apply only_adds_bind; [apply only_adds_emit|intros _]).
  apply only_adds_for. intros [block_type color]. apply only_adds_emit.
Qed.

Lemma only_adds_get_github_file_content env path :
  only_adds (get_github_file_content env path).
Proof.
  unfold get_github_file_content. apply only_adds_try_except.
  - repeat only_adds_step.
  - intros e. repeat only_adds_step.
Qed.

Lemma only_adds_process_file env selected_file pdf_path output_path :
  only_adds (process_file env selected_file pdf_path output_path).
Proof.
  unfold process_file.
  apply only_adds_bind; [apply only_adds_emit|]. intros _.
  apply only_adds_bind; [apply only_adds_get_github_file_content|].
  intros [raw_content|]; [|apply only_adds_emit].
  destruct raw_content as [|c raw]; [apply only_adds_emit|].
  apply only_adds_bind.
  - apply only_adds_try_except; [repeat only_adds_step|].
    intros e. repeat only_adds_step.
  - intros [content|]; [|apply only_adds_ret].
    repeat first [apply only_adds_display_legends | apply only_adds_show_page
                 | only_adds_step].
Qed.

Lemma only_adds_main_selected env selected_folder selected_file output_path :
  only_adds (main_selected env selected_folder selected_file output_path).
Proof.
  unfold main_selected. apply only_adds_try_except.
  - apply only_adds_process_file.
  - intros e. repeat only_adds_step.
Qed.

Lemma only_adds_load_processed_results s :
  only_adds (load_processed_results s).
Proof.
  unfold load_processed_results. destruct (open_ s _) as [f|e|e].
  - repeat only_adds_step.
  - apply only_adds_try_except; [apply only_adds_raise|].
    intros ?. repeat only_adds_step.
  - apply only_adds_raise.
Qed.

Lemma only_adds_main env s : only_adds (main env s).
Proof.
  unfold main.
  apply only_adds_bind; [apply only_adds_emit|]. intros _.
  apply only_adds_bind; [apply only_adds_load_processed_results|].
  intros [[|item results]|]; try apply only_adds_ret.
  destruct (st_selectbox s "Select Folder" _) as [[|c folder]|];
    try apply only_adds_ret.
  apply only_adds_bind; [apply only_adds_lift|]. intros d.
  destruct (st_selectbox s "Select File" _) as [[|c' file]|];
    try apply only_adds_ret.
  repeat first [apply only_adds_main_selected | only_adds_step].
Qed.

Lemma bind_ext {A B} (m : M A) (f g : A -> M B) w :
  (forall a w', f a w' = g a w') -> (m ≫= f) w = (m ≫= g) w.
Proof. intros H. unfold mbind, M_bind. destruct (m w); [apply H|done]. Qed.

Lemma show_page_ext pdf_document all_blocks all_blocks' page_num w :
  let g := group_blocks all_blocks page_num in
  let g' := group_blocks all_blocks' page_num in
  page_line_blocks g = page_line_blocks g' ->
  page_figure_blocks g = page_figure_blocks g' ->
  page_table_blocks g = page_table_blocks g' ->
  page_text_blocks g = page_text_blocks g' ->
  page_header_blocks g = page_header_blocks g' ->
  page_footer_blocks g = page_footer_blocks g' ->
  show_page pdf_document all_blocks page_num w
  = show_page pdf_document all_blocks' page_num w.
Proof.
  cbv zeta. intros Hl H1 H2 H3 H4 H5. unfold show_page. cbv zeta. rewrite Hl.
  apply bind_ext. intros _ w1. apply bind_ext. intros _ w2.
  apply bind_ext. intros img w3. unfold mbind at 1 4, M_bind at 1 4.
  by rewrite (draw_overlays_ext _ _ img w3 H1 H2 H3 H4 H5).
Qed.

(* ===================================================================== *)
(** ** The whole program: what it never does *)
(* ===================================================================== *)

(** X25.  The program only adds to its state.  Whatever the inputs are,
    and whether [main] returns or raises, every image object that existed
    before is unchanged and at its place afterwards, new objects come
    after the old ones, nothing that was shown is taken back, and the
    same holds for the flow for one file.  In particular the image shown
    for a page is not changed by what is done for the later pages. *)
Theorem program_only_adds_images_and_output
    (env : Env) (s : Session)
    (selected_folder selected_file output_path : string) (w : World) :
  match main env s w with
  | Ok _ w' | Raise _ w' =>
      (exists extra, images w' = images w ++ extra) /\
      (exists new, ui w' = ui w ++ new) /\
      (exists es, raised w' = raised w ++ es)
  end /\
  match main_selected env selected_folder selected_file output_path w with
  | Ok _ w' | Raise _ w' =>
      (exists extra, images w' = images w ++ extra) /\
      (exists new, ui w' = ui w ++ new) /\
      (exists es, raised w' = raised w ++ es)
  end.
Proof. split; [apply only_adds_main|apply only_adds_main_selected]. Qed.

(** X26.  A block whose type is neither LINE nor one of the painted types
    changes nothing of what a page shows: the page is shown in the same
    way with the block and without it.  This holds for WORD blocks, which
    are collected for each page in a list that is never read: a WORD
    block counts in the statistics and is shown nowhere. *)
Theorem block_of_a_type_not_shown_changes_no_page
    (pdf_document : Pdf) (l1 l2 : list Block) (block : Block) (page_num : Z)
    (w : World) :
  BlockType block <> "LINE" -> BlockType block ∉ painted_types ->
  show_page pdf_document (l1 ++ block :: l2) page_num w
  = show_page pdf_document (l1 ++ l2) page_num w /\
  (BlockType block = "WORD" ->
   Word_Count (make_stats pdf_document (sort_blocks (l1 ++ block :: l2)))
   = Word_Count (make_stats pdf_document (sort_blocks (l1 ++ l2))) + 1).
Proof.
  intros Hline Hb. split.
  - unfold painted_types in Hb. rewrite !not_elem_of_cons in Hb.
    destruct Hb as (? & ? & ? & ? & ? & ? & ? & _).
    apply show_page_ext; rewrite !group_blocks_filter;
      cbn [page_line_blocks page_figure_blocks page_table_blocks
           page_text_blocks page_header_blocks page_footer_blocks];
      apply filter_on_page_skip; unfold header_types;
      rewrite ?not_elem_of_cons; repeat split; try done; apply not_elem_of_nil.
  - intros Ht. rewrite !sort_blocks_filter. unfold make_stats, len.
    cbn [Word_Count word_blocks].
    rewrite !filter_app, filter_cons_True, !length_app by done.
    cbn [length]. lia.
Qed.

(** X26 at a concrete input: a WORD block between a line and a text
    block. *)
Lemma block_of_a_type_not_shown_changes_no_page_example :
  show_page [inr ex_base] ([ex_line] ++ ex_word :: [ex_text]) 1 no_world
  = show_page [inr ex_base] ([ex_line] ++ [ex_text]) 1 no_world /\
  (BlockType ex_word = "WORD" ->
   Word_Count (make_stats [inr ex_base]
                 (sort_blocks ([ex_line] ++ ex_word :: [ex_text])))
   = Word_Count (make_stats [inr ex_base]
                   (sort_blocks ([ex_line] ++ [ex_text]))) + 1).
Proof.
  apply (block_of_a_type_not_shown_changes_no_page
           [inr ex_base] [ex_line] [ex_text] ex_word 1 no_world).
  - discriminate.
  - apply (bool_decide_unpack _). vm_compute. exact I.
Defined.
